(** * ga-dashboard-agent: the analytics engine and the insight rules

    A shallow embedding of [src/analytics.py] (class [AnalyticsEngine]) and
    of the rule engine of [src/dashboard.py] ([_compile_insights],
    [_compile_recommendations]), with the properties of the specification
    stated and settled on it.

    Modelling conventions.
    - A pandas float is an exact rational ([Q]) or [NaN]; arithmetic is
      exact, so the only rounding is the explicit [round(x, 2)] of the code.
      The code computes in float64: a sum, a mean or a quotient of the code
      is the exact value of the model up to the float64 error, far below the
      hundredths that are reported; but where the exact value lies on a tie
      of [round(x, 2)], or on the threshold of a comparison, the code can
      fall on the other side (107 / 40 is 2.675, which the model rounds to
      2.68 and the code, on the double below it, to 2.67). The statements on
      rounded values and on thresholds are therefore bounds that hold on
      either side ([rounded_near], [exceeds_by]), not equations.
      Infinities are not modelled: the loader produces finite cells and no
      division of the modelled code has a zero divisor.
    - A DataFrame is its column index together with its rows; a row (a pandas
      Series, or a dict after [to_dict('records')]) is a finite map from
      column names to cells.
    - A Python exception is the [Raise] case of the [result] monad. *)

From Stdlib Require Import ZArith QArith Qround Qabs Lia Lqa String List.
From Stdlib Require Import Reals Qreals Psatz Sorted.
From stdpp Require Import base option list strings gmap.

Local Open Scope Z_scope.
Local Open Scope Q_scope.
Local Open Scope string_scope.

(** ** Floats *)

Module Float.

(** A float64 cell: a finite value or NaN. *)
Inductive num : Type :=
| Fin (q : Q)
| NaN.

(** [pd.notna] *)
Definition notna (x : num) : bool :=
  match x with Fin _ => true | NaN => false end.

(** [x > y]; any comparison with NaN is False. *)
Definition gtb (x y : num) : bool :=
  match x, y with
  | Fin a, Fin b => negb (Qle_bool a b)
  | _, _ => false
  end.

(** [x < y] *)
Definition ltb (x y : num) : bool := gtb y x.

Definition Qgtb (a b : Q) : bool := negb (Qle_bool a b).

Definition add (x y : num) : num :=
  match x, y with Fin a, Fin b => Fin (a + b) | _, _ => NaN end.

Definition sub (x y : num) : num :=
  match x, y with Fin a, Fin b => Fin (a - b) | _, _ => NaN end.

Definition mul (x y : num) : num :=
  match x, y with Fin a, Fin b => Fin (a * b) | _, _ => NaN end.

(** [x / y]. A NaN operand gives NaN. A zero divisor is outside the model
    (numpy gives an infinity or NaN there): every division of the code is
    guarded, and the guard is written out at each use. *)
Definition div (x y : num) : num :=
  match x, y with
  | Fin a, Fin b => if Qeq_bool b 0 then NaN else Fin (a / b)
  | _, _ => NaN
  end.

(** Round half to even, to an integer: [rint], and the rule of Python's
    [round] on the exact value. *)
Definition round_half_even (x : Q) : Z :=
  let f := Qfloor x in
  match Qcompare (x - inject_Z f) (1 # 2) with
  | Lt => f
  | Gt => (f + 1)%Z
  | Eq => if Z.even f then f else (f + 1)%Z
  end.

(** [round(x, 2)] on a finite value. *)
Definition round2 (x : Q) : Q := inject_Z (round_half_even (x * 100)) / 100.

(** [round(x, 2)]; NaN stays NaN. *)
Definition round2n (x : num) : num :=
  match x with Fin q => Fin (round2 q) | NaN => NaN end.

(** [int(x)] on a finite value: truncation toward zero. *)
Definition trunc (x : Q) : Z := Z.quot (Qnum x) (Z.pos (Qden x)).

(** Equality of floats up to the representation of the rational. *)
Definition eqn (x y : num) : Prop :=
  match x, y with
  | Fin a, Fin b => a == b
  | NaN, NaN => True
  | _, _ => False
  end.

End Float.
Export Float.

(** ** Exceptions *)

Inductive exn : Type :=
| KeyError (key : string)
| ValueError (msg : string).

Inductive result (A : Type) : Type :=
| Ok (a : A)
| Raise (e : exn).
Arguments Ok {A} a.
Arguments Raise {A} e.

#[export] Instance result_ret : MRet result := fun A a => Ok a.
#[export] Instance result_bind : MBind result := fun A B f m =>
  match m with Ok a => f a | Raise e => Raise e end.

Definition is_ok {A} (m : result A) : bool :=
  match m with Ok _ => true | Raise _ => false end.

(** A loop that appends one element per iteration and stops at the first
    exception. *)
Fixpoint mapR {A B} (f : A -> result B) (l : list A) : result (list B) :=
  match l with
  | [] => Ok []
  | x :: l' => y ← f x; ys ← mapR f l'; Ok (y :: ys)
  end.

(** ** Cells, rows and frames *)

(** A cell holds a string or a float; a missing value is [Num NaN]. *)
Inductive cell : Type :=
| Str (s : string)
| Num (x : num).

Abbreviation Series := (gmap string cell).

Record DataFrame : Type := {
  columns : list string;
  rows : list (gmap string cell)
}.

(** Every row carries exactly the columns of the frame. *)
Definition wf_frame (df : DataFrame) : bool :=
  forallb (fun r : gmap string cell =>
             bool_decide (dom r = list_to_set (columns df))) (rows df).

(** [col in df.columns] *)
Definition has_col (df : DataFrame) (col : string) : bool :=
  bool_decide (col ∈ columns df).

(** [row[col]] *)
Definition getitem (row : gmap string cell) (col : string) : result cell :=
  match row !! col with
  | Some c => Ok c
  | None => Raise (KeyError col)
  end.

(** The float in a cell of a numeric column. The loader coerces the numeric
    columns with [to_numeric(errors='coerce')], so they hold no string; a
    string is read as a missing value. *)
Definition as_float (c : cell) : num :=
  match c with Num x => x | Str _ => NaN end.

Definition float_at (row : gmap string cell) (col : string) : num :=
  match row !! col with Some c => as_float c | None => NaN end.

(** [df[col]] as the list of its values, for a column of the frame. *)
Definition series (rs : list (gmap string cell)) (col : string) : list num :=
  map (fun r => float_at r col) rs.

(** The values pandas keeps under [skipna=True]. *)
Fixpoint dropna (xs : list num) : list Q :=
  match xs with
  | [] => []
  | Fin q :: xs' => q :: dropna xs'
  | NaN :: xs' => dropna xs'
  end.

Fixpoint Qsum (l : list Q) : Q :=
  match l with
  | [] => 0
  | q :: l' => q + Qsum l'
  end.

Definition Qlen (l : list Q) : Q := inject_Z (Z.of_nat (length l)).

(** [Series.sum()]: NaN is skipped, the empty sum is 0. *)
Definition series_sum (xs : list num) : Q := Qsum (dropna xs).

(** [Series.mean()]: NaN is skipped, the mean of nothing is NaN. *)
Definition series_mean (xs : list num) : num :=
  match dropna xs with
  | [] => NaN
  | vs => Fin (Qsum vs / Qlen vs)
  end.

(** The square of [Series.std()]: pandas' default [ddof=1], the sample
    variance; NaN with fewer than two values. *)
Definition series_var (xs : list num) : num :=
  match dropna xs with
  | [] | [_] => NaN
  | vs =>
      let m := Qsum vs / Qlen vs in
      Fin (Qsum (map (fun v => (v - m) * (v - m)) vs) / (Qlen vs - 1))
  end.

(** [x > mean + std] where [std] is the square root of [var]. With exact
    arithmetic this is [x - mean > 0] and [(x - mean)^2 > var], which is how
    it is decided here ([exceeds_sqrt] below relates it to the real square
    root). False as soon as one operand is NaN. The code compares float64
    values: a value within the float64 error of the threshold can fall on
    either side of it ([exceeds_by]). *)
Definition exceeds (x mean var : num) : bool :=
  match x, mean, var with
  | Fin a, Fin m, Fin v => Qgtb (a - m) 0 && Qgtb ((a - m) * (a - m)) v
  | _, _, _ => false
  end.

(** [Series.idxmin()] / [Series.idxmax()] as a position: the first occurrence
    of the extreme among the values that are not NaN. With no such value
    pandas 3 raises this ValueError; earlier versions return NaN, on which the
    [.loc] that follows raises a KeyError. *)
Fixpoint idx_extreme (better : Q -> Q -> bool) (xs : list num) (i : nat)
    (best : option (nat * Q)) : option (nat * Q) :=
  match xs with
  | [] => best
  | NaN :: xs' => idx_extreme better xs' (S i) best
  | Fin q :: xs' =>
      match best with
      | None => idx_extreme better xs' (S i) (Some (i, q))
      | Some (_, b) =>
          idx_extreme better xs' (S i) (if better q b then Some (i, q) else best)
      end
  end.

Definition idxmin (xs : list num) : result nat :=
  match idx_extreme (fun q b => Qgtb b q) xs 0%nat None with
  | Some (i, _) => Ok i
  | None => Raise (ValueError "Encountered all NA values")
  end.

Definition idxmax (xs : list num) : result nat :=
  match idx_extreme (fun q b => Qgtb q b) xs 0%nat None with
  | Some (i, _) => Ok i
  | None => Raise (ValueError "Encountered all NA values")
  end.

(** [sort_values(ascending=False)] on float keys: descending, NaN last. The
    sort is written as a stable insertion sort; numpy's default sort does not
    promise an order among equal keys, and nothing below relies on one. *)
Definition desc_before (a b : num) : bool :=
  match a, b with
  | Fin x, Fin y => Qgtb x y
  | Fin _, NaN => true
  | NaN, _ => false
  end.

Fixpoint insert_desc {A} (key : A -> num) (x : A) (l : list A) : list A :=
  match l with
  | [] => [x]
  | y :: l' =>
      if desc_before (key y) (key x) then y :: insert_desc key x l'
      else x :: l
  end.

Definition sort_desc {A} (key : A -> num) (l : list A) : list A :=
  foldr (insert_desc key) [] l.

(** [df.sort_values(by, ascending=False)] *)
Definition sort_values_desc (df : DataFrame) (by_ : string) : result DataFrame :=
  if has_col df by_ then
    Ok {| columns := columns df;
          rows := sort_desc (fun r => float_at r by_) (rows df) |}
  else Raise (KeyError by_).

(** *** groupby *)

Definition is_missing (c : cell) : bool :=
  match c with Num NaN => true | _ => false end.

Definition cell_eqb (a b : cell) : bool :=
  match a, b with
  | Str s, Str t => String.eqb s t
  | Num (Fin p), Num (Fin q) => Qeq_bool p q
  | _, _ => false
  end.

(** The order of group keys: strings by code point, numbers by value. A
    column read from a CSV file is not mixed; numbers are put first. *)
Definition cell_leb (a b : cell) : bool :=
  match a, b with
  | Str s, Str t => String.leb s t
  | Num (Fin p), Num (Fin q) => Qle_bool p q
  | Num _, Str _ => true
  | _, _ => false
  end.

Fixpoint insert_key (k : cell) (ks : list cell) : list cell :=
  match ks with
  | [] => [k]
  | k' :: ks' =>
      if cell_eqb k k' then ks
      else if cell_leb k k' then k :: ks
      else k' :: insert_key k ks'
  end.

(** The group keys of [groupby(g)]: the distinct values of the column, in
    ascending order ([sort=True]), missing values dropped ([dropna=True]). *)
Definition group_keys (rs : list (gmap string cell)) (g : string) : list cell :=
  foldr (fun r ks =>
           match r !! g with
           | Some c => if is_missing c then ks else insert_key c ks
           | None => ks
           end) [] rs.

Definition group_rows (rs : list (gmap string cell)) (g : string) (k : cell)
    : list (gmap string cell) :=
  List.filter (fun r => match r !! g with
                        | Some c => cell_eqb c k
                        | None => false
                        end) rs.

Inductive aggfun : Type := agg_sum | agg_mean.

(** A groupby sum of nothing but NaN is 0; a mean of nothing but NaN is NaN. *)
Definition aggregate (f : aggfun) (xs : list num) : num :=
  match f with
  | agg_sum => Fin (series_sum xs)
  | agg_mean => series_mean xs
  end.

(** The row of one group: the key, then one aggregate per column. *)
Definition agg_row (g : string) (k : cell) (grp : list (gmap string cell))
    (agg_cols : list (string * aggfun)) : gmap string cell :=
  foldr (fun cf (row : gmap string cell) =>
           <[cf.1 := Num (aggregate cf.2 (series grp cf.1))]> row)
        {[ g := k ]} agg_cols.

(** [df.groupby(g).agg(agg_cols).reset_index()]. pandas rejects an empty
    [agg_cols]; the engine has one only without a 'users' column, where the
    sort that follows raises in any case. *)
Definition groupby_agg (df : DataFrame) (g : string)
    (agg_cols : list (string * aggfun)) : DataFrame :=
  {| columns := g :: map fst agg_cols;
     rows := map (fun k => agg_row g k (group_rows (rows df) g k) agg_cols)
                 (group_keys (rows df) g) |}.

(** [df[col] = values], for a new column given row by row. *)
Definition assign (df : DataFrame) (col : string)
    (f : gmap string cell -> num) : DataFrame :=
  {| columns := columns df ++ [col];
     rows := map (fun r => <[col := Num (f r)]> r) (rows df) |}.

(** [Series.replace(0, np.nan)] on one value *)
Definition replace_zero_nan (x : num) : num :=
  match x with
  | Fin q => if Qeq_bool q 0 then NaN else Fin q
  | NaN => NaN
  end.

(** ** The report records *)

(** The dicts of [compute_summary_metrics] and of [analyze_user_behavior]
    are dicts from names to floats, and of names to such dicts: they are maps,
    read by the rule engine with [d.get(key, default)]. The [date_range]
    entry of the summary (the string minimum and maximum of the 'date'
    column) is left out: no computation reads it back. *)
Abbreviation Summary := (gmap string num).
Abbreviation Behavior := (gmap string (gmap string num)).

Module Performer.
Record t : Type := {
  channel : cell;
  users : Z;
  performance_score : Q
}.
End Performer.

Module Underperformer.
Record t : Type := {
  channel : cell;
  issue : string;
  bounce_rate : num
}.
End Underperformer.

Module Share.
Record t : Type := {
  channel : cell;
  value : Z;
  percentage : num
}.
End Share.

(** The dict of [_analyze_traffic_quality]; a key is omitted when its source
    column is absent. *)
Module Quality.
Record t : Type := {
  avg_bounce_rate : option num;
  best_bounce_rate_channel : option cell;
  avg_conversion_rate : option num;
  best_conversion_channel : option cell
}.
End Quality.

Module Analysis.
Record t : Type := {
  by_channel : list (gmap string cell);
  top_performers : list Performer.t;
  underperformers : list Underperformer.t;
  channel_distribution : list Share.t;
  quality_analysis : Quality.t
}.
End Analysis.

(** What [analyze_source_medium] returns: the dict with the single key
    'error', or the analysis. *)
Inductive SourceAnalysis : Type :=
| SourceError (error : string)
| SourceReport (analysis : Analysis.t).

Module EventSummary.
Record t : Type := {
  total_events : Z;
  unique_event_types : nat
}.
End EventSummary.

Module TopEvent.
Record t : Type := {
  event : cell;
  count : Z
}.
End TopEvent.

Module Events.
Record t : Type := {
  event_summary : option EventSummary.t;
  top_events : list TopEvent.t;
  conversion_events : list cell;
  engagement_events : list (string * list string)
}.
End Events.

(** What [analyze_events] returns: the dict with the single key 'message',
    or the analysis. *)
Inductive EventAnalysis : Type :=
| EventMessage (message : string)
| EventReport (events : Events.t).

(** ** AnalyticsEngine *)

(** [max(a, b)] of Python: the second argument only when it is greater. *)
Definition pymax (a b : Q) : Q := if Qgtb b a then b else a.

Definition _safe_sum (data : DataFrame) (col : string) : Q :=
  if has_col data col then series_sum (series (rows data) col) else 0.

Definition _safe_mean (data : DataFrame) (col : string) : num :=
  if has_col data col then series_mean (series (rows data) col) else Fin 0.

(** The two ratios of the summary are rounded from the exact quotient here
    and from the float64 quotient in the code: they agree up to one hundredth
    at a tie of the rounding (92 / 160 is 0.58 here and 0.57 in the code). *)
Definition _calculate_pages_per_session (data : DataFrame) : Q :=
  if has_col data "pageviews" && has_col data "sessions" then
    let total_sessions := series_sum (series (rows data) "sessions") in
    if Qgtb total_sessions 0 then
      round2 (series_sum (series (rows data) "pageviews") / total_sessions)
    else 0
  else 0.

Definition _calculate_conversion_rate (data : DataFrame) : Q :=
  if has_col data "conversions" && has_col data "sessions" then
    let total_sessions := series_sum (series (rows data) "sessions") in
    if Qgtb total_sessions 0 then
      round2 (series_sum (series (rows data) "conversions") / total_sessions * 100)
    else 0
  else 0.

Definition compute_summary_metrics (data : DataFrame) : gmap string num :=
  list_to_map [
    ("total_users", Fin (_safe_sum data "users"));
    ("total_sessions", Fin (_safe_sum data "sessions"));
    ("total_pageviews", Fin (_safe_sum data "pageviews"));
    ("total_conversions", Fin (_safe_sum data "conversions"));
    ("total_revenue", Fin (_safe_sum data "revenue"));
    ("avg_bounce_rate", _safe_mean data "bounce_rate");
    ("avg_session_duration", _safe_mean data "avg_session_duration");
    ("pages_per_session", Fin (_calculate_pages_per_session data));
    ("conversion_rate", Fin (_calculate_conversion_rate data))
  ].

(** [row.get('source_medium', row.get('source', 'Unknown'))] *)
Definition channel_of (row : gmap string cell) : cell :=
  default (default (Str "Unknown") (row !! "source")) (row !! "source_medium").

(** [int(c)] on a cell of a numeric column. *)
Definition int_cell (c : cell) : result Z :=
  match as_float c with
  | Fin q => Ok (trunc q)
  | NaN => Raise (ValueError "cannot convert float NaN to integer")
  end.

Definition weights : list (string * Q) :=
  [("conversion_rate", 4 # 10); ("sessions_per_user", 3 # 10);
   ("bounce_rate", - (3 # 10))].

(** One iteration of the loop of [_calculate_performance_score]. *)
Definition add_metric (row : gmap string cell) (score : Q) (mw : string * Q) : Q :=
  match row !! mw.1 with
  | Some c =>
      match as_float c with
      | Fin v =>
          if Qgtb mw.2 0 then score + v * mw.2
          else score + (100 - v) * Qabs mw.2
      | NaN => score
      end
  | None => score
  end.

(** The sum is exact here and a float64 sum in the code: the two scores
    agree up to one hundredth at a tie of the rounding ([performer_near]). *)
Definition _calculate_performance_score (row : gmap string cell) : Q :=
  round2 (fold_left (add_metric row) weights 0).

Definition _identify_top_performers (grouped : DataFrame)
    : result (list Performer.t) :=
  let top := take 5 (rows grouped) in
  mapR (fun row =>
          users ← int_cell (default (Num (Fin 0)) (row !! "users"));
          Ok {| Performer.channel := channel_of row;
                Performer.users := users;
                Performer.performance_score := _calculate_performance_score row |})
       top.

(** The rows selected by the boolean mask keep the order of the frame; a row
    of [high_bounce] has a 'bounce_rate' that is not NaN, so [row['bounce_rate']]
    and [round] cannot fail on it. *)
Definition _identify_underperformers (grouped : DataFrame)
    : list Underperformer.t :=
  let underperformers :=
    if has_col grouped "bounce_rate" then
      let col := series (rows grouped) "bounce_rate" in
      let high_bounce :=
        List.filter (fun row => exceeds (float_at row "bounce_rate")
                                        (series_mean col) (series_var col))
                    (rows grouped) in
      map (fun row =>
             {| Underperformer.channel := channel_of row;
                Underperformer.issue := "High bounce rate";
                Underperformer.bounce_rate := round2n (float_at row "bounce_rate") |})
          high_bounce
    else [] in
  take 5 underperformers.

(** The share is exact here and a float64 product in the code, which rounds
    the double: the percentages agree up to one hundredth at a tie of the
    rounding ([share_near]). *)
Definition _calculate_distribution (grouped : DataFrame) (metric : string)
    : result (list Share.t) :=
  if negb (has_col grouped metric) then Ok []
  else
    let total := series_sum (series (rows grouped) metric) in
    mapR (fun row =>
            c ← getitem row metric;
            value ← int_cell c;
            Ok {| Share.channel := channel_of row;
                  Share.value := value;
                  Share.percentage :=
                    if Qgtb total 0 then
                      round2n (mul (div (as_float c) (Fin total)) (Fin 100))
                    else Fin 0 |})
         (rows grouped).

(** [grouped.loc[label, 'source_medium']] for the label of the row at position
    [i]: the labels travel with the rows, so this is the row at [i]. *)
Definition loc (grouped : DataFrame) (i : nat) (col : string) : result cell :=
  match rows grouped !! i with
  | Some row => getitem row col
  | None => Raise (KeyError col)
  end.

(** The two averages are rounded from the exact mean here and from the
    float64 mean in the code: they agree up to one hundredth at a tie of the
    rounding. *)
Definition _analyze_traffic_quality (grouped : DataFrame) : result Quality.t :=
  bounce ←
    (if has_col grouped "bounce_rate" then
       let col := series (rows grouped) "bounce_rate" in
       best ← (if has_col grouped "source_medium" then
                 i ← idxmin col; loc grouped i "source_medium"
               else Ok (Str "N/A"));
       Ok (Some (round2n (series_mean col)), Some best)
     else Ok (None, None));
  conv ←
    (if has_col grouped "conversion_rate" then
       let col := series (rows grouped) "conversion_rate" in
       best ← (if has_col grouped "source_medium" then
                 i ← idxmax col; loc grouped i "source_medium"
               else Ok (Str "N/A"));
       Ok (Some (round2n (series_mean col)), Some best)
     else Ok (None, None));
  Ok {| Quality.avg_bounce_rate := bounce.1;
        Quality.best_bounce_rate_channel := bounce.2;
        Quality.avg_conversion_rate := conv.1;
        Quality.best_conversion_channel := conv.2 |}.

(** Lines 29-35 of [analyze_source_medium]: the column to group by. *)
Definition group_col (data : DataFrame) : option string :=
  if negb (has_col data "source_medium") then
    if has_col data "source" then Some "source" else None
  else Some "source_medium".

Definition agg_cols (data : DataFrame) : list (string * aggfun) :=
  map (fun col => (col, agg_sum))
      (List.filter (has_col data)
         ["users"; "sessions"; "pageviews"; "conversions"; "revenue"])
  ++ (if has_col data "bounce_rate" then [("bounce_rate", agg_mean)] else [])
  ++ (if has_col data "avg_session_duration"
      then [("avg_session_duration", agg_mean)] else []).

(** [grouped['sessions'] / grouped['users'].replace(0, np.nan)] on one row *)
Definition sessions_per_user_of (r : gmap string cell) : num :=
  div (float_at r "sessions") (replace_zero_nan (float_at r "users")).

(** [(grouped['conversions'] / grouped['sessions'].replace(0, np.nan)) * 100]
    on one row *)
Definition conversion_rate_in (r : gmap string cell) : num :=
  mul (div (float_at r "conversions") (replace_zero_nan (float_at r "sessions")))
      (Fin 100).

(** Lines 50-51 *)
Definition add_sessions_per_user (grouped : DataFrame) : DataFrame :=
  if has_col grouped "users" && has_col grouped "sessions" then
    assign grouped "sessions_per_user" sessions_per_user_of
  else grouped.

(** Lines 53-54 *)
Definition add_conversion_rate (grouped : DataFrame) : DataFrame :=
  if has_col grouped "conversions" && has_col grouped "sessions" then
    assign grouped "conversion_rate" conversion_rate_in
  else grouped.

(** Lines 38-57: the aggregate per channel with its derived ratios, sorted by
    users. *)
Definition grouped_channels (data : DataFrame) (g : string) : result DataFrame :=
  let grouped := groupby_agg data g (agg_cols data) in
  let grouped := add_sessions_per_user grouped in
  let grouped := add_conversion_rate grouped in
  sort_values_desc grouped "users".

Definition analyze_source_medium (data : DataFrame) : result SourceAnalysis :=
  match group_col data with
  | None => Ok (SourceError "No source/medium data available")
  | Some g =>
      grouped ← grouped_channels data g;
      top ← _identify_top_performers grouped;
      let under := _identify_underperformers grouped in
      distribution ← _calculate_distribution grouped "users";
      quality ← _analyze_traffic_quality grouped;
      Ok (SourceReport
            {| Analysis.by_channel := rows grouped;
               Analysis.top_performers := top;
               Analysis.underperformers := under;
               Analysis.channel_distribution := distribution;
               Analysis.quality_analysis := quality |})
  end.

(** *** User behaviour *)

Definition _compute_engagement_metrics (data : DataFrame) : gmap string num :=
  list_to_map [
    ("avg_pages_per_session", Fin (_calculate_pages_per_session data));
    ("avg_session_duration", _safe_mean data "avg_session_duration");
    ("engagement_rate", sub (Fin 100) (_safe_mean data "bounce_rate"))
  ].

(** The quotients of [_analyze_sessions] and [_compute_retention_indicators]
    are exact here and float64 quotients in the code, which rounds the
    double: the results agree up to one hundredth at a tie of the rounding. *)
Definition _analyze_sessions (data : DataFrame) : gmap string num :=
  list_to_map [
    ("total_sessions", Fin (_safe_sum data "sessions"));
    ("sessions_per_user",
     Fin (round2 (_safe_sum data "sessions" / pymax (_safe_sum data "users") 1)))
  ].

Definition _compute_retention_indicators (data : DataFrame) : gmap string num :=
  list_to_map [
    ("returning_user_indicator",
     round2n (div (_safe_mean data "sessions")
                  (Fin (pymax (_safe_sum data "users") 1))))
  ].

Definition _analyze_user_journey (data : DataFrame) : gmap string num :=
  list_to_map [
    ("avg_touchpoints", Fin (_calculate_pages_per_session data));
    ("conversion_funnel_rate", Fin (_calculate_conversion_rate data))
  ].

Definition analyze_user_behavior (data : DataFrame)
    : gmap string (gmap string num) :=
  list_to_map [
    ("engagement_metrics", _compute_engagement_metrics data);
    ("session_analysis", _analyze_sessions data);
    ("retention_indicators", _compute_retention_indicators data);
    ("user_journey", _analyze_user_journey data)
  ].

(** *** Events *)

(** [Series.unique()]: the distinct values in order of first appearance; the
    missing value counts as one value. *)
Definition cell_same (a b : cell) : bool :=
  cell_eqb a b || (is_missing a && is_missing b).

Fixpoint unique_from (seen : list cell) (cs : list cell) : list cell :=
  match cs with
  | [] => []
  | c :: cs' =>
      if existsb (cell_same c) seen then unique_from seen cs'
      else c :: unique_from (c :: seen) cs'
  end.

Definition unique (rs : list (gmap string cell)) (col : string) : list cell :=
  unique_from [] (omap (fun r : gmap string cell => r !! col) rs).

(** [str.lower()] on the ASCII letters. *)
Definition lower_ascii (a : Ascii.ascii) : Ascii.ascii :=
  let n := Ascii.nat_of_ascii a in
  if (65 <=? n)%nat && (n <=? 90)%nat then Ascii.ascii_of_nat (n + 32) else a.

Fixpoint lower (s : string) : string :=
  match s with
  | EmptyString => EmptyString
  | String a s' => String (lower_ascii a) (lower s')
  end.

(** [kw in s] *)
Fixpoint contains (kw s : string) : bool :=
  String.prefix kw s ||
  match s with
  | EmptyString => false
  | String _ s' => contains kw s'
  end.

(** [str(e)] of an event name. The text of a float is made of digits, a sign,
    a point, an exponent, or is 'nan' or 'inf': it contains none of the
    keywords below, which is all that is asked of it. *)
Definition py_str (e : cell) : string :=
  match e with Str s => s | Num _ => "nan" end.

(** [any(kw in str(e).lower() for kw in keywords)] *)
Definition mentions (keywords : list string) (e : cell) : bool :=
  existsb (fun kw => contains kw (lower (py_str e))) keywords.

Definition _summarize_events (data : DataFrame) : option EventSummary.t :=
  if negb (has_col data "event_name") then None
  else
    Some {| EventSummary.total_events := trunc (_safe_sum data "event_count");
            EventSummary.unique_event_types :=
              length (group_keys (rows data) "event_name") |}.

(** [groupby('event_name')['event_count']] selects the column without a
    check: a frame without it raises the KeyError of pandas. *)
Definition _get_top_events (data : DataFrame) (n : nat) : result (list TopEvent.t) :=
  if negb (has_col data "event_name") then Ok []
  else if negb (has_col data "event_count") then
    Raise (KeyError "Column not found: event_count")
  else
    let sums :=
      map (fun k => (k, series_sum (series (group_rows (rows data) "event_name" k)
                                           "event_count")))
          (group_keys (rows data) "event_name") in
    let event_counts := take n (sort_desc (fun kc => Fin kc.2) sums) in
    Ok (map (fun kc => {| TopEvent.event := kc.1; TopEvent.count := trunc kc.2 |})
            event_counts).

Definition conversion_keywords : list string :=
  ["purchase"; "signup"; "submit"; "complete"; "conversion"; "lead"].

Definition _identify_conversion_events (data : DataFrame) : list cell :=
  if negb (has_col data "event_name") then []
  else List.filter (mentions conversion_keywords) (unique (rows data) "event_name").

Definition engagement_categories : list (string * list string) :=
  [("navigation", ["page_view"; "scroll"; "click"]);
   ("interaction", ["video_play"; "file_download"; "form_start"]);
   ("conversion", ["purchase"; "sign_up"; "generate_lead"])].

(** [categorized[category].append(s)] *)
Definition append_to (category s : string) (categorized : list (string * list string))
    : list (string * list string) :=
  map (fun cl => if String.eqb cl.1 category then (cl.1, (cl.2 ++ [s])%list) else cl)
      categorized.

(** The inner loop with its [break]: the first category with a keyword. *)
Definition first_category (e : cell) : option string :=
  fst <$> List.find (fun ck => mentions ck.2 e) engagement_categories.

Definition _categorize_engagement_events (data : DataFrame)
    : list (string * list string) :=
  if negb (has_col data "event_name") then []
  else
    fold_left (fun categorized e =>
                 match first_category e with
                 | Some category => append_to category (py_str e) categorized
                 | None => categorized
                 end)
              (unique (rows data) "event_name")
              (map (fun ck => (ck.1, [])) engagement_categories).

Definition analyze_events (data : DataFrame) : result EventAnalysis :=
  if negb (has_col data "event_name") then
    Ok (EventMessage "No event data available in CSV")
  else
    let event_summary := _summarize_events data in
    top_events ← _get_top_events data 10;
    Ok (EventReport
          {| Events.event_summary := event_summary;
             Events.top_events := top_events;
             Events.conversion_events := _identify_conversion_events data;
             Events.engagement_events := _categorize_engagement_events data |}).

(** ** DashboardGenerator: the rule engine *)

(** An f-string is kept as its template: the literal pieces and the holes
    with their value and format. *)
Inductive piece : Type :=
| Lit (s : string)
| Hole (c : cell)            (* {c} *)
| HoleThousands (n : Z)      (* {n:,} *)
| Hole2f (x : num).          (* {x:.2f} *)

Module Insight.
Record t : Type := {
  category : string;
  type : string;
  title : string;
  description : list piece
}.
End Insight.

Module Recommendation.
Record t : Type := {
  priority : string;
  category : string;
  title : list piece;
  description : string;
  expected_impact : string
}.
End Recommendation.

Module DashboardMetrics.
Record t : Type := {
  summary : gmap string num;
  source_medium_analysis : SourceAnalysis;
  user_behavior : gmap string (gmap string num);
  event_analysis : EventAnalysis;
  insights : list string;
  recommendations : list string
}.
End DashboardMetrics.

(** [source_analysis.get('top_performers')]: the dict with the key 'error'
    has no such key, and [None] is as false as the empty list. *)
Definition get_top_performers (source_analysis : SourceAnalysis) : list Performer.t :=
  match source_analysis with
  | SourceReport a => Analysis.top_performers a
  | SourceError _ => []
  end.

Definition get_underperformers (source_analysis : SourceAnalysis)
    : list Underperformer.t :=
  match source_analysis with
  | SourceReport a => Analysis.underperformers a
  | SourceError _ => []
  end.

(** [l.append(x)] *)
Definition append {A} (l : list A) (x : A) : list A := (l ++ [x])%list.

(** [d.get(key, 0)] *)
Definition get0 (d : gmap string num) (key : string) : num :=
  default (Fin 0) (d !! key).

Definition _compile_insights (metrics : DashboardMetrics.t) : list Insight.t :=
  let insights : list Insight.t := [] in
  (* Traffic insights *)
  let source_analysis := DashboardMetrics.source_medium_analysis metrics in
  let insights :=
    match get_top_performers source_analysis with
    | top :: _ =>
        append insights
          {| Insight.category := "Traffic";
             Insight.type := "positive";
             Insight.title := "Top Traffic Source Identified";
             Insight.description :=
               [Hole (Performer.channel top);
                Lit " drives the most users to your site with ";
                HoleThousands (Performer.users top); Lit " visitors."] |}
    | [] => insights
    end in
  (* Conversion insights *)
  let summary := DashboardMetrics.summary metrics in
  let insights :=
    if gtb (get0 summary "conversion_rate") (Fin 3) then
      append insights
        {| Insight.category := "Conversion";
           Insight.type := "positive";
           Insight.title := "Strong Conversion Rate";
           Insight.description :=
             [Lit "Your "; Hole2f (get0 summary "conversion_rate");
              Lit "% conversion rate is above the industry average of 2-3%."] |}
    else if gtb (get0 summary "conversion_rate") (Fin 0) then
      append insights
        {| Insight.category := "Conversion";
           Insight.type := "warning";
           Insight.title := "Conversion Rate Optimization Needed";
           Insight.description :=
             [Lit "Your "; Hole2f (get0 summary "conversion_rate");
              Lit "% conversion rate has room for improvement. Consider CRO testing."] |}
    else insights in
  (* Engagement insights *)
  let behavior := DashboardMetrics.user_behavior metrics in
  let insights :=
    if ltb (get0 (default ∅ (behavior !! "engagement_metrics")) "engagement_rate")
           (Fin 50) then
      append insights
        {| Insight.category := "Engagement";
           Insight.type := "critical";
           Insight.title := "High Bounce Rate Alert";
           Insight.description :=
             [Lit "More than half of visitors leave without engaging. Review landing page relevance and load times."] |}
    else insights in
  insights.

Definition _compile_recommendations (metrics : DashboardMetrics.t)
    : list Recommendation.t :=
  let recommendations : list Recommendation.t := [] in
  let summary := DashboardMetrics.summary metrics in
  let source_analysis := DashboardMetrics.source_medium_analysis metrics in
  (* Traffic recommendations *)
  let recommendations :=
    match get_top_performers source_analysis with
    | top :: _ =>
        append recommendations
          {| Recommendation.priority := "High";
             Recommendation.category := "Traffic Acquisition";
             Recommendation.title :=
               [Lit "Increase investment in "; Hole (Performer.channel top)];
             Recommendation.description :=
               "This channel shows the best performance. Consider increasing budget or content creation for this source.";
             Recommendation.expected_impact :=
               "Potential 15-25% increase in quality traffic" |}
    | [] => recommendations
    end in
  (* Conversion recommendations *)
  let recommendations :=
    if ltb (get0 summary "conversion_rate") (Fin 3) then
      append recommendations
        {| Recommendation.priority := "High";
           Recommendation.category := "Conversion Optimization";
           Recommendation.title := [Lit "Implement Conversion Rate Optimization"];
           Recommendation.description :=
             "A/B test landing pages, simplify conversion forms, and add trust signals near CTAs.";
           Recommendation.expected_impact :=
             "Potential 0.5-1% improvement in conversion rate" |}
    else recommendations in
  (* Engagement recommendations *)
  let recommendations :=
    if gtb (get0 summary "avg_bounce_rate") (Fin 60) then
      append recommendations
        {| Recommendation.priority := "Medium";
           Recommendation.category := "User Experience";
           Recommendation.title := [Lit "Reduce Bounce Rate"];
           Recommendation.description :=
             "Improve page load speed, ensure mobile optimization, and enhance above-the-fold content.";
           Recommendation.expected_impact :=
             "Potential 10-15% reduction in bounce rate" |}
    else recommendations in
  (* Underperformer recommendations *)
  let recommendations :=
    match get_underperformers source_analysis with
    | _ :: _ =>
        append recommendations
          {| Recommendation.priority := "Medium";
             Recommendation.category := "Channel Optimization";
             Recommendation.title := [Lit "Review Underperforming Channels"];
             Recommendation.description :=
               "Audit landing pages and targeting for channels with high bounce rates. Consider pausing or reallocating budget.";
             Recommendation.expected_impact := "Better ROI on marketing spend" |}
    | [] => recommendations
    end in
  recommendations.

(** Lines 34-41 of [GADashboardAgent.process]: the metrics handed to the
    generator. *)
Definition compute_metrics (data : DataFrame) : result DashboardMetrics.t :=
  let summary := compute_summary_metrics data in
  source_medium_analysis ← analyze_source_medium data;
  let user_behavior := analyze_user_behavior data in
  event_analysis ← analyze_events data;
  Ok {| DashboardMetrics.summary := summary;
        DashboardMetrics.source_medium_analysis := source_medium_analysis;
        DashboardMetrics.user_behavior := user_behavior;
        DashboardMetrics.event_analysis := event_analysis;
        DashboardMetrics.insights := [];
        DashboardMetrics.recommendations := [] |}.

(** ** DashboardGenerator: the user behaviour section *)

(** The values of the section as they are formatted: [x],
    [f"{x:.0f} seconds"] and [f"{x:.2f}%"]. *)
Inductive shown : Type :=
| Plain (x : num)
| Seconds0f (x : num)
| Percent2f (x : num).

Module MetricLine.
Record t : Type := {
  name : string;
  value : shown;
  interpretation : string
}.
End MetricLine.

Module BehaviorSection.
Record t : Type := {
  section_id : string;
  title : string;
  description : string;
  metrics : list MetricLine.t;
  behavior_insights : list string
}.
End BehaviorSection.

Definition _interpret_pages_per_session (value : num) : string :=
  if ltb value (Fin (15 # 10)) then
    "Low engagement - users are leaving quickly. Consider improving content relevance and internal linking."
  else if ltb value (Fin 3) then
    "Moderate engagement - users are exploring some content. Room for improvement in site navigation."
  else
    "Strong engagement - users are actively exploring multiple pages. Your content resonates well.".

Definition _interpret_session_duration (value : num) : string :=
  if ltb value (Fin 60) then
    "Very short sessions - users may not be finding what they need quickly."
  else if ltb value (Fin 180) then
    "Average session length - consider adding more engaging content to increase time on site."
  else
    "Excellent session duration - users are spending quality time with your content.".

Definition _interpret_engagement_rate (value : num) : string :=
  if ltb value (Fin 50) then
    "Low engagement rate - more than half of visitors leave immediately. Review landing pages."
  else if ltb value (Fin 70) then
    "Moderate engagement - room to improve landing page relevance and user experience."
  else
    "High engagement rate - your content successfully captures visitor interest.".

Definition _interpret_sessions_per_user (value : num) : string :=
  if ltb value (Fin (12 # 10)) then
    "Most users visit only once - focus on retention strategies and email capture."
  else if ltb value (Fin 2) then
    "Some repeat visitors - consider loyalty programs and remarketing campaigns."
  else
    "Strong repeat visitation - users find value in returning to your site.".

Definition _generate_behavior_insights (behavior : gmap string (gmap string num))
    : list string :=
  let insights : list string := [] in
  let engagement := default ∅ (behavior !! "engagement_metrics") in
  let insights :=
    if gtb (get0 engagement "engagement_rate") (Fin 70) then
      append insights
        "âœ… Your engagement rate is above industry average, indicating relevant traffic and good UX."
    else
      append insights
        "âš ï¸ Consider A/B testing landing pages to improve engagement rate." in
  let insights :=
    if gtb (get0 engagement "avg_pages_per_session") (Fin (25 # 10)) then
      append insights
        "âœ… Users are exploring your site deeply - your internal linking strategy is working."
    else
      append insights
        "ðŸ’¡ Add more internal links and related content suggestions to increase page depth." in
  insights.

Definition _generate_user_behavior_section (metrics : DashboardMetrics.t)
    : BehaviorSection.t :=
  let behavior := DashboardMetrics.user_behavior metrics in
  let engagement := default ∅ (behavior !! "engagement_metrics") in
  let sessions := default ∅ (behavior !! "session_analysis") in
  {| BehaviorSection.section_id := "user_behavior";
     BehaviorSection.title := "User Behavior Analysis";
     BehaviorSection.description :=
"Understanding how users interact with your website is crucial for optimization. 
This section analyzes engagement patterns, session behavior, and user journey metrics.";
     BehaviorSection.metrics :=
       [{| MetricLine.name := "Average Pages per Session";
           MetricLine.value := Plain (get0 engagement "avg_pages_per_session");
           MetricLine.interpretation :=
             _interpret_pages_per_session (get0 engagement "avg_pages_per_session") |};
        {| MetricLine.name := "Average Session Duration";
           MetricLine.value := Seconds0f (get0 engagement "avg_session_duration");
           MetricLine.interpretation :=
             _interpret_session_duration (get0 engagement "avg_session_duration") |};
        {| MetricLine.name := "Engagement Rate";
           MetricLine.value := Percent2f (get0 engagement "engagement_rate");
           MetricLine.interpretation :=
             _interpret_engagement_rate (get0 engagement "engagement_rate") |};
        {| MetricLine.name := "Sessions per User";
           MetricLine.value := Plain (get0 sessions "sessions_per_user");
           MetricLine.interpretation :=
             _interpret_sessions_per_user (get0 sessions "sessions_per_user") |}];
     BehaviorSection.behavior_insights := _generate_behavior_insights behavior |}.

(** ** DashboardGenerator: the source/medium section *)

Module Explanation.
Record t : Type := {
  title : string;
  content : list piece
}.
End Explanation.

Module SourceSection.
Record t : Type := {
  section_id : string;
  title : string;
  description : string;
  explanations : list Explanation.t;
  top_performers : list Performer.t;
  underperformers : list Underperformer.t;
  quality_metrics : Quality.t
}.
End SourceSection.

(** [', '.join(names)]: a TypeError, here [None], as soon as one of the names
    is not a string. *)
Fixpoint join_names (names : list cell) : option string :=
  match names with
  | [] => Some ""
  | Num _ :: _ => None
  | Str s :: rest =>
      match rest with
      | [] => Some s
      | _ :: _ => joined ← join_names rest; Some (s ++ ", " ++ joined)
      end
  end.

(** [analysis.get('quality_analysis', {})] *)
Definition get_quality (source_analysis : SourceAnalysis) : Quality.t :=
  match source_analysis with
  | SourceReport a => Analysis.quality_analysis a
  | SourceError _ =>
      {| Quality.avg_bounce_rate := None;
         Quality.best_bounce_rate_channel := None;
         Quality.avg_conversion_rate := None;
         Quality.best_conversion_channel := None |}
  end.

Definition has_key {A} (entry : option A) : bool :=
  match entry with Some _ => true | None => false end.

(** [if quality:] a dict is true when it has a key. *)
Definition nonempty (quality : Quality.t) : bool :=
  has_key (Quality.avg_bounce_rate quality)
  || has_key (Quality.best_bounce_rate_channel quality)
  || has_key (Quality.avg_conversion_rate quality)
  || has_key (Quality.best_conversion_channel quality).

(** The section, or [None] for the TypeError of the join. *)
Definition _generate_source_medium_section (metrics : DashboardMetrics.t)
    : option SourceSection.t :=
  let analysis := DashboardMetrics.source_medium_analysis metrics in
  let top_performers := get_top_performers analysis in
  let underperformers := get_underperformers analysis in
  let quality := get_quality analysis in
  let explanations : list Explanation.t := [] in
  (* Top performers explanation *)
  let explanations :=
    match top_performers with
    | top_channel :: _ =>
        append explanations
          {| Explanation.title := "Top Performing Channel";
             Explanation.content :=
               [Lit "**";
                Hole (Performer.channel top_channel);
                Lit "** is your top traffic source with ";
                HoleThousands (Performer.users top_channel);
                Lit " users.
This channel has a performance score of ";
                Hole (Num (Fin (Performer.performance_score top_channel)));
                Lit ", indicating strong engagement 
and conversion metrics. Consider increasing investment in this channel to drive more qualified traffic."] |}
    | [] => explanations
    end in
  (* Quality analysis explanation *)
  let explanations :=
    if nonempty quality then
      append explanations
        {| Explanation.title := "Traffic Quality Analysis";
           Explanation.content :=
             [Lit "**Best Quality Traffic**: ";
              Hole (default (Str "N/A") (Quality.best_conversion_channel quality));
              Lit " shows the highest conversion rate, 
making it your most valuable traffic source for driving business outcomes.

**Engagement Leader**: ";
              Hole (default (Str "N/A") (Quality.best_bounce_rate_channel quality));
              Lit " has the lowest bounce rate at 
";
              Hole2f (default (Fin 0) (Quality.avg_bounce_rate quality));
              Lit "%, indicating highly engaged visitors."] |}
    else explanations in
  (* Underperformers explanation *)
  explanations ←
    match underperformers with
    | _ :: _ =>
        problem_channels ←
          join_names (map Underperformer.channel (take 3 underperformers));
        Some (append explanations
                {| Explanation.title := "Channels Requiring Attention";
                   Explanation.content :=
                     [Lit "The following channels show concerning metrics: **";
                      Hole (Str problem_channels);
                      Lit "**. 
These sources have higher than average bounce rates, suggesting potential issues with:
- Landing page relevance
- Traffic quality
- User intent mismatch

Consider reviewing landing pages and audience targeting for these channels."] |})
    | [] => Some explanations
    end;
  Some {| SourceSection.section_id := "source_medium_analysis";
          SourceSection.title := "Source/Medium Deep Dive";
          SourceSection.description :=
            "Detailed analysis of traffic acquisition channels with performance insights";
          SourceSection.explanations := explanations;
          SourceSection.top_performers := top_performers;
          SourceSection.underperformers := underperformers;
          SourceSection.quality_metrics := quality |}.

(** * The vocabulary of the statements *)

(** The propositions and tests in which the properties are stated; those
    named [_as_stated] follow the words of the specification. *)

(** [x > q] and [x <= q] on a float that may be NaN, as propositions. *)
Definition above (x : num) (q : Q) : Prop :=
  match x with Fin a => q < a | NaN => False end.

Definition at_most (x : num) (q : Q) : Prop :=
  match x with Fin a => a <= q | NaN => False end.

(** The insight list holds an insight of this category and severity. *)
Definition emits (category severity : string) (insights : list Insight.t) : bool :=
  existsb (fun i => String.eqb (Insight.category i) category
                    && String.eqb (Insight.type i) severity) insights.

(** [summary.get('conversion_rate', 0)] of the metrics. *)
Definition conversion_rate_of (metrics : DashboardMetrics.t) : num :=
  get0 (DashboardMetrics.summary metrics) "conversion_rate".

(** The severities and the priorities of the data model. *)
Definition severity_ok (i : Insight.t) : Prop :=
  Insight.type i = "positive" \/ Insight.type i = "warning"
  \/ Insight.type i = "critical".

Definition priority_ok (r : Recommendation.t) : Prop :=
  Recommendation.priority r = "High" \/ Recommendation.priority r = "Medium".

(** [analyze_user_behavior()['retention_indicators']['returning_user_indicator']] *)
Definition returning_user_indicator (data : DataFrame) : option num :=
  analyze_user_behavior data !! "retention_indicators"
    ≫= (fun d : gmap string num => d !! "returning_user_indicator").

(** [analyze_user_behavior()['session_analysis']['sessions_per_user']] *)
Definition sessions_per_user_indicator (data : DataFrame) : option num :=
  analyze_user_behavior data !! "session_analysis"
    ≫= (fun d : gmap string num => d !! "sessions_per_user").

(** The claim of the specification, in its words: total sessions over
    max(total users, 1), rounded to 2 decimals. *)
Definition C4_as_stated (data : DataFrame) : Prop :=
  exists r, returning_user_indicator data = Some (Fin r)
            /\ r == round2 (_safe_sum data "sessions"
                            / pymax (_safe_sum data "users") 1).

(** The columns that [analyze_source_medium] aggregates. *)
Definition agg_names : list string :=
  ["users"; "sessions"; "pageviews"; "conversions"; "revenue";
   "bounce_rate"; "avg_session_duration"].

(** The claim of the specification, in its words: with zero total sessions
    the summary ratios are 0, and a channel with a zero sessions sum has a
    conversion_rate of 0 in the report. *)
Definition C1_as_stated (data : DataFrame) : Prop :=
  (_safe_sum data "sessions" == 0 ->
   _calculate_pages_per_session data == 0 /\ _calculate_conversion_rate data == 0)
  /\ (forall a row,
        analyze_source_medium data = Ok (SourceReport a) ->
        row ∈ Analysis.by_channel a ->
        eqn (float_at row "sessions") (Fin 0) ->
        eqn (float_at row "conversion_rate") (Fin 0)).

(** What a metric adds to the score: its term when the row has a value for
    it, 0 when the column is absent or the value undefined. *)
Definition metric_term (row : gmap string cell) (metric : string)
    (term : Q -> Q) : Q :=
  match float_at row metric with
  | Fin v => term v
  | NaN => 0
  end.

(** The score of the specification: 0.4 x conversion_rate
    + 0.3 x sessions_per_user + 0.3 x (100 - bounce_rate). *)
Definition weighted_score (row : gmap string cell) : Q :=
  metric_term row "conversion_rate" (fun v => (4 # 10) * v)
  + metric_term row "sessions_per_user" (fun v => (3 # 10) * v)
  + metric_term row "bounce_rate" (fun v => (3 # 10) * (100 - v)).

(** [int(row.get('users', 0))] succeeds on the row. *)
Definition users_defined (row : gmap string cell) : bool :=
  notna (as_float (default (Num (Fin 0)) (row !! "users"))).

(** A performer entry is the one of its row, in the exact arithmetic of the
    model. *)
Definition performer_of (row : gmap string cell) (p : Performer.t) : Prop :=
  Performer.channel p = channel_of row
  /\ Performer.performance_score p == round2 (weighted_score row)
  /\ (float_at row "conversion_rate" = NaN ->
      float_at row "sessions_per_user" = NaN ->
      float_at row "bounce_rate" = NaN ->
      Performer.performance_score p == 0).

(** A row is above the threshold of the code: its bounce_rate exceeds the
    mean plus the sample standard deviation of the column. *)
Definition above_threshold (grouped : DataFrame) (row : gmap string cell) : bool :=
  exceeds (float_at row "bounce_rate")
          (series_mean (series (rows grouped) "bounce_rate"))
          (series_var (series (rows grouped) "bounce_rate")).

(** The same over the reals, with the square root. *)
Definition exceeds_mean_plus_std (grouped : DataFrame) (row : gmap string cell)
    : Prop :=
  exists b m v,
    float_at row "bounce_rate" = Fin b
    /\ series_mean (series (rows grouped) "bounce_rate") = Fin m
    /\ series_var (series (rows grouped) "bounce_rate") = Fin v
    /\ (Q2R m + sqrt (Q2R v) < Q2R b)%R.

(** The entry of a row in the underperformer list. *)
Definition underperformer_of (row : gmap string cell) : Underperformer.t :=
  {| Underperformer.channel := channel_of row;
     Underperformer.issue := "High bounce rate";
     Underperformer.bounce_rate := round2n (float_at row "bounce_rate") |}.

(** The population variance (divisor n) of the values that are not NaN. *)
Definition population_var (xs : list num) : num :=
  match dropna xs with
  | [] => NaN
  | vs =>
      let m := Qsum vs / Qlen vs in
      Fin (Qsum (map (fun v => (v - m) * (v - m)) vs) / Qlen vs)
  end.

(** The bounce_rate of the row exceeds the mean plus the population standard
    deviation of the column. *)
Definition above_population_threshold (grouped : DataFrame)
    (row : gmap string cell) : bool :=
  exceeds (float_at row "bounce_rate")
          (series_mean (series (rows grouped) "bounce_rate"))
          (population_var (series (rows grouped) "bounce_rate")).

(** Among the rows above that threshold, the 5 with the highest bounce_rate. *)
Definition highest_bounce_5 (grouped : DataFrame) : list (gmap string cell) :=
  take 5 (sort_desc (fun r => float_at r "bounce_rate")
            (List.filter (above_population_threshold grouped) (rows grouped))).

(** The claim of the specification, in its words: the list holds the groups
    above the population threshold, capped to the 5 with the highest
    bounce_rate; it is empty without the column and never longer than 5. *)
Definition C3_as_stated (grouped : DataFrame) : Prop :=
  (has_col grouped "bounce_rate" = true ->
   map Underperformer.channel (_identify_underperformers grouped)
   ≡ₚ map channel_of (highest_bounce_5 grouped))
  /\ (has_col grouped "bounce_rate" = false ->
      _identify_underperformers grouped = [])
  /\ (length (_identify_underperformers grouped) <= 5)%nat.

(** The row has a value for the metric: [row[metric]] and [int] succeed. *)
Definition metric_defined (metric : string) (row : gmap string cell) : bool :=
  notna (float_at row metric).

(** The row has a value for the metric, and it is not negative. *)
Definition metric_nonneg (metric : string) (row : gmap string cell) : bool :=
  match float_at row metric with
  | Fin x => Qle_bool 0 x
  | NaN => false
  end.

(** The entry of a row in the distribution, for the column total [total], in
    the exact arithmetic of the model. *)
Definition share_of (metric : string) (total : Q) (row : gmap string cell)
    (e : Share.t) : Prop :=
  exists x,
    float_at row metric = Fin x
    /\ Share.channel e = channel_of row
    /\ Share.value e = trunc x
    /\ Share.percentage e
       = (if Qgtb total 0 then Fin (round2 (x / total * 100)) else Fin 0).

(** The loop of [_calculate_distribution] for a given total. *)
Definition share_entry (metric : string) (total : Q) (row : gmap string cell)
    : result Share.t :=
  c ← getitem row metric;
  value ← int_cell c;
  Ok {| Share.channel := channel_of row;
        Share.value := value;
        Share.percentage :=
          if Qgtb total 0 then
            round2n (mul (div (as_float c) (Fin total)) (Fin 100))
          else Fin 0 |}.

(** The percentages of a distribution, as rationals. *)
Definition percentages (d : list Share.t) : list Q :=
  dropna (map Share.percentage d).

(** The percentage is finite and lies between [lo] and [hi]. *)
Definition percentage_within (lo hi : Q) (e : Share.t) : Prop :=
  exists p, Share.percentage e = Fin p /\ lo <= p <= hi.

(** The float64 error of the code on a computation over values of these
    sizes: a million-millionth of their total size bounds it with a wide
    margin. *)
Definition float_noise (sizes : list Q) : Q :=
  Qsum (map Qabs sizes) * (1 # 1000000000000).

(** [r] can be the outcome of [round(v, 2)] on a float64 evaluation [v] of
    the exact value [q]: it is within half a hundredth of [q], up to the
    float64 error. *)
Definition rounded_near (sizes : list Q) (q r : Q) : Prop :=
  Qabs (r - q) <= (1 # 200) + float_noise sizes.



(** The float64 error on the mean and the deviation of the bounce rates. *)
Definition bounce_noise (grouped : DataFrame) : Q :=
  float_noise (dropna (series (rows grouped) "bounce_rate")).

(** The bounce_rate of the row exceeds the mean plus the sample standard
    deviation of the column by more than [margin]; with a negative margin,
    it is not below them by as much. *)
Definition exceeds_by (margin : Q) (grouped : DataFrame)
    (row : gmap string cell) : Prop :=
  exists b m v,
    float_at row "bounce_rate" = Fin b
    /\ series_mean (series (rows grouped) "bounce_rate") = Fin m
    /\ series_var (series (rows grouped) "bounce_rate") = Fin v
    /\ (Q2R m + sqrt (Q2R v) + Q2R margin < Q2R b)%R.

(** An underperformer entry is the one of its row: the channel of the row,
    the issue, and the bounce_rate of the row rounded to 2 decimals. *)
Definition underperformer_near (row : gmap string cell)
    (e : Underperformer.t) : Prop :=
  Underperformer.channel e = channel_of row
  /\ Underperformer.issue e = "High bounce rate"
  /\ exists b r,
       float_at row "bounce_rate" = Fin b
       /\ Underperformer.bounce_rate e = Fin r
       /\ rounded_near [b] b r.

(** The entry of a row in the distribution, for the column total [total]:
    its percentage is the share of the row rounded to 2 decimals, and 0
    without a positive total. *)
Definition share_near (metric : string) (total : Q) (row : gmap string cell)
    (e : Share.t) : Prop :=
  exists x p,
    float_at row metric = Fin x
    /\ Share.channel e = channel_of row
    /\ Share.value e = trunc x
    /\ Share.percentage e = Fin p
    /\ if Qgtb total 0
       then rounded_near [x / total * 100] (x / total * 100) p
       else p == 0.

(** What each session value adds to the retention indicator before the
    rounding: its share of the mean, over max(total users, 1). *)
Definition retention_terms (data : DataFrame) : list Q :=
  let sessions := dropna (series (rows data) "sessions") in
  map (fun s => s / Qlen sessions / pymax (_safe_sum data "users") 1) sessions.

(** ** The vocabulary of the further properties *)

(** [a] does not come strictly after [b] in the descending order. *)
Definition not_after (a b : num) : Prop := desc_before b a = false.

(** [a] comes strictly before [b] in the order of the group keys. *)
Definition key_lt (a b : cell) : Prop :=
  cell_leb a b = true /\ cell_eqb a b = false.

(** The row of the report for the group key [k]. *)
Definition report_row (data : DataFrame) (g : string) (k : cell)
    : gmap string cell :=
  let r0 := agg_row g k (group_rows (rows data) g k) (agg_cols data) in
  let r1 := if has_col data "sessions"
            then <["sessions_per_user" := Num (sessions_per_user_of r0)]> r0
            else r0 in
  if has_col data "conversions" && has_col data "sessions"
  then <["conversion_rate" := Num (conversion_rate_in r1)]> r1
  else r1.

(** The columns that [analyze_source_medium] sums per channel. *)
Definition sum_names : list string :=
  ["users"; "sessions"; "pageviews"; "conversions"; "revenue"].

(** The row belongs to a channel: its grouping column holds a value. *)
Definition has_channel (g : string) (r : gmap string cell) : bool :=
  match r !! g with
  | Some c => negb (is_missing c)
  | None => false
  end.

(** The row of the report is the one of the channel [c]. *)
Definition of_channel (g : string) (c : cell) (row : gmap string cell) : bool :=
  match row !! g with
  | Some k => cell_eqb c k
  | None => false
  end.

(** The value of a cell in a sum: NaN is skipped. *)
Definition summand (c : string) (r : gmap string cell) : Q :=
  match float_at r c with Fin x => x | NaN => 0 end.

(** The row has a key among [ks]. *)
Definition keyed_by (g : string) (ks : list cell) (r : gmap string cell) : bool :=
  match r !! g with
  | Some x => existsb (cell_eqb x) ks
  | None => false
  end.

(** The channel [ch] is the 'source_medium' of the first row whose value in
    [col] is the lowest of the column. *)
Definition first_lowest (grouped : DataFrame) (col : string) (ch : cell) : Prop :=
  exists i row v,
    rows grouped !! i = Some row
    /\ row !! "source_medium" = Some ch
    /\ float_at row col = Fin v
    /\ (forall row' w, row' ∈ rows grouped -> float_at row' col = Fin w -> v <= w)
    /\ (forall j row' w, (j < i)%nat -> rows grouped !! j = Some row' ->
                         float_at row' col = Fin w -> v < w).

(** The same for the highest value. *)
Definition first_highest (grouped : DataFrame) (col : string) (ch : cell) : Prop :=
  exists i row v,
    rows grouped !! i = Some row
    /\ row !! "source_medium" = Some ch
    /\ float_at row col = Fin v
    /\ (forall row' w, row' ∈ rows grouped -> float_at row' col = Fin w -> w <= v)
    /\ (forall j row' w, (j < i)%nat -> rows grouped !! j = Some row' ->
                         float_at row' col = Fin w -> w < v).

(** A column of the aggregate has no value at all. *)
Definition all_nan (grouped : DataFrame) (col : string) : Prop :=
  has_col grouped col = true /\ dropna (series (rows grouped) col) = [].

(** The row recorded no session: the value is 0 or missing. *)
Definition no_session (r : gmap string cell) : bool :=
  match float_at r "sessions" with
  | Fin x => Qeq_bool x 0
  | NaN => true
  end.

(** [str.lower()] is modelled on the ASCII letters: the statements on event
    names are made for datasets whose names are ASCII text. *)
Definition ascii_text (s : string) : bool :=
  forallb (fun a => (Ascii.nat_of_ascii a <? 128)%nat) (list_ascii_of_string s).

Definition ascii_event_names (data : DataFrame) : bool :=
  forallb (fun c => match c with Str s => ascii_text s | Num _ => true end)
          (omap (fun r : gmap string cell => r !! "event_name") (rows data)).

(** An event name occurs in the dataset. *)
Definition event_occurs (data : DataFrame) (s : string) : Prop :=
  exists r, r ∈ rows data /\ r !! "event_name" = Some (Str s).

(** The lower-case form of a name contains one of the keywords. *)
Definition names_keyword (keywords : list string) (s : string) : Prop :=
  exists kw pre post, kw ∈ keywords /\ lower s = pre ++ kw ++ post.

Definition in_category (category : string) (e : cell) : bool :=
  bool_decide (first_category e = Some category).

(** A recommendation of the category is made. *)
Definition recommends (category : string) (recs : list Recommendation.t) : bool :=
  existsb (fun r => String.eqb (Recommendation.category r) category) recs.

Definition below (x : num) (q : Q) : Prop :=
  match x with Fin a => a < q | NaN => False end.

(** [summary.get('avg_bounce_rate', 0)] *)
Definition avg_bounce_rate_of (metrics : DashboardMetrics.t) : num :=
  get0 (DashboardMetrics.summary metrics) "avg_bounce_rate".

(** [behavior.get('engagement_metrics', {}).get('engagement_rate', 0)] *)
Definition engagement_rate_of (metrics : DashboardMetrics.t) : num :=
  get0 (default ∅ (DashboardMetrics.user_behavior metrics !! "engagement_metrics"))
       "engagement_rate".

Definition Zsum (l : list Z) : Z := fold_right Z.add 0%Z l.

(** Every event count of the dataset is missing or not negative. *)
Definition counts_nonneg (data : DataFrame) : Prop :=
  Forall (fun r => 0 <= summand "event_count" r) (rows data).

(** The interpretation the section prints beside a metric. *)
Definition reading (name : string) (section : BehaviorSection.t) : string :=
  default "" (MetricLine.interpretation
                <$> List.find (fun l => String.eqb (MetricLine.name l) name)
                              (BehaviorSection.metrics section)).

(** One of the texts contains the phrase. *)
Definition says (phrase : string) (texts : list string) : bool :=
  existsb (contains phrase) texts.

(** [engagement.get('avg_pages_per_session', 0)] *)
Definition pages_per_session_of (metrics : DashboardMetrics.t) : num :=
  get0 (default ∅ (DashboardMetrics.user_behavior metrics !! "engagement_metrics"))
       "avg_pages_per_session".

(** The sentences of the explanation of the traffic quality. *)
Definition quality_sentences (best leader : cell) (figure : num) : list piece :=
  [Lit "**Best Quality Traffic**: ";
   Hole best;
   Lit " shows the highest conversion rate, 
making it your most valuable traffic source for driving business outcomes.

**Engagement Leader**: ";
   Hole leader;
   Lit " has the lowest bounce rate at 
";
   Hole2f figure;
   Lit "%, indicating highly engaged visitors."].

(** * Example datasets *)

(** A row from its cells. *)
Definition row_of (l : list (string * cell)) : gmap string cell := list_to_map l.

Definition channel_row (name : string) (users sessions conversions bounce : Q)
    : gmap string cell :=
  row_of [("source_medium", Str name); ("users", Num (Fin users));
          ("sessions", Num (Fin sessions));
          ("conversions", Num (Fin conversions));
          ("bounce_rate", Num (Fin bounce))].

Definition channel_columns : list string :=
  ["source_medium"; "users"; "sessions"; "conversions"; "bounce_rate"].

(** The two-row scenario of the specification. *)
Definition two_channels : DataFrame :=
  {| columns := channel_columns;
     rows := [channel_row "google / organic" 100 120 6 40;
              channel_row "direct / none" 50 50 0 80] |}.

(** A CSV export of events without counts: the loader adds no column. *)
Definition events_only : DataFrame :=
  {| columns := ["event_name"];
     rows := [row_of [("event_name", Str "purchase")];
              row_of [("event_name", Str "page_view")];
              row_of [("event_name", Str "purchase")]] |}.

(** A CSV export with a source and sessions, without users. *)
Definition source_without_users : DataFrame :=
  {| columns := ["source"; "sessions"];
     rows := [row_of [("source", Str "google"); ("sessions", Num (Fin 10))]] |}.

(** A channel without sessions next to an active one. *)
Definition idle_channel : DataFrame :=
  {| columns := channel_columns;
     rows := [channel_row "google / organic" 100 120 6 40;
              channel_row "newsletter / email" 5 0 0 0] |}.

(** All sessions are zero; channels by source. *)
Definition no_sessions : DataFrame :=
  {| columns := ["source"; "users"; "sessions"; "pageviews"; "conversions"];
     rows := [row_of [("source", Str "google"); ("users", Num (Fin 3));
                      ("sessions", Num (Fin 0)); ("pageviews", Num (Fin 0));
                      ("conversions", Num (Fin 0))]] |}.

(** Every channel is without sessions; channels by source and medium. *)
Definition all_idle : DataFrame :=
  {| columns := channel_columns;
     rows := [channel_row "google / organic" 3 0 0 0;
              channel_row "newsletter / email" 5 0 0 0] |}.

(** A dataset with a source and no medium. *)
Definition source_only : DataFrame :=
  {| columns := ["source"; "users"];
     rows := [row_of [("source", Str "google"); ("users", Num (Fin 7))];
              row_of [("source", Str "bing"); ("users", Num (Fin 2))]] |}.

(** A dataset without source and medium. *)
Definition no_channel : DataFrame :=
  {| columns := ["users"; "sessions"];
     rows := [row_of [("users", Num (Fin 7)); ("sessions", Num (Fin 9))]] |}.

(** An aggregate as [grouped_channels] leaves it, with six channels. *)
Definition grouped_row (name : string) (users sessions conversions bounce : Q)
    (per_user rate : num) : gmap string cell :=
  row_of [("source_medium", Str name); ("users", Num (Fin users));
          ("sessions", Num (Fin sessions));
          ("conversions", Num (Fin conversions));
          ("bounce_rate", Num (Fin bounce));
          ("sessions_per_user", Num per_user);
          ("conversion_rate", Num rate)].

Definition six_channels : DataFrame :=
  {| columns := channel_columns ++ ["sessions_per_user"; "conversion_rate"];
     rows := [grouped_row "google / organic" 100 120 6 40 (Fin (12 # 10)) (Fin 5);
              grouped_row "direct / none" 50 50 0 80 (Fin 1) (Fin 0);
              grouped_row "bing / organic" 20 30 3 55 (Fin (15 # 10)) (Fin 10);
              grouped_row "newsletter / email" 10 0 0 0 (Fin 0) NaN;
              grouped_row "partner / referral" 5 5 1 20 (Fin 1) (Fin 20);
              grouped_row "(not set)" 0 4 0 100 NaN (Fin 0)] |}.

Definition bounce_row (name : string) (users bounce : Q) : gmap string cell :=
  row_of [("source_medium", Str name); ("users", Num (Fin users));
          ("bounce_rate", Num (Fin bounce))].

Definition bounce_columns : list string :=
  ["source_medium"; "users"; "bounce_rate"].

(** Five channels; the mean bounce_rate is 29.8, the population deviation
    13.57 and the sample deviation 15.17: 44 lies between the two thresholds. *)
Definition bounce_spread : DataFrame :=
  {| columns := bounce_columns;
     rows := [bounce_row "a" 50 10; bounce_row "b" 40 20; bounce_row "c" 30 30;
              bounce_row "d" 20 44; bounce_row "e" 10 45] |}.

(** Fourteen channels, six of them above the threshold; the one with the
    highest bounce_rate has the fewest users of the six. *)
Definition many_high_bounce : DataFrame :=
  {| columns := bounce_columns;
     rows := [bounce_row "h95" 140 95; bounce_row "h96" 130 96;
              bounce_row "h97" 120 97; bounce_row "h98" 110 98;
              bounce_row "h99" 100 99; bounce_row "h100" 90 100;
              bounce_row "l1" 80 0; bounce_row "l2" 70 0; bounce_row "l3" 60 0;
              bounce_row "l4" 50 0; bounce_row "l5" 40 0; bounce_row "l6" 30 0;
              bounce_row "l7" 20 0; bounce_row "l8" 10 0] |}.

(** Events with counts. *)
Definition event_row (name : string) (count : Q) : gmap string cell :=
  row_of [("event_name", Str name); ("event_count", Num (Fin count))].

Definition counted_events : DataFrame :=
  {| columns := ["event_name"; "event_count"];
     rows := [event_row "page_view" 40; event_row "Purchase" 3;
              event_row "scroll" 25; event_row "page_view" 60;
              event_row "newsletter_signup" 7; event_row "file_download" 9] |}.

(** Two channels of which visitors mostly leave at once. *)
Definition high_bounce : DataFrame :=
  {| columns := channel_columns;
     rows := [channel_row "social / paid" 40 50 1 85;
              channel_row "google / organic" 100 120 6 65] |}.

(** * Properties *)

(** ** Floats and rounding *)

Example round2_half_even_down : round2 (1 # 8) == 12 # 100.
Proof. reflexivity. Qed.

Example round2_half_even_up : round2 (3 # 8) == 38 # 100.
Proof. reflexivity. Qed.

Example round2_neg : round2 (- (1234 # 1000)) == - (123 # 100).
Proof. reflexivity. Qed.

Example trunc_neg : trunc (- (7 # 2)) = (-3)%Z.
Proof. reflexivity. Qed.

Lemma Qgtb_lt (a b : Q) : Qgtb a b = true <-> b < a.
Proof.
  unfold Qgtb. rewrite negb_true_iff. split.
  - intros H. apply Qnot_le_lt. intros Hle.
    apply Qle_bool_iff in Hle. congruence.
  - intros H. destruct (Qle_bool a b) eqn:E; [|reflexivity].
    apply Qle_bool_iff in E. exfalso. lra.
Qed.

Lemma Qgtb_le (a b : Q) : Qgtb a b = false <-> a <= b.
Proof.
  unfold Qgtb. rewrite negb_false_iff. apply Qle_bool_iff.
Qed.

Lemma inject_Z_succ (z : Z) : inject_Z (z + 1) == inject_Z z + 1.
Proof. rewrite inject_Z_plus. reflexivity. Qed.

(** Rounding half to even moves a value by at most one half. *)
Lemma round_half_even_error (x : Q) :
  - (1 # 2) <= inject_Z (round_half_even x) - x <= 1 # 2.
Proof.
  unfold round_half_even.
  pose proof (Qfloor_le x) as Hlo.
  pose proof (Qlt_floor x) as Hhi. rewrite inject_Z_succ in Hhi.
  destruct (Qcompare (x - inject_Z (Qfloor x)) (1 # 2)) eqn:E.
  - apply Qeq_alt in E.
    destruct (Z.even (Qfloor x)); rewrite ?inject_Z_succ; lra.
  - apply Qlt_alt in E. lra.
  - apply Qgt_alt in E. rewrite inject_Z_succ. lra.
Qed.

(** Rounding stays between the floor and the floor plus one, and keeps an
    integer where it is. *)
Lemma round_half_even_floor (x : Q) :
  (Qfloor x <= round_half_even x <= Qfloor x + 1)%Z.
Proof.
  unfold round_half_even.
  destruct (Qcompare _ _); [destruct (Z.even _)|..]; lia.
Qed.

Lemma round_half_even_Z (z : Z) : round_half_even (inject_Z z) = z.
Proof.
  unfold round_half_even. rewrite Qfloor_Z.
  destruct (Qcompare _ _) eqn:E; [| reflexivity |].
  - apply Qeq_alt in E. lra.
  - apply Qgt_alt in E. lra.
Qed.

#[export] Instance round_half_even_proper : Proper (Qeq ==> eq) round_half_even.
Proof.
  intros x y H. unfold round_half_even.
  rewrite (Qfloor_comp _ _ H).
  assert (Qcompare (x - inject_Z (Qfloor y)) (1 # 2)
          = Qcompare (y - inject_Z (Qfloor y)) (1 # 2)) as ->; [|reflexivity].
  apply Qcompare_comp; [rewrite H|]; reflexivity.
Qed.

Lemma round_half_even_range (x : Q) (lo hi : Z) :
  inject_Z lo <= x -> x <= inject_Z hi ->
  (lo <= round_half_even x <= hi)%Z.
Proof.
  intros Hlo Hhi.
  pose proof (round_half_even_floor x) as [H1 H2].
  pose proof (Qfloor_resp_le _ _ Hlo) as Hf. rewrite Qfloor_Z in Hf.
  split; [lia|].
  destruct (Qeq_dec x (inject_Z hi)) as [e|ne].
  - assert (round_half_even x = hi) as ->; [|lia].
    rewrite (round_half_even_proper _ _ e). apply round_half_even_Z.
  - assert (x < inject_Z hi) as Hlt by lra.
    assert (Qfloor x < hi)%Z; [|lia].
    rewrite Zlt_Qlt. pose proof (Qfloor_le x). lra.
Qed.

Lemma round2_error (x : Q) : - (1 # 200) <= round2 x - x <= 1 # 200.
Proof.
  unfold round2. pose proof (round_half_even_error (x * 100)) as H.
  set (r := inject_Z (round_half_even (x * 100))) in *.
  assert (r / 100 == r * (1 # 100)) as -> by (field). lra.
Qed.

Lemma round2_range (x : Q) (lo hi : Z) :
  inject_Z lo <= x -> x <= inject_Z hi ->
  inject_Z lo <= round2 x <= inject_Z hi.
Proof.
  intros Hlo Hhi. unfold round2.
  assert (inject_Z (lo * 100) <= x * 100) as H1
    by (rewrite inject_Z_mult; change (inject_Z 100) with 100; lra).
  assert (x * 100 <= inject_Z (hi * 100)) as H2
    by (rewrite inject_Z_mult; change (inject_Z 100) with 100; lra).
  pose proof (round_half_even_range _ _ _ H1 H2) as [H3 H4].
  rewrite Zle_Qle in H3, H4. rewrite inject_Z_mult in H3, H4.
  change (inject_Z 100) with 100 in *.
  set (r := inject_Z (round_half_even (x * 100))) in *.
  assert (r / 100 == r * (1 # 100)) as -> by (field). lra.
Qed.

Lemma round2_zero (x : Q) : x == 0 -> round2 x == 0.
Proof.
  intros H.
  pose proof (round2_range x 0 0) as Hr.
  change (inject_Z 0) with 0 in Hr. lra.
Qed.

Lemma float_noise_nonneg (sizes : list Q) : 0 <= float_noise sizes.
Proof.
  unfold float_noise. apply Qmult_le_0_compat; [|discriminate].
  induction sizes as [|x l IH]; simpl; [lra|].
  pose proof (Qabs_nonneg x). lra.
Qed.

(** The rounding of the exact value is one of the admitted outcomes. *)
Lemma round2_near (sizes : list Q) (q r : Q) :
  r == round2 q -> rounded_near sizes q r.
Proof.
  intros H. unfold rounded_near.
  pose proof (round2_error q). pose proof (float_noise_nonneg sizes).
  apply Qabs_case; intros _; lra.
Qed.

#[export] Instance round2_proper : Proper (Qeq ==> Qeq) round2.
Proof. intros x y H. unfold round2. rewrite H. reflexivity. Qed.

Lemma gtb_above (x : num) (q : Q) : gtb x (Fin q) = true <-> above x q.
Proof.
  destruct x as [a|]; simpl; [apply Qgtb_lt | split; [discriminate | tauto]].
Qed.

Lemma gtb_not_above (x : num) (q : Q) : gtb x (Fin q) = false <-> ~ above x q.
Proof.
  rewrite <- gtb_above. destruct (gtb x (Fin q)); split; congruence.
Qed.

(** ** The rule engine *)

Ltac case_rules :=
  repeat match goal with
         | |- context [match get_top_performers ?s with _ => _ end] =>
             destruct (get_top_performers s)
         | |- context [match get_underperformers ?s with _ => _ end] =>
             destruct (get_underperformers s)
         | |- context [if gtb ?x ?y then _ else _] =>
             let E := fresh "E" in destruct (gtb x y) eqn:E
         | |- context [if ltb ?x ?y then _ else _] =>
             let E := fresh "E" in destruct (ltb x y) eqn:E
         end.

Lemma emits_positive_conversion (metrics : DashboardMetrics.t) :
  emits "Conversion" "positive" (_compile_insights metrics)
  = gtb (conversion_rate_of metrics) (Fin 3).
Proof.
  unfold _compile_insights, conversion_rate_of, append.
  case_rules; reflexivity.
Qed.

Lemma emits_warning_conversion (metrics : DashboardMetrics.t) :
  emits "Conversion" "warning" (_compile_insights metrics)
  = negb (gtb (conversion_rate_of metrics) (Fin 3))
    && gtb (conversion_rate_of metrics) (Fin 0).
Proof.
  unfold _compile_insights, conversion_rate_of, append.
  case_rules; reflexivity.
Qed.

(** C8. The rule engine emits the positive conversion insight exactly when
    conversion_rate > 3, the warning conversion insight exactly when
    0 < conversion_rate <= 3, neither of them when conversion_rate = 0, and
    never both. *)
Theorem C8_conversion_insights (metrics : DashboardMetrics.t) :
  let cr := conversion_rate_of metrics in
  let insights := _compile_insights metrics in
  (emits "Conversion" "positive" insights = true <-> above cr 3)
  /\ (emits "Conversion" "warning" insights = true <-> above cr 0 /\ at_most cr 3)
  /\ (eqn cr (Fin 0) ->
      emits "Conversion" "positive" insights = false
      /\ emits "Conversion" "warning" insights = false)
  /\ ~ (emits "Conversion" "positive" insights = true
        /\ emits "Conversion" "warning" insights = true).
Proof.
  intros cr insights. subst insights.
  rewrite emits_positive_conversion, emits_warning_conversion. fold cr.
  clearbody cr. destruct cr as [a|]; unfold above, at_most, eqn.
  - change (gtb (Fin a) (Fin 3)) with (Qgtb a 3).
    change (gtb (Fin a) (Fin 0)) with (Qgtb a 0).
    destruct (Qgtb a 3) eqn:E3, (Qgtb a 0) eqn:E0; simpl;
      try apply Qgtb_lt in E3; try apply Qgtb_le in E3;
      try apply Qgtb_lt in E0; try apply Qgtb_le in E0;
      intuition (try discriminate; try lra).
  - simpl. intuition discriminate.
Qed.

(** C10. One run of the rule engine gives at most 3 insights and at most 4
    recommendations; every insight severity is positive, warning or critical,
    and every recommendation priority is High or Medium. *)
Theorem C10_rule_engine_bounds (metrics : DashboardMetrics.t) :
  (length (_compile_insights metrics) <= 3)%nat
  /\ (length (_compile_recommendations metrics) <= 4)%nat
  /\ Forall severity_ok (_compile_insights metrics)
  /\ Forall priority_ok (_compile_recommendations metrics).
Proof.
  unfold _compile_insights, _compile_recommendations, append.
  repeat split.
  - case_rules; simpl; lia.
  - case_rules; simpl; lia.
  - case_rules; simpl;
      repeat (constructor;
              [first [left; reflexivity | right; left; reflexivity
                     | right; right; reflexivity] |]);
      constructor.
  - case_rules; simpl;
      repeat (constructor; [first [left; reflexivity | right; reflexivity] |]);
      constructor.
Qed.

Example two_channels_wf : wf_frame two_channels = true.
Proof. vm_compute. reflexivity. Qed.

Example two_channels_conversion_rate :
  compute_summary_metrics two_channels !! "conversion_rate" = Some (Fin (353 # 100)).
Proof. vm_compute. reflexivity. Qed.

(** ** Retention indicator *)

Lemma returning_user_indicator_eq (data : DataFrame) :
  returning_user_indicator data
  = Some (round2n (div (_safe_mean data "sessions")
                       (Fin (pymax (_safe_sum data "users") 1)))).
Proof. reflexivity. Qed.

Lemma pymax_ge (a b : Q) : b <= pymax a b.
Proof.
  unfold pymax. destruct (Qgtb b a) eqn:E; [lra|].
  apply Qgtb_le in E. exact E.
Qed.

Lemma div_Fin (a b : Q) : ~ b == 0 -> div (Fin a) (Fin b) = Fin (a / b).
Proof.
  intros Hb. unfold div. destruct (Qeq_bool b 0) eqn:E; [|reflexivity].
  apply Qeq_bool_iff in E. contradiction.
Qed.

(** What the code computes for every dataset: the mean of the 'sessions'
    column divided by max(total users, 1), rounded to 2 decimals. With n
    session values it is within half a hundredth, up to the float64 error,
    of total_sessions / n / max(total_users, 1); it is 0 when the column is
    absent and NaN when the column has no value. *)
Lemma retention_indicator_is_mean (data : DataFrame) :
  (has_col data "sessions" = false ->
   exists r, returning_user_indicator data = Some (Fin r) /\ r == 0)
  /\ (has_col data "sessions" = true ->
      dropna (series (rows data) "sessions") <> [] ->
      exists r, returning_user_indicator data = Some (Fin r)
                /\ rounded_near (retention_terms data)
                     (_safe_sum data "sessions"
                      / Qlen (dropna (series (rows data) "sessions"))
                      / pymax (_safe_sum data "users") 1) r)
  /\ (has_col data "sessions" = true ->
      dropna (series (rows data) "sessions") = [] ->
      returning_user_indicator data = Some NaN).
Proof.
  rewrite returning_user_indicator_eq.
  pose proof (pymax_ge (_safe_sum data "users") 1) as Hmax.
  assert (~ pymax (_safe_sum data "users") 1 == 0) as Hnz by lra.
  unfold _safe_mean, _safe_sum at 2 3.
  repeat split.
  - intros ->. rewrite div_Fin by exact Hnz. eexists. split; [reflexivity|].
    apply round2_zero. field. exact Hnz.
  - intros -> Hvs. unfold series_mean, series_sum.
    destruct (dropna (series (rows data) "sessions")) as [|v vs] eqn:E;
      [congruence|].
    rewrite div_Fin by exact Hnz. eexists. split; [reflexivity|].
    apply round2_near. reflexivity.
  - intros -> Hvs. unfold series_mean. rewrite Hvs. reflexivity.
Qed.

(** C4. The code takes the mean of the sessions where the claim, and the
    sibling [_analyze_sessions], take their total. On the two-row scenario
    (sessions 120 and 50, users 100 and 50) the retention indicator is 0.57,
    the mean 85 over 150; total_sessions / max(total_users, 1) is 170 / 150,
    1.13 to 2 decimals, which is what [_analyze_sessions] returns as
    sessions_per_user, and the claim fails. *)
Theorem C4_mean_for_sum :
  returning_user_indicator two_channels = Some (Fin (57 # 100))
  /\ sessions_per_user_indicator two_channels = Some (Fin (113 # 100))
  /\ round2 (_safe_sum two_channels "sessions"
             / pymax (_safe_sum two_channels "users") 1) == 113 # 100
  /\ ~ C4_as_stated two_channels.
Proof.
  split; [vm_compute; reflexivity|]. split; [vm_compute; reflexivity|].
  split; [vm_compute; reflexivity|].
  intros [r [H1 H2]].
  vm_compute in H1. injection H1 as <-.
  vm_compute in H2. discriminate H2.
Qed.

(** ** Absent columns *)

(** C2, at the failing input. With an 'event_name' column and no
    'event_count' column, [_summarize_events] counts 0 events through
    [_safe_sum], and [_get_top_events] raises the KeyError of the column
    selection: [analyze_events], and with it the whole report, fails. In the
    same way the sort by 'users' of [analyze_source_medium] raises when the
    'users' column is absent. *)
Theorem C2_absent_column_raises :
  wf_frame events_only = true
  /\ _summarize_events events_only
     = Some {| EventSummary.total_events := 0;
               EventSummary.unique_event_types := 2 |}
  /\ _get_top_events events_only 10 = Raise (KeyError "Column not found: event_count")
  /\ analyze_events events_only = Raise (KeyError "Column not found: event_count")
  /\ compute_metrics events_only = Raise (KeyError "Column not found: event_count")
  /\ analyze_source_medium source_without_users = Raise (KeyError "users").
Proof. vm_compute. repeat split; reflexivity. Qed.

(** ** The aggregate per channel *)

Lemma insert_desc_perm {A} (key : A -> num) (x : A) (l : list A) :
  insert_desc key x l ≡ₚ x :: l.
Proof.
  induction l as [|y l IH]; simpl; [reflexivity|].
  destruct (desc_before (key y) (key x)); [|reflexivity].
  rewrite IH. apply Permutation_swap.
Qed.

Lemma sort_desc_perm {A} (key : A -> num) (l : list A) : sort_desc key l ≡ₚ l.
Proof.
  induction l as [|x l IH]; simpl; [reflexivity|].
  rewrite insert_desc_perm, IH. reflexivity.
Qed.

Lemma elem_of_sort_desc {A} (key : A -> num) (l : list A) (x : A) :
  x ∈ sort_desc key l <-> x ∈ l.
Proof. rewrite sort_desc_perm. reflexivity. Qed.

Lemma has_col_true (df : DataFrame) (col : string) :
  has_col df col = true <-> col ∈ columns df.
Proof. unfold has_col. apply bool_decide_eq_true. Qed.

Lemma has_col_assign (df : DataFrame) (c : string) (f : gmap string cell -> num)
    (col : string) :
  has_col (assign df c f) col = has_col df col || bool_decide (col = c).
Proof.
  apply eq_true_iff_eq. rewrite orb_true_iff, !has_col_true, bool_decide_eq_true.
  unfold assign; simpl. rewrite elem_of_app, list_elem_of_singleton. reflexivity.
Qed.

Lemma map_fst_tagged {A B} (b : B) (l : list A) :
  map fst (map (fun a => (a, b)) l) = l.
Proof. induction l as [|a l IH]; simpl; [|rewrite IH]; reflexivity. Qed.

Lemma agg_cols_names (data : DataFrame) (col : string) :
  col ∈ map fst (agg_cols data) <-> col ∈ agg_names /\ has_col data col = true.
Proof.
  unfold agg_cols, agg_names. rewrite !map_app, !elem_of_app, map_fst_tagged.
  rewrite (list_elem_of_In (List.filter _ _)), filter_In, <- list_elem_of_In.
  destruct (has_col data "bounce_rate") eqn:E6,
    (has_col data "avg_session_duration") eqn:E7; simpl;
    rewrite ?elem_of_cons, ?elem_of_nil;
    (split; [intros H; decompose [or and] H; subst; tauto
            | intros [H Hc]; decompose [or] H; subst; try congruence; tauto]).
Qed.

Lemma has_col_groupby (data : DataFrame) (g col : string) :
  col ∈ agg_names -> has_col data col = true ->
  has_col (groupby_agg data g (agg_cols data)) col = true.
Proof.
  intros H1 H2. apply has_col_true. simpl. right.
  apply agg_cols_names. tauto.
Qed.

Lemma agg_row_lookup_other (g : string) (k : cell) (grp : list (gmap string cell))
    (agg : list (string * aggfun)) (col : string) :
  col ∉ map fst agg ->
  agg_row g k grp agg !! col = ({[ g := k ]} : gmap string cell) !! col.
Proof.
  induction agg as [|[c f] agg IH]; simpl; intros Hnot; [reflexivity|].
  rewrite not_elem_of_cons in Hnot. destruct Hnot as [Hne Hnot].
  rewrite lookup_insert_ne by congruence. apply IH, Hnot.
Qed.

Lemma agg_row_lookup (g : string) (k : cell) (grp : list (gmap string cell))
    (agg : list (string * aggfun)) (col : string) :
  col ∈ map fst agg ->
  exists f, (col, f) ∈ agg
            /\ agg_row g k grp agg !! col = Some (Num (aggregate f (series grp col))).
Proof.
  induction agg as [|[c f] agg IH]; simpl; intros Hin.
  - apply elem_of_nil in Hin. contradiction.
  - destruct (decide (c = col)) as [->|Hne].
    + exists f. rewrite lookup_insert_eq. split; [left | reflexivity].
    + rewrite elem_of_cons in Hin. destruct Hin as [->|Hin]; [congruence|].
      destruct (IH Hin) as [f' [Hf' Hl]]. exists f'.
      rewrite lookup_insert_ne by congruence. split; [right; exact Hf' | exact Hl].
Qed.

Lemma elem_of_map {A B} (f : A -> B) (l : list A) (y : B) :
  y ∈ map f l <-> exists x, y = f x /\ x ∈ l.
Proof.
  rewrite list_elem_of_In, in_map_iff. split; intros [x [H1 H2]]; exists x.
  - rewrite list_elem_of_In. split; [symmetry|]; assumption.
  - rewrite <- list_elem_of_In. split; [symmetry|]; assumption.
Qed.

Lemma group_col_cases (data : DataFrame) (g : string) :
  group_col data = Some g -> g = "source_medium" \/ g = "source".
Proof.
  unfold group_col.
  destruct (has_col data "source_medium"), (has_col data "source"); simpl;
    intros H; inversion H; tauto.
Qed.

Lemma has_col_grouped (data : DataFrame) (g col : string) :
  group_col data = Some g -> col ∈ agg_names ->
  has_col (groupby_agg data g (agg_cols data)) col = has_col data col.
Proof.
  intros Hg Hcol. apply eq_true_iff_eq. rewrite has_col_true. simpl.
  rewrite elem_of_cons, agg_cols_names. split.
  - intros [->|[_ H]]; [|exact H].
    exfalso. apply group_col_cases in Hg. unfold agg_names in Hcol.
    rewrite !elem_of_cons, elem_of_nil in Hcol.
    destruct Hg as [->| ->]; intuition congruence.
  - tauto.
Qed.

(** The shape of a row of the aggregate: the aggregates of one group, then
    'sessions_per_user' when users and sessions are there, then
    'conversion_rate' when conversions and sessions are there. *)
Lemma grouped_row_shape (data : DataFrame) (g : string) (grouped : DataFrame)
    (row : gmap string cell) :
  group_col data = Some g ->
  grouped_channels data g = Ok grouped ->
  row ∈ rows grouped ->
  has_col data "users" = true
  /\ exists k r0 r1,
      k ∈ group_keys (rows data) g
      /\ r0 = agg_row g k (group_rows (rows data) g k) (agg_cols data)
      /\ r1 = (if has_col data "sessions"
               then <["sessions_per_user" := Num (sessions_per_user_of r0)]> r0
               else r0)
      /\ row = (if has_col data "conversions" && has_col data "sessions"
                then <["conversion_rate" := Num (conversion_rate_in r1)]> r1
                else r1).
Proof.
  intros Hg Hok Hrow. unfold grouped_channels, sort_values_desc in Hok.
  set (G := groupby_agg data g (agg_cols data)) in *.
  assert (forall col, col ∈ agg_names -> has_col G col = has_col data col) as HG
    by (intros col Hc; apply has_col_grouped; assumption).
  assert (has_col G "users" = has_col data "users") as Hu
    by (apply HG; unfold agg_names; rewrite !elem_of_cons; tauto).
  assert (has_col G "sessions" = has_col data "sessions") as Hs
    by (apply HG; unfold agg_names; rewrite !elem_of_cons; tauto).
  assert (has_col G "conversions" = has_col data "conversions") as Hc
    by (apply HG; unfold agg_names; rewrite !elem_of_cons; tauto).
  assert (rows G = map (fun k => agg_row g k (group_rows (rows data) g k)
                                       (agg_cols data))
                       (group_keys (rows data) g)) as HrowsG by reflexivity.
  clearbody G.
  unfold add_conversion_rate, add_sessions_per_user in Hok.
  rewrite Hu, Hs in Hok.
  destruct (has_col data "users") eqn:Eu, (has_col data "sessions") eqn:Es;
    simpl in Hok; rewrite ?has_col_assign, ?Hu, ?Hs, ?Hc in Hok; simpl in Hok;
    rewrite ?orb_false_r, ?andb_false_r, ?andb_true_r in Hok;
    try (destruct (has_col data "conversions") eqn:Ec; simpl in Hok);
    rewrite ?has_col_assign, ?Hu, ?Hs, ?Hc in Hok; simpl in Hok;
    try discriminate Hok;
    (split; [reflexivity|]);
    inversion Hok; subst grouped; simpl in Hrow;
    rewrite elem_of_sort_desc, ?HrowsG in Hrow;
    repeat match goal with
           | H : _ ∈ map _ _ |- _ =>
               apply elem_of_map in H; destruct H as [? [-> H]]; rewrite ?HrowsG in H
           end;
    do 3 eexists; (split; [exact Hrow|]); repeat split.
Qed.

(** What a successful [analyze_source_medium] is made of. *)
Lemma analyze_source_medium_report (data : DataFrame) (a : Analysis.t) :
  analyze_source_medium data = Ok (SourceReport a) ->
  exists g grouped,
    group_col data = Some g
    /\ grouped_channels data g = Ok grouped
    /\ Analysis.by_channel a = rows grouped
    /\ _identify_top_performers grouped = Ok (Analysis.top_performers a)
    /\ Analysis.underperformers a = _identify_underperformers grouped
    /\ _calculate_distribution grouped "users" = Ok (Analysis.channel_distribution a).
Proof.
  unfold analyze_source_medium.
  destruct (group_col data) as [g|] eqn:Eg; [|discriminate].
  destruct (grouped_channels data g) as [grouped|] eqn:E1; [|discriminate]. simpl.
  destruct (_identify_top_performers grouped) as [top|] eqn:E2; [|discriminate].
  simpl.
  destruct (_calculate_distribution grouped "users") as [d|] eqn:E3;
    [|discriminate]. simpl.
  destruct (_analyze_traffic_quality grouped) as [q|]; [|discriminate]. simpl.
  intros H. inversion H; subst; simpl. exists g, grouped. repeat split; assumption.
Qed.

(** ** Zero sessions *)

Lemma summary_zero_sessions (data : DataFrame) :
  _safe_sum data "sessions" == 0 ->
  _calculate_pages_per_session data == 0 /\ _calculate_conversion_rate data == 0.
Proof.
  unfold _safe_sum, _calculate_pages_per_session, _calculate_conversion_rate.
  destruct (has_col data "sessions"); rewrite ?andb_false_r; [|split; reflexivity].
  intros H0.
  assert (Qgtb (series_sum (series (rows data) "sessions")) 0 = false) as ->
    by (apply Qgtb_le; lra).
  destruct (has_col data "pageviews"), (has_col data "conversions"); simpl;
    split; reflexivity.
Qed.

Lemma conversion_rate_in_zero (r : gmap string cell) :
  eqn (float_at r "sessions") (Fin 0) -> conversion_rate_in r = NaN.
Proof.
  unfold conversion_rate_in. destruct (float_at r "sessions") as [s|]; simpl;
    [|contradiction].
  intros Hs. apply Qeq_bool_iff in Hs. rewrite Hs.
  destruct (float_at r "conversions"); reflexivity.
Qed.

Lemma conversion_rate_in_nonzero (r : gmap string cell) (c s : Q) :
  float_at r "conversions" = Fin c -> float_at r "sessions" = Fin s -> ~ s == 0 ->
  conversion_rate_in r = Fin (c / s * 100).
Proof.
  intros Hc Hs Hnz. unfold conversion_rate_in. rewrite Hc, Hs. simpl.
  destruct (Qeq_bool s 0) eqn:E; [apply Qeq_bool_iff in E; contradiction|].
  simpl. rewrite E. reflexivity.
Qed.

(** A row of the aggregate has the group column, the aggregated columns and
    the two ratios, and nothing else. *)
Lemma grouped_row_no_other_column (data : DataFrame) (g : string)
    (grouped : DataFrame) (row : gmap string cell) (col : string) :
  group_col data = Some g ->
  grouped_channels data g = Ok grouped ->
  row ∈ rows grouped ->
  col ∉ agg_names -> col <> "source_medium" -> col <> "source" ->
  col <> "sessions_per_user" -> col <> "conversion_rate" ->
  row !! col = None.
Proof.
  intros Hg Hok Hrow Hagg H1 H2 H3 H4.
  destruct (grouped_row_shape _ _ _ _ Hg Hok Hrow)
    as [_ (k & r0 & r1 & Hk & -> & -> & ->)].
  assert (agg_row g k (group_rows (rows data) g k) (agg_cols data) !! col = None)
    as Hbase.
  { rewrite agg_row_lookup_other by (rewrite agg_cols_names; tauto).
    apply lookup_singleton_ne. apply group_col_cases in Hg.
    destruct Hg; congruence. }
  destruct (has_col data "conversions" && has_col data "sessions"),
    (has_col data "sessions");
    rewrite ?lookup_insert_ne by congruence; exact Hbase.
Qed.

Lemma float_at_insert_ne (r : gmap string cell) (c col : string) (v : cell) :
  c <> col -> float_at (<[c := v]> r) col = float_at r col.
Proof. intros H. unfold float_at. rewrite lookup_insert_ne by exact H. reflexivity. Qed.

Example idle_channel_row :
  exists a row,
    analyze_source_medium idle_channel = Ok (SourceReport a)
    /\ row ∈ Analysis.by_channel a
    /\ row !! "source_medium" = Some (Str "newsletter / email")
    /\ float_at row "sessions" = Fin 0
    /\ row !! "conversion_rate" = Some (Num NaN).
Proof.
  do 2 eexists. split; [vm_compute; reflexivity|].
  split; [right; left|]. repeat split.
Qed.

(** C1, counterexample. The channel 'newsletter / email' has 5 users and no
    session: its conversion_rate in the report is NaN, not 0. *)
Lemma C1_counterexample : ~ C1_as_stated idle_channel.
Proof.
  intros [_ H].
  destruct idle_channel_row as (a & row & Ha & Hin & _ & Hs & Hc).
  specialize (H a row Ha Hin). rewrite Hs in H.
  unfold float_at in H. rewrite Hc in H. simpl in H.
  apply H. reflexivity.
Qed.

(** C1, amended. With zero total sessions the pages_per_session and the
    conversion_rate of the summary are 0. In the aggregate per channel, a
    channel whose sessions sum is 0 has an undefined conversion_rate (NaN, by
    the replacement of a zero divisor) and no pages_per_session at all. *)
Theorem C1_zero_sessions (data : DataFrame) :
  (_safe_sum data "sessions" == 0 ->
   exists p c,
     compute_summary_metrics data !! "pages_per_session" = Some (Fin p) /\ p == 0
     /\ compute_summary_metrics data !! "conversion_rate" = Some (Fin c) /\ c == 0)
  /\ (forall a row,
        analyze_source_medium data = Ok (SourceReport a) ->
        row ∈ Analysis.by_channel a ->
        has_col data "conversions" = true -> has_col data "sessions" = true ->
        eqn (float_at row "sessions") (Fin 0) ->
        row !! "conversion_rate" = Some (Num NaN)
        /\ row !! "pages_per_session" = None).
Proof.
  split.
  - intros H0. destruct (summary_zero_sessions data H0) as [Hp Hc].
    exists (_calculate_pages_per_session data), (_calculate_conversion_rate data).
    repeat split; assumption.
  - intros a row Ha Hin Hconv Hsess Hzero.
    destruct (analyze_source_medium_report _ _ Ha)
      as (g & grouped & Hg & Hok & Hby & _).
    rewrite Hby in Hin. split.
    + destruct (grouped_row_shape _ _ _ _ Hg Hok Hin)
        as [_ (k & r0 & r1 & Hk & Hr0 & Hr1 & Hrow)].
      rewrite Hconv, Hsess in Hrow. simpl in Hrow. subst row.
      rewrite float_at_insert_ne in Hzero by discriminate.
      rewrite lookup_insert_eq, (conversion_rate_in_zero _ Hzero). reflexivity.
    + apply (grouped_row_no_other_column data g grouped); try assumption;
        try discriminate.
      unfold agg_names. rewrite !elem_of_cons, elem_of_nil.
      intuition discriminate.
Qed.

Lemma C1_zero_sessions_witness :
  (exists p c,
     compute_summary_metrics no_sessions !! "pages_per_session" = Some (Fin p)
     /\ p == 0
     /\ compute_summary_metrics no_sessions !! "conversion_rate" = Some (Fin c)
     /\ c == 0)
  /\ (exists row : gmap string cell,
        row !! "source_medium" = Some (Str "newsletter / email")
        /\ row !! "conversion_rate" = Some (Num NaN)
        /\ row !! "pages_per_session" = None).
Proof.
  split.
  - apply (proj1 (C1_zero_sessions no_sessions)). reflexivity.
  - destruct idle_channel_row as (a & row & Ha & Hin & Hname & Hs & _).
    exists row. split; [exact Hname|].
    apply (proj2 (C1_zero_sessions idle_channel) a row Ha Hin);
      [reflexivity | reflexivity | rewrite Hs; reflexivity].
Defined.

(** When no channel has a session, every conversion_rate is NaN and
    [idxmax] has nothing to choose from: with a 'source_medium' column the
    quality analysis raises (a ValueError from pandas 3 on, a KeyError on the
    NaN label before), and the report with it. *)
Example all_idle_raises :
  is_ok (analyze_source_medium all_idle) = false
  /\ is_ok (analyze_source_medium no_sessions) = true.
Proof. vm_compute. split; reflexivity. Qed.

(** ** The grouping key *)

Lemma elem_of_insert_key (k c : cell) (ks : list cell) :
  c ∈ insert_key k ks -> c = k \/ c ∈ ks.
Proof.
  induction ks as [|k' ks IH]; simpl.
  - rewrite list_elem_of_singleton. tauto.
  - destruct (cell_eqb k k'); [tauto|].
    destruct (cell_leb k k').
    + rewrite elem_of_cons. tauto.
    + rewrite !elem_of_cons. intros [->|H]; [tauto|].
      destruct (IH H); tauto.
Qed.

(** A group key is a value of the grouping column, and it is not missing. *)
Lemma group_keys_from_data (rs : list (gmap string cell)) (g : string) (k : cell) :
  k ∈ group_keys rs g ->
  is_missing k = false /\ exists r, r ∈ rs /\ r !! g = Some k.
Proof.
  induction rs as [|r rs IH]; simpl.
  - intros H. apply elem_of_nil in H. contradiction.
  - destruct (r !! g) as [c|] eqn:E.
    + destruct (is_missing c) eqn:Em.
      * intros H. destruct (IH H) as [H1 [r' [H2 H3]]].
        split; [exact H1|]. exists r'. split; [right|]; assumption.
      * intros H. apply elem_of_insert_key in H. destruct H as [->|H].
        -- split; [exact Em|]. exists r. split; [left | exact E].
        -- destruct (IH H) as [H1 [r' [H2 H3]]].
           split; [exact H1|]. exists r'. split; [right|]; assumption.
    + intros H. destruct (IH H) as [H1 [r' [H2 H3]]].
      split; [exact H1|]. exists r'. split; [right|]; assumption.
Qed.

Lemma grouped_row_key (data : DataFrame) (g : string) (grouped : DataFrame)
    (row : gmap string cell) :
  group_col data = Some g ->
  grouped_channels data g = Ok grouped ->
  row ∈ rows grouped ->
  exists k, row !! g = Some k /\ k ∈ group_keys (rows data) g.
Proof.
  intros Hg Hok Hrow.
  destruct (grouped_row_shape _ _ _ _ Hg Hok Hrow)
    as [_ (k & r0 & r1 & Hk & -> & -> & ->)].
  exists k. split; [|exact Hk].
  assert (g <> "sessions_per_user" /\ g <> "conversion_rate" /\ g ∉ agg_names)
    as (N1 & N2 & N3).
  { apply group_col_cases in Hg. unfold agg_names.
    rewrite !elem_of_cons, elem_of_nil.
    destruct Hg as [-> | ->]; intuition discriminate. }
  assert (agg_row g k (group_rows (rows data) g k) (agg_cols data) !! g = Some k)
    as Hbase.
  { rewrite agg_row_lookup_other by (rewrite agg_cols_names; tauto).
    apply lookup_singleton_eq. }
  destruct (has_col data "conversions" && has_col data "sessions"),
    (has_col data "sessions");
    rewrite ?lookup_insert_ne by congruence; exact Hbase.
Qed.


Example source_only_report :
  exists a, analyze_source_medium source_only = Ok (SourceReport a)
            /\ map (fun r : gmap string cell => r !! "source") (Analysis.by_channel a)
               = [Some (Str "google"); Some (Str "bing")].
Proof. eexists. split; vm_compute; reflexivity. Qed.

(** ** Performance score *)

Lemma add_metric_term (row : gmap string cell) (score : Q) (metric : string)
    (weight : Q) :
  add_metric row score (metric, weight)
  == score + metric_term row metric
               (fun v => if Qgtb weight 0 then v * weight
                         else (100 - v) * Qabs weight).
Proof.
  unfold add_metric, metric_term, float_at. cbn [fst snd].
  destruct (row !! metric) as [c|]; [|ring].
  destruct (as_float c); [|ring].
  destruct (Qgtb weight 0); ring.
Qed.

Lemma performance_score_weighted (row : gmap string cell) :
  _calculate_performance_score row == round2 (weighted_score row).
Proof.
  unfold _calculate_performance_score. apply round2_proper.
  unfold weights, fold_left. rewrite !add_metric_term.
  unfold weighted_score, metric_term.
  change (Qgtb (4 # 10) 0) with true. change (Qgtb (3 # 10) 0) with true.
  change (Qgtb (- (3 # 10)) 0) with false.
  change (Qabs (- (3 # 10))) with (3 # 10).
  destruct (float_at row "conversion_rate"), (float_at row "sessions_per_user"),
    (float_at row "bounce_rate"); ring.
Qed.

Lemma performance_score_absent (row : gmap string cell) :
  float_at row "conversion_rate" = NaN ->
  float_at row "sessions_per_user" = NaN ->
  float_at row "bounce_rate" = NaN ->
  _calculate_performance_score row == 0.
Proof.
  intros H1 H2 H3. rewrite performance_score_weighted.
  unfold weighted_score, metric_term. rewrite H1, H2, H3. reflexivity.
Qed.

Lemma top_performers_of_rows (rs : list (gmap string cell)) :
  forallb users_defined rs = true ->
  exists ps,
    mapR (fun row =>
            users ← int_cell (default (Num (Fin 0)) (row !! "users"));
            Ok {| Performer.channel := channel_of row;
                  Performer.users := users;
                  Performer.performance_score := _calculate_performance_score row |})
         rs = Ok ps
    /\ Forall2 performer_of rs ps.
Proof.
  induction rs as [|row rs IH]; simpl.
  - intros _. exists []. split; [reflexivity | constructor].
  - rewrite andb_true_iff. intros [Hu Hrs].
    destruct (IH Hrs) as [ps [Hps HF]]. rewrite Hps.
    unfold users_defined in Hu. unfold int_cell.
    destruct (as_float (default (Num (Fin 0)) (row !! "users"))) as [u|];
      [|discriminate]. simpl.
    eexists. split; [reflexivity|]. constructor; [|exact HF].
    repeat split; simpl.
    + apply performance_score_weighted.
    + apply performance_score_absent.
Qed.




Example six_channels_scores :
  exists ps, _identify_top_performers six_channels = Ok ps
             /\ map (fun p => Qred (Performer.performance_score p)) ps
                = [509 # 25; 63 # 10; 359 # 20; 30; 323 # 10]%Q.
Proof. eexists. split; vm_compute; reflexivity. Qed.

(** ** Underperformers *)

(** Over the reals, a value is above [m + sqrt v] exactly when it is above
    [m] and the square of the difference is above [v]. *)
Lemma above_sqrt_iff (d v : R) :
  (0 < d /\ v < d * d)%R <-> (sqrt v < d)%R.
Proof.
  split.
  - intros [Hd Hv]. destruct (Rle_lt_dec v 0) as [Hneg|Hpos].
    + rewrite (sqrt_neg_0 v Hneg). exact Hd.
    + rewrite <- (sqrt_square d) by lra. apply sqrt_lt_1_alt. lra.
  - intros Hs. pose proof (sqrt_pos v) as H0.
    split; [lra|]. destruct (Rle_lt_dec v 0) as [Hneg|Hpos]; [nra|].
    rewrite <- (sqrt_sqrt v) by lra. nra.
Qed.

Lemma Q2R_zero : Q2R 0 = 0%R.
Proof. unfold Q2R. simpl. lra. Qed.

(** The test [exceeds] decides [x > mean + sqrt var] on finite operands. *)
Lemma exceeds_sqrt (x m v : Q) :
  exceeds (Fin x) (Fin m) (Fin v) = true
  <-> (Q2R m + sqrt (Q2R v) < Q2R x)%R.
Proof.
  unfold exceeds. rewrite andb_true_iff, !Qgtb_lt.
  assert ((Q2R m + sqrt (Q2R v) < Q2R x)%R
          <-> (sqrt (Q2R v) < Q2R x - Q2R m)%R) as -> by (split; intros; lra).
  rewrite <- above_sqrt_iff. split.
  - intros [H1 H2]. apply Qlt_Rlt in H1, H2.
    rewrite Q2R_minus, Q2R_zero in H1. rewrite Q2R_mult, !Q2R_minus in H2.
    split; assumption.
  - intros [H1 H2]. split; apply Rlt_Qlt;
      rewrite ?Q2R_mult, ?Q2R_minus, ?Q2R_zero; assumption.
Qed.

Lemma above_threshold_iff (grouped : DataFrame) (row : gmap string cell) :
  above_threshold grouped row = true <-> exceeds_mean_plus_std grouped row.
Proof.
  unfold above_threshold, exceeds_mean_plus_std.
  destruct (float_at row "bounce_rate") as [b|],
    (series_mean (series (rows grouped) "bounce_rate")) as [m|],
    (series_var (series (rows grouped) "bounce_rate")) as [v|];
    try (split; [discriminate | intros (? & ? & ? & ? & ? & ? & ?); discriminate]).
  rewrite exceeds_sqrt. split.
  - intros H. exists b, m, v. repeat split; assumption.
  - intros (b' & m' & v' & Hb & Hm & Hv & H).
    inversion Hb; inversion Hm; inversion Hv; subst. exact H.
Qed.

Lemma take_map {A B} (f : A -> B) (n : nat) (l : list A) :
  take n (map f l) = map f (take n l).
Proof.
  revert l. induction n as [|n IH]; intros [|x l]; simpl; try reflexivity.
  rewrite IH. reflexivity.
Qed.

Lemma underperformers_eq (grouped : DataFrame) :
  _identify_underperformers grouped
  = if has_col grouped "bounce_rate"
    then map underperformer_of
             (take 5 (List.filter (above_threshold grouped) (rows grouped)))
    else [].
Proof.
  unfold _identify_underperformers.
  destruct (has_col grouped "bounce_rate"); [|reflexivity].
  rewrite take_map. reflexivity.
Qed.

Lemma exceeds_by_margin (grouped : DataFrame) (row : gmap string cell)
    (margin margin' : Q) :
  margin' <= margin ->
  exceeds_by margin grouped row -> exceeds_by margin' grouped row.
Proof.
  intros Hle (b & m & v & Hb & Hm & Hv & H). exists b, m, v.
  apply Qle_Rle in Hle. repeat split; try assumption. lra.
Qed.

Lemma exceeds_by_zero (grouped : DataFrame) (row : gmap string cell) :
  exceeds_by 0 grouped row <-> exceeds_mean_plus_std grouped row.
Proof.
  unfold exceeds_by, exceeds_mean_plus_std.
  split; intros (b & m & v & Hb & Hm & Hv & H); exists b, m, v;
    rewrite Q2R_zero in *; repeat split; try assumption; lra.
Qed.

Lemma Forall2_map_r {A B} (R : A -> B -> Prop) (f : A -> B) (l : list A) :
  Forall (fun x => R x (f x)) l -> Forall2 R l (map f l).
Proof. induction 1; simpl; constructor; assumption. Qed.

Lemma underperformer_of_near (grouped : DataFrame) (row : gmap string cell) :
  above_threshold grouped row = true ->
  underperformer_near row (underperformer_of row).
Proof.
  unfold above_threshold, exceeds, underperformer_near, underperformer_of.
  intros H. destruct (float_at row "bounce_rate") as [b|]; [|discriminate H].
  split; [reflexivity|]. split; [reflexivity|].
  exists b, (round2 b). split; [reflexivity|]. split; [reflexivity|].
  apply round2_near. reflexivity.
Qed.

(** C3, amended. The underperformer list is empty when the 'bounce_rate'
    column is absent and never has more than 5 entries. Otherwise it holds
    the entries, in the order of the aggregate, of the first 5 of the groups
    that a test on the bounce_rate selects: a group is selected when its
    bounce_rate exceeds the mean plus the sample standard deviation (divisor
    n - 1) of the bounce_rate of the groups by more than the float64 error,
    and is not when it is below them by more than that error. *)
Theorem C3_underperformers (grouped : DataFrame) :
  (length (_identify_underperformers grouped) <= 5)%nat
  /\ (has_col grouped "bounce_rate" = false ->
      _identify_underperformers grouped = [])
  /\ (has_col grouped "bounce_rate" = true ->
      exists selected : gmap string cell -> bool,
        Forall2 underperformer_near
                (take 5 (List.filter selected (rows grouped)))
                (_identify_underperformers grouped)
        /\ forall row,
             row ∈ rows grouped ->
             (exceeds_by (bounce_noise grouped) grouped row ->
              selected row = true)
             /\ (selected row = true ->
                 exceeds_by (- bounce_noise grouped) grouped row)).
Proof.
  rewrite underperformers_eq. repeat split.
  - destruct (has_col grouped "bounce_rate"); simpl; [|lia].
    rewrite length_map, length_take. lia.
  - intros ->. reflexivity.
  - intros ->. exists (above_threshold grouped). split.
    { apply Forall2_map_r, Forall_forall. intros row Hrow.
      apply subseteq_take, list_elem_of_In, filter_In in Hrow.
      apply (underperformer_of_near grouped), Hrow. }
    pose proof (float_noise_nonneg
                  (dropna (series (rows grouped) "bounce_rate"))) as Hn.
    fold (bounce_noise grouped) in Hn.
    intros row _. rewrite above_threshold_iff, <- exceeds_by_zero. split.
    + apply exceeds_by_margin. exact Hn.
    + apply exceeds_by_margin. lra.
Qed.

Example bounce_spread_underperformers :
  map Underperformer.channel (_identify_underperformers bounce_spread) = [Str "e"]
  /\ map channel_of (highest_bounce_5 bounce_spread) = [Str "e"; Str "d"].
Proof. split; vm_compute; reflexivity. Qed.

Example many_high_bounce_underperformers :
  map Underperformer.channel (_identify_underperformers many_high_bounce)
  = [Str "h95"; Str "h96"; Str "h97"; Str "h98"; Str "h99"]
  /\ map channel_of (highest_bounce_5 many_high_bounce)
     = [Str "h100"; Str "h99"; Str "h98"; Str "h97"; Str "h96"].
Proof. split; vm_compute; reflexivity. Qed.

(** C3, counterexample. With bounce rates 10, 20, 30, 44, 45 the group at 44
    is above the population threshold (43.37) and is not listed, the code
    comparing with the sample threshold (44.97). With six groups above the
    threshold the list keeps the first five of the aggregate, which leaves
    out the group with the highest bounce_rate. *)
Lemma C3_counterexample :
  ~ C3_as_stated bounce_spread /\ ~ C3_as_stated many_high_bounce.
Proof.
  split; intros [H _]; specialize (H eq_refl).
  - destruct bounce_spread_underperformers as [-> ->] in H.
    apply Permutation_length in H. discriminate H.
  - destruct many_high_bounce_underperformers as [-> ->] in H.
    apply Permutation_sym in H.
    pose proof (Permutation_in (Str "h100") H (or_introl eq_refl)) as Hin.
    simpl in Hin. decompose [or] Hin; try discriminate. assumption.
Qed.

Lemma C3_underperformers_witness :
  _identify_underperformers source_only = []
  /\ exists selected : gmap string cell -> bool,
      Forall2 underperformer_near
              (take 5 (List.filter selected (rows many_high_bounce)))
              (_identify_underperformers many_high_bounce)
      /\ forall row,
           row ∈ rows many_high_bounce ->
           (exceeds_by (bounce_noise many_high_bounce) many_high_bounce row ->
            selected row = true)
           /\ (selected row = true ->
               exceeds_by (- bounce_noise many_high_bounce)
                          many_high_bounce row).
Proof.
  split.
  - apply (proj1 (proj2 (C3_underperformers source_only))). reflexivity.
  - apply (proj2 (proj2 (C3_underperformers many_high_bounce))). reflexivity.
Defined.

(** ** Channel distribution *)

Lemma share_entry_defined (metric : string) (total : Q) (row : gmap string cell) :
  metric_defined metric row = true ->
  exists e, share_entry metric total row = Ok e /\ share_of metric total row e.
Proof.
  unfold metric_defined, share_entry, share_of, float_at, getitem, int_cell.
  destruct (row !! metric) as [c|]; [|discriminate]. simpl.
  destruct (as_float c) as [x|]; [|discriminate]. simpl. intros _.
  eexists. split; [reflexivity|]. exists x. simpl. repeat split.
  destruct (Qgtb total 0) eqn:E; [|reflexivity].
  apply Qgtb_lt in E.
  destruct (Qeq_bool total 0) eqn:E0; [apply Qeq_bool_iff in E0; exfalso; lra|].
  reflexivity.
Qed.

Lemma shares_defined (metric : string) (total : Q) (rs : list (gmap string cell)) :
  forallb (metric_defined metric) rs = true ->
  exists d, mapR (share_entry metric total) rs = Ok d
            /\ Forall2 (share_of metric total) rs d.
Proof.
  induction rs as [|row rs IH]; simpl.
  - intros _. exists []. split; [reflexivity | constructor].
  - rewrite andb_true_iff. intros [Hrow Hrs].
    destruct (share_entry_defined metric total row Hrow) as [e [He Hs]].
    destruct (IH Hrs) as [d [Hd HF]].
    rewrite He, Hd. simpl. exists (e :: d). split; [reflexivity|].
    constructor; assumption.
Qed.

Lemma distribution_defined (grouped : DataFrame) (metric : string) :
  has_col grouped metric = true ->
  forallb (metric_defined metric) (rows grouped) = true ->
  exists d,
    _calculate_distribution grouped metric = Ok d
    /\ Forall2 (share_of metric (series_sum (series (rows grouped) metric)))
               (rows grouped) d.
Proof.
  intros Hcol Hdef. unfold _calculate_distribution. rewrite Hcol. simpl.
  apply (shares_defined metric _ _ Hdef).
Qed.

Lemma Qlen_cons {A} (x : A) (l : list A) :
  inject_Z (Z.of_nat (length (x :: l))) == inject_Z (Z.of_nat (length l)) + 1.
Proof.
  simpl length. rewrite Nat2Z.inj_succ. unfold Z.succ. apply inject_Z_succ.
Qed.

(** With a positive total, the percentages add up to the sum of the exact
    shares up to half a hundredth per entry. *)
Lemma percentages_sum (metric : string) (total : Q)
    (rs : list (gmap string cell)) (d : list Share.t) :
  0 < total ->
  Forall2 (share_of metric total) rs d ->
  length (percentages d) = length rs
  /\ Qabs (Qsum (percentages d)
           - Qsum (dropna (series rs metric)) / total * 100)
     <= (1 # 200) * inject_Z (Z.of_nat (length rs)).
Proof.
  intros Ht HF. induction HF as [|row e rs d Hs HF IH].
  - split; [reflexivity|].
    unfold percentages. cbn [map dropna Qsum series length Z.of_nat].
    apply Qabs_Qle_condition.
    assert (0 / total * 100 == 0) as H0 by (field; lra).
    rewrite ?H0. change (inject_Z (Z.of_nat 0)) with 0. lra.
  - destruct IH as [IHlen IH]. destruct Hs as (x & Hx & _ & _ & Hp).
    apply Qgtb_lt in Ht as Hgt. rewrite Hgt in Hp.
    unfold percentages in *. cbn [map series]. rewrite Hp, Hx.
    cbn [dropna Qsum]. fold (series rs metric).
    split; [simpl length; f_equal; exact IHlen|].
    rewrite (Qlen_cons row rs).
    apply Qabs_Qle_condition in IH. apply Qabs_Qle_condition.
    pose proof (round2_error (x / total * 100)) as Hr.
    assert ((x + Qsum (dropna (series rs metric))) / total * 100
            == x / total * 100 + Qsum (dropna (series rs metric)) / total * 100)
      as -> by (field; lra).
    set (p := round2 (x / total * 100)) in *.
    set (q := x / total * 100) in *.
    set (P := Qsum (dropna (map Share.percentage d))) in *.
    set (S := Qsum (dropna (series rs metric)) / total * 100) in *.
    set (n := inject_Z (Z.of_nat (length rs))) in *.
    lra.
Qed.

(** With a total that is not positive, every percentage is 0. *)
Lemma percentages_zero (metric : string) (total : Q)
    (rs : list (gmap string cell)) (d : list Share.t) :
  total <= 0 ->
  Forall2 (share_of metric total) rs d ->
  Forall (fun e => Share.percentage e = Fin 0) d.
Proof.
  intros Ht HF. apply Qgtb_le in Ht.
  induction HF as [|row e rs d Hs HF IH]; constructor; [|exact IH].
  destruct Hs as (x & _ & _ & _ & Hp). rewrite Ht in Hp. exact Hp.
Qed.

Lemma share_of_near (metric : string) (total : Q) (row : gmap string cell)
    (e : Share.t) :
  share_of metric total row e -> share_near metric total row e.
Proof.
  intros (x & Hx & Hc & Hv & Hp).
  destruct (Qgtb total 0) eqn:Et.
  - exists x, (round2 (x / total * 100)). rewrite Et.
    split; [exact Hx|]. split; [exact Hc|]. split; [exact Hv|].
    split; [exact Hp|]. apply round2_near. reflexivity.
  - exists x, 0. rewrite Et.
    split; [exact Hx|]. split; [exact Hc|]. split; [exact Hv|].
    split; [exact Hp | reflexivity].
Qed.

(** C7. For an aggregate with a 'users' column, the distribution has one
    entry per group, each with the share of the group in the total rounded to
    2 decimals (within half a hundredth of it, up to the float64 error). With
    a positive total the percentages add up to 100 up to the rounding, half a
    hundredth per entry; with a zero total every percentage is 0. *)
Theorem C7_distribution_sum (grouped : DataFrame) :
  has_col grouped "users" = true ->
  forallb (metric_defined "users") (rows grouped) = true ->
  let total := series_sum (series (rows grouped) "users") in
  exists d,
    _calculate_distribution grouped "users" = Ok d
    /\ Forall2 (share_near "users" total) (rows grouped) d
    /\ (0 < total ->
        length (percentages d) = length (rows grouped)
        /\ Qabs (Qsum (percentages d) - 100)
           <= (1 # 200) * inject_Z (Z.of_nat (length (rows grouped))))
    /\ (total == 0 -> Forall (fun e => Share.percentage e = Fin 0) d).
Proof.
  intros Hcol Hdef total.
  destruct (distribution_defined grouped "users" Hcol Hdef) as [d [Hd HF]].
  fold total in HF. exists d. split; [exact Hd|].
  split; [eapply Forall2_impl; [exact HF | apply share_of_near]|]. split.
  - intros Ht. destruct (percentages_sum "users" total _ _ Ht HF) as [Hlen Hsum].
    split; [exact Hlen|].
    assert (Qsum (dropna (series (rows grouped) "users")) / total * 100 == 100)
      as Hall by (unfold total, series_sum in *; field; lra).
    rewrite Hall in Hsum. exact Hsum.
  - intros Ht. apply (percentages_zero "users" total (rows grouped)); [lra|exact HF].
Qed.

Lemma metric_nonneg_defined (metric : string) (rs : list (gmap string cell)) :
  forallb (metric_nonneg metric) rs = true ->
  forallb (metric_defined metric) rs = true.
Proof.
  rewrite !forallb_forall. intros H row Hin. specialize (H row Hin).
  unfold metric_nonneg, metric_defined in *.
  destruct (float_at row metric); [reflexivity | discriminate].
Qed.

Lemma nonneg_sum (metric : string) (rs : list (gmap string cell)) :
  forallb (metric_nonneg metric) rs = true ->
  0 <= series_sum (series rs metric).
Proof.
  unfold series_sum. induction rs as [|row rs IH]; simpl; [lra|].
  rewrite andb_true_iff. intros [Hrow Hrs]. specialize (IH Hrs).
  unfold metric_nonneg in Hrow. fold (series rs metric).
  destruct (float_at row metric) as [x|]; [|discriminate].
  apply Qle_bool_iff in Hrow. cbn [dropna Qsum]. lra.
Qed.

(** Among values that are not negative, each is at most the total. *)
Lemma nonneg_le_sum (metric : string) (rs : list (gmap string cell))
    (row : gmap string cell) (x : Q) :
  forallb (metric_nonneg metric) rs = true ->
  row ∈ rs -> float_at row metric = Fin x ->
  0 <= x <= series_sum (series rs metric).
Proof.
  unfold series_sum. induction rs as [|r rs IH]; simpl.
  - intros _ Hin. apply elem_of_nil in Hin. contradiction.
  - rewrite andb_true_iff. intros [Hr Hrs] Hin Hx.
    pose proof (nonneg_sum metric rs Hrs) as Hsum. unfold series_sum in Hsum.
    fold (series rs metric). unfold metric_nonneg in Hr.
    apply elem_of_cons in Hin. destruct Hin as [<-|Hin].
    + rewrite Hx in *. apply Qle_bool_iff in Hr. cbn [dropna Qsum]. lra.
    + specialize (IH Hrs Hin Hx).
      destruct (float_at r metric) as [y|]; [|discriminate].
      apply Qle_bool_iff in Hr. cbn [dropna Qsum]. lra.
Qed.

Lemma share_in_range (metric : string) (total x : Q) :
  0 <= x <= total ->
  0 <= (if Qgtb total 0 then round2 (x / total * 100) else 0) <= 100.
Proof.
  intros [H0 H1]. destruct (Qgtb total 0) eqn:E; [|lra].
  apply Qgtb_lt in E.
  apply (round2_range _ 0 100).
  - change (inject_Z 0) with 0.
    assert (0 <= x / total) by (apply Qle_shift_div_l; lra). lra.
  - change (inject_Z 100) with 100.
    assert (x / total <= 1) by (apply Qle_shift_div_r; lra). lra.
Qed.

Lemma Forall2_Forall_r {A B} (R : A -> B -> Prop) (P : B -> Prop)
    (l : list A) (k : list B) :
  Forall2 R l k -> (forall a b, a ∈ l -> R a b -> P b) -> Forall P k.
Proof.
  intros HF. induction HF as [|a b l k Hab HF IH]; intros H; constructor.
  - apply (H a b); [left | exact Hab].
  - apply IH. intros a' b' Hin. apply H. right. exact Hin.
Qed.

(** C9. For an aggregate whose 'users' values are all non-negative, every
    percentage of the channel distribution lies in the closed interval from
    0 to 100. *)
Theorem C9_percentage_range (grouped : DataFrame) :
  has_col grouped "users" = true ->
  forallb (metric_nonneg "users") (rows grouped) = true ->
  exists d,
    _calculate_distribution grouped "users" = Ok d
    /\ length d = length (rows grouped)
    /\ Forall (percentage_within 0 100) d.
Proof.
  intros Hcol Hnn.
  destruct (distribution_defined grouped "users" Hcol
              (metric_nonneg_defined _ _ Hnn)) as [d [Hd HF]].
  exists d. split; [exact Hd|]. split.
  - symmetry. apply (Forall2_length _ _ _ HF).
  - apply (Forall2_Forall_r _ _ _ _ HF). intros row e Hin (x & Hx & _ & _ & Hp).
    pose proof (nonneg_le_sum "users" _ row x Hnn Hin Hx) as Hrange.
    pose proof (share_in_range "users" _ x Hrange) as Hshare.
    unfold percentage_within. rewrite Hp.
    destruct (Qgtb (series_sum (series (rows grouped) "users")) 0);
      eexists; (split; [reflexivity | exact Hshare]).
Qed.

Lemma C7_distribution_sum_witness :
  exists d,
    _calculate_distribution six_channels "users" = Ok d
    /\ length (percentages d) = length (rows six_channels)
    /\ Qabs (Qsum (percentages d) - 100) <= 3 # 100.
Proof.
  destruct (C7_distribution_sum six_channels eq_refl eq_refl)
    as (d & Hd & _ & Hpos & _).
  exists d. split; [exact Hd|].
  destruct (Hpos eq_refl) as [Hlen Hsum]. split; [exact Hlen|].
  eapply Qle_trans; [exact Hsum|]. discriminate.
Defined.

Lemma C9_percentage_range_witness :
  exists d,
    _calculate_distribution six_channels "users" = Ok d
    /\ length d = length (rows six_channels)
    /\ Forall (percentage_within 0 100) d.
Proof. apply (C9_percentage_range six_channels); reflexivity. Defined.

Example six_channels_percentages :
  exists d, _calculate_distribution six_channels "users" = Ok d
            /\ map Qred (percentages d)
               = [1081 # 20; 2703 # 100; 1081 # 100; 541 # 100; 27 # 10; 0]%Q.
Proof. eexists. split; vm_compute; reflexivity. Qed.

(** ** The aggregate of the engine satisfies the assumptions above *)

Lemma agg_cols_users_sum (data : DataFrame) (f : aggfun) :
  ("users", f) ∈ agg_cols data -> f = agg_sum.
Proof.
  unfold agg_cols. rewrite !elem_of_app, elem_of_map.
  intros [[col [H _]] | [H | H]].
  - inversion H. reflexivity.
  - destruct (has_col data "bounce_rate");
      [apply list_elem_of_singleton in H; discriminate H
      | apply elem_of_nil in H; contradiction].
  - destruct (has_col data "avg_session_duration");
      [apply list_elem_of_singleton in H; discriminate H
      | apply elem_of_nil in H; contradiction].
Qed.

(** In the aggregate that [analyze_source_medium] builds, the 'users' column
    is there and holds a finite sum in every row: [int] and the division of
    the distribution are defined on it. *)
Lemma grouped_users_defined (data : DataFrame) (g : string) (grouped : DataFrame) :
  group_col data = Some g ->
  grouped_channels data g = Ok grouped ->
  has_col grouped "users" = true
  /\ forallb (metric_defined "users") (rows grouped) = true
  /\ forallb users_defined (take 5 (rows grouped)) = true.
Proof.
  intros Hg Hok.
  assert (has_col grouped "users" = true) as Hcol.
  { unfold grouped_channels, sort_values_desc in Hok.
    destruct (has_col _ "users") eqn:E in Hok; [|discriminate].
    inversion Hok. unfold has_col in *. simpl. exact E. }
  assert (forall row, row ∈ rows grouped ->
                      exists u, row !! "users" = Some (Num (Fin u))) as Hrows.
  { intros row Hrow.
    destruct (grouped_row_shape _ _ _ _ Hg Hok Hrow)
      as [Hu (k & r0 & r1 & Hk & -> & -> & ->)].
    assert ("users" ∈ map fst (agg_cols data)) as Hin.
    { apply agg_cols_names. split; [|exact Hu].
      unfold agg_names. rewrite !elem_of_cons. tauto. }
    destruct (agg_row_lookup g k (group_rows (rows data) g k) _ _ Hin)
      as [f [Hf Hl]].
    rewrite (agg_cols_users_sum _ _ Hf) in Hl. simpl in Hl.
    eexists.
    destruct (has_col data "conversions" && has_col data "sessions"),
      (has_col data "sessions");
      rewrite ?lookup_insert_ne by discriminate; exact Hl. }
  split; [exact Hcol|]. split.
  - apply forallb_forall. intros row Hin. apply list_elem_of_In in Hin.
    destruct (Hrows row Hin) as [u Hu].
    unfold metric_defined, float_at. rewrite Hu. reflexivity.
  - apply forallb_forall. intros row Hin. apply list_elem_of_In in Hin.
    apply subseteq_take in Hin.
    destruct (Hrows row Hin) as [u Hu].
    unfold users_defined. rewrite Hu. reflexivity.
Qed.

(** * Further properties of the engine and of the dashboard *)

(** ** The order of the aggregate *)

Lemma desc_before_asym (a b : num) :
  desc_before a b = true -> desc_before b a = false.
Proof.
  destruct a as [x|], b as [y|]; simpl; try discriminate; try reflexivity.
  rewrite Qgtb_lt, Qgtb_le. lra.
Qed.

Lemma not_after_trans (a b c : num) :
  not_after a b -> not_after b c -> not_after a c.
Proof.
  unfold not_after.
  destruct a as [x|], b as [y|], c as [z|]; simpl; try discriminate;
    try reflexivity.
  rewrite !Qgtb_le. lra.
Qed.

Lemma insert_desc_sorted {A} (key : A -> num) (x : A) (l : list A) :
  StronglySorted (fun a b => not_after (key a) (key b)) l ->
  StronglySorted (fun a b => not_after (key a) (key b)) (insert_desc key x l).
Proof.
  induction l as [|y l IH]; simpl; intros Hs.
  - constructor; constructor.
  - inversion Hs as [|? ? Hl Hy]; subst.
    destruct (desc_before (key y) (key x)) eqn:E.
    + constructor; [apply IH, Hl|].
      rewrite Forall_forall. intros z Hz.
      rewrite insert_desc_perm in Hz. apply elem_of_cons in Hz.
      destruct Hz as [->|Hz].
      * apply desc_before_asym, E.
      * rewrite Forall_forall in Hy. apply Hy, Hz.
    + constructor; [exact Hs|]. constructor; [exact E|].
      rewrite Forall_forall in *. intros z Hz.
      apply (not_after_trans _ (key y)); [exact E | apply Hy, Hz].
Qed.

Lemma sort_desc_sorted {A} (key : A -> num) (l : list A) :
  StronglySorted (fun a b => not_after (key a) (key b)) (sort_desc key l).
Proof.
  induction l as [|x l IH]; simpl; [constructor|].
  apply insert_desc_sorted, IH.
Qed.

Lemma strongly_sorted_lookup {A} (R : A -> A -> Prop) (l : list A)
    (i j : nat) (x y : A) :
  StronglySorted R l -> (i < j)%nat -> l !! i = Some x -> l !! j = Some y ->
  R x y.
Proof.
  intros Hs. revert i j. induction Hs as [|a l Hs IH Ha]; intros i j Hij Hi Hj.
  - rewrite lookup_nil in Hi. discriminate.
  - destruct j as [|j]; [lia|]. simpl in Hj. destruct i as [|i].
    + simpl in Hi. inversion Hi; subst. rewrite Forall_forall in Ha.
      apply Ha. apply list_elem_of_lookup. exists j. exact Hj.
    + simpl in Hi. apply (IH i j); [lia | assumption | assumption].
Qed.

Lemma grouped_channels_sorted (data : DataFrame) (g : string) (grouped : DataFrame) :
  grouped_channels data g = Ok grouped ->
  StronglySorted (fun a b => not_after (float_at a "users") (float_at b "users"))
                 (rows grouped).
Proof.
  unfold grouped_channels, sort_values_desc.
  destruct (has_col _ "users"); [|discriminate].
  intros H. inversion H; subst. simpl. apply sort_desc_sorted.
Qed.

Lemma grouped_users_finite (data : DataFrame) (g : string) (grouped : DataFrame)
    (row : gmap string cell) :
  group_col data = Some g ->
  grouped_channels data g = Ok grouped ->
  row ∈ rows grouped ->
  exists u, row !! "users" = Some (Num (Fin u)).
Proof.
  intros Hg Hok Hrow.
  destruct (grouped_users_defined _ _ _ Hg Hok) as (_ & Hdef & _).
  rewrite forallb_forall in Hdef. apply list_elem_of_In in Hrow.
  specialize (Hdef row Hrow). unfold metric_defined, float_at in Hdef.
  destruct (row !! "users") as [[s|[u|]]|]; try discriminate.
  exists u. reflexivity.
Qed.

(** X1. The channels of a report are in descending order of users: a row
    never has fewer users than a row after it. *)
Theorem by_channel_sorted_by_users (data : DataFrame) (a : Analysis.t)
    (i j : nat) (r1 r2 : gmap string cell) :
  analyze_source_medium data = Ok (SourceReport a) ->
  (i < j)%nat ->
  Analysis.by_channel a !! i = Some r1 ->
  Analysis.by_channel a !! j = Some r2 ->
  exists u1 u2,
    r1 !! "users" = Some (Num (Fin u1)) /\ r2 !! "users" = Some (Num (Fin u2))
    /\ u2 <= u1.
Proof.
  intros Ha Hij H1 H2.
  destruct (analyze_source_medium_report _ _ Ha)
    as (g & grouped & Hg & Hok & Hby & _).
  rewrite Hby in H1, H2.
  assert (r1 ∈ rows grouped) as Hin1 by (apply list_elem_of_lookup; eauto).
  assert (r2 ∈ rows grouped) as Hin2 by (apply list_elem_of_lookup; eauto).
  destruct (grouped_users_finite _ _ _ _ Hg Hok Hin1) as [u1 Hu1].
  destruct (grouped_users_finite _ _ _ _ Hg Hok Hin2) as [u2 Hu2].
  exists u1, u2. split; [exact Hu1|]. split; [exact Hu2|].
  pose proof (strongly_sorted_lookup _ _ i j r1 r2
                (grouped_channels_sorted _ _ _ Hok) Hij H1 H2) as Hs.
  unfold not_after, float_at in Hs. rewrite Hu1, Hu2 in Hs. simpl in Hs.
  apply Qgtb_le in Hs. exact Hs.
Qed.

Example two_channels_report :
  exists a (r1 r2 : gmap string cell),
    analyze_source_medium two_channels = Ok (SourceReport a)
    /\ Analysis.by_channel a !! 0%nat = Some r1
    /\ Analysis.by_channel a !! 1%nat = Some r2
    /\ r1 !! "source_medium" = Some (Str "google / organic")
    /\ r2 !! "source_medium" = Some (Str "direct / none").
Proof. do 3 eexists. split; [vm_compute; reflexivity|]. repeat split. Qed.

Lemma by_channel_sorted_by_users_witness :
  exists (r1 r2 : gmap string cell) u1 u2,
    r1 !! "source_medium" = Some (Str "google / organic")
    /\ r2 !! "source_medium" = Some (Str "direct / none")
    /\ r1 !! "users" = Some (Num (Fin u1))
    /\ r2 !! "users" = Some (Num (Fin u2))
    /\ u2 <= u1.
Proof.
  destruct two_channels_report as (a & r1 & r2 & E & H1 & H2 & N1 & N2).
  destruct (by_channel_sorted_by_users two_channels a 0 1 r1 r2 E
              ltac:(lia) H1 H2) as (u1 & u2 & Hu1 & Hu2 & Hle).
  exists r1, r2, u1, u2. repeat split; assumption.
Defined.

(** ** The top performer *)

Lemma grouped_row_lookup_none (data : DataFrame) (g : string)
    (grouped : DataFrame) (row : gmap string cell) (col : string) :
  group_col data = Some g ->
  grouped_channels data g = Ok grouped ->
  row ∈ rows grouped ->
  col ∉ agg_names -> col <> g ->
  col <> "sessions_per_user" -> col <> "conversion_rate" ->
  row !! col = None.
Proof.
  intros Hg Hok Hrow Hagg H1 H3 H4.
  destruct (grouped_row_shape _ _ _ _ Hg Hok Hrow)
    as [_ (k & r0 & r1 & Hk & -> & -> & ->)].
  assert (agg_row g k (group_rows (rows data) g k) (agg_cols data) !! col = None)
    as Hbase.
  { rewrite agg_row_lookup_other by (rewrite agg_cols_names; tauto).
    apply lookup_singleton_ne. congruence. }
  destruct (has_col data "conversions" && has_col data "sessions"),
    (has_col data "sessions");
    rewrite ?lookup_insert_ne by congruence; exact Hbase.
Qed.

(** In a row of the aggregate, the channel is the group key. *)
Lemma grouped_row_channel (data : DataFrame) (g : string) (grouped : DataFrame)
    (row : gmap string cell) :
  group_col data = Some g ->
  grouped_channels data g = Ok grouped ->
  row ∈ rows grouped ->
  row !! g = Some (channel_of row).
Proof.
  intros Hg Hok Hrow.
  destruct (grouped_row_key _ _ _ _ Hg Hok Hrow) as [k [Hk _]].
  rewrite Hk. f_equal. unfold channel_of.
  destruct (group_col_cases _ _ Hg) as [-> | ->].
  - rewrite Hk. reflexivity.
  - rewrite (grouped_row_lookup_none data "source" grouped row "source_medium"
               Hg Hok Hrow); try discriminate.
    + rewrite Hk. reflexivity.
    + unfold agg_names. rewrite !elem_of_cons, elem_of_nil.
      intuition discriminate.
Qed.

Lemma top_performers_users (rs : list (gmap string cell)) (ps : list Performer.t) :
  mapR (fun row =>
          users ← int_cell (default (Num (Fin 0)) (row !! "users"));
          Ok {| Performer.channel := channel_of row;
                Performer.users := users;
                Performer.performance_score := _calculate_performance_score row |})
       rs = Ok ps ->
  Forall2 (fun row p =>
             Performer.channel p = channel_of row
             /\ forall u, row !! "users" = Some (Num (Fin u)) ->
                          Performer.users p = trunc u) rs ps.
Proof.
  revert ps. induction rs as [|row rs IH]; simpl; intros ps H.
  - inversion H. constructor.
  - destruct (int_cell (default (Num (Fin 0)) (row !! "users"))) as [n|] eqn:En;
      [|discriminate]. simpl in H.
    destruct (mapR _ rs) as [ps'|] eqn:Ers; [|discriminate]. simpl in H.
    inversion H; subst. constructor; [|apply IH; reflexivity].
    split; [reflexivity|]. simpl. intros u Hu. rewrite Hu in En.
    simpl in En. unfold int_cell in En. simpl in En. inversion En. reflexivity.
Qed.

Lemma first_performer_first_row (data : DataFrame) (a : Analysis.t)
    (p : Performer.t) (ps : list Performer.t) :
  analyze_source_medium data = Ok (SourceReport a) ->
  Analysis.top_performers a = p :: ps ->
  exists g r0 u0,
    group_col data = Some g
    /\ Analysis.by_channel a !! 0%nat = Some r0
    /\ r0 !! g = Some (Performer.channel p)
    /\ r0 !! "users" = Some (Num (Fin u0))
    /\ Performer.users p = trunc u0
    /\ forall row u, row ∈ Analysis.by_channel a ->
                     row !! "users" = Some (Num (Fin u)) -> u <= u0.
Proof.
  intros Ha Htop.
  destruct (analyze_source_medium_report _ _ Ha)
    as (g & grouped & Hg & Hok & Hby & Hps & _).
  unfold _identify_top_performers in Hps.
  apply top_performers_users in Hps. rewrite Htop in Hps.
  destruct (rows grouped) as [|r0 rs] eqn:Er; [inversion Hps|].
  simpl in Hps. inversion Hps as [|? ? ? ? [Hch Hus] _]; subst.
  assert (r0 ∈ rows grouped) as Hin0 by (rewrite Er; left).
  destruct (grouped_users_finite _ _ _ _ Hg Hok Hin0) as [u0 Hu0].
  exists g, r0, u0. split; [exact Hg|]. rewrite ?Hby, ?Er.
  split; [reflexivity|]. split.
  { rewrite Hch. apply (grouped_row_channel data g grouped); assumption. }
  split; [exact Hu0|]. split; [apply Hus, Hu0|].
  intros row u Hrow Hu. apply elem_of_cons in Hrow. destruct Hrow as [->|Hrow].
  - rewrite Hu0 in Hu. inversion Hu. lra.
  - apply list_elem_of_lookup in Hrow. destruct Hrow as [j Hj].
    pose proof (grouped_channels_sorted _ _ _ Hok) as Hs. rewrite Er in Hs.
    pose proof (strongly_sorted_lookup _ _ 0 (S j) r0 row Hs
                  ltac:(lia) eq_refl Hj) as Hle.
    unfold not_after, float_at in Hle. rewrite Hu0, Hu in Hle. simpl in Hle.
    apply Qgtb_le in Hle. exact Hle.
Qed.

(** X2. The first top performer of a report is the first channel of the
    aggregate: its channel is a value of the grouping column, its users are
    the integer part of the channel's users, and no channel of the report has
    more users. *)
Theorem top_performer_has_most_users (data : DataFrame) (a : Analysis.t)
    (p : Performer.t) (ps : list Performer.t) :
  analyze_source_medium data = Ok (SourceReport a) ->
  Analysis.top_performers a = p :: ps ->
  exists g r0 u0,
    group_col data = Some g
    /\ Analysis.by_channel a !! 0%nat = Some r0
    /\ r0 !! g = Some (Performer.channel p)
    /\ r0 !! "users" = Some (Num (Fin u0))
    /\ Performer.users p = trunc u0
    /\ forall row u, row ∈ Analysis.by_channel a ->
                     row !! "users" = Some (Num (Fin u)) -> u <= u0.
Proof. apply first_performer_first_row. Qed.

Example two_channels_top :
  exists a p ps,
    analyze_source_medium two_channels = Ok (SourceReport a)
    /\ Analysis.top_performers a = p :: ps
    /\ Performer.channel p = Str "google / organic".
Proof. do 3 eexists. split; [vm_compute; reflexivity|]. split; reflexivity. Qed.

Lemma top_performer_has_most_users_witness :
  exists (r0 : gmap string cell) u0,
    r0 !! "source_medium" = Some (Str "google / organic")
    /\ r0 !! "users" = Some (Num (Fin u0))
    /\ forall row u,
        (exists a, analyze_source_medium two_channels = Ok (SourceReport a)
                   /\ row ∈ Analysis.by_channel a) ->
        row !! "users" = Some (Num (Fin u)) -> u <= u0.
Proof.
  destruct two_channels_top as (a & p & ps & Ha & Htop & Hname).
  destruct (top_performer_has_most_users two_channels a p ps Ha Htop)
    as (g & r0 & u0 & Hg & _ & Hch & Hu0 & _ & Hmax).
  vm_compute in Hg. injection Hg as <-. rewrite Hname in Hch.
  exists r0, u0. split; [exact Hch|]. split; [exact Hu0|].
  intros row u [a' [Ha' Hin]] Hu.
  rewrite Ha in Ha'. injection Ha' as <-. apply (Hmax row u Hin Hu).
Defined.

(** ** Group keys *)

Lemma ascii_compare_lt_trans (a b c : Ascii.ascii) :
  Ascii.compare a b = Lt -> Ascii.compare b c = Lt -> Ascii.compare a c = Lt.
Proof.
  unfold Ascii.compare. rewrite !N.compare_lt_iff. lia.
Qed.

Lemma string_compare_lt_trans (s1 s2 s3 : string) :
  String.compare s1 s2 = Lt -> String.compare s2 s3 = Lt ->
  String.compare s1 s3 = Lt.
Proof.
  revert s2 s3. induction s1 as [|a s1 IH]; intros [|b s2] [|c s3]; simpl;
    try discriminate; try reflexivity.
  destruct (Ascii.compare a b) eqn:Eab; try discriminate;
    destruct (Ascii.compare b c) eqn:Ebc; try discriminate.
  - apply Ascii.compare_eq_iff in Eab, Ebc. subst.
    assert (Ascii.compare c c = Eq) as -> by apply N.compare_refl.
    apply IH.
  - apply Ascii.compare_eq_iff in Eab. subst. rewrite Ebc. reflexivity.
  - apply Ascii.compare_eq_iff in Ebc. subst. rewrite Eab. reflexivity.
  - rewrite (ascii_compare_lt_trans _ _ _ Eab Ebc). reflexivity.
Qed.

Lemma string_compare_refl (s : string) : String.compare s s = Eq.
Proof.
  induction s as [|a s IH]; simpl; [reflexivity|].
  assert (Ascii.compare a a = Eq) as -> by apply N.compare_refl. exact IH.
Qed.

Lemma string_leb_trans (s1 s2 s3 : string) :
  String.leb s1 s2 = true -> String.leb s2 s3 = true -> String.leb s1 s3 = true.
Proof.
  unfold String.leb.
  destruct (String.compare s1 s2) eqn:E12; try discriminate;
    destruct (String.compare s2 s3) eqn:E23; try discriminate; intros _ _.
  - apply String.compare_eq_iff in E12, E23. subst.
    rewrite string_compare_refl. reflexivity.
  - apply String.compare_eq_iff in E12. subst. rewrite E23. reflexivity.
  - apply String.compare_eq_iff in E23. subst. rewrite E12. reflexivity.
  - rewrite (string_compare_lt_trans _ _ _ E12 E23). reflexivity.
Qed.

Lemma string_leb_refl (s : string) : String.leb s s = true.
Proof. unfold String.leb. rewrite string_compare_refl. reflexivity. Qed.

Lemma cell_eqb_refl (c : cell) : is_missing c = false -> cell_eqb c c = true.
Proof.
  destruct c as [s|[q|]]; simpl; intros H; try discriminate.
  - apply String.eqb_refl.
  - apply Qeq_bool_iff. reflexivity.
Qed.

Lemma cell_eqb_sym (a b : cell) : cell_eqb a b = cell_eqb b a.
Proof.
  destruct a as [s|[p|]], b as [t|[q|]]; simpl; try reflexivity.
  - apply String.eqb_sym.
  - apply eq_true_iff_eq. rewrite !Qeq_bool_iff. split; intros H; symmetry; exact H.
Qed.

Lemma cell_eqb_trans (a b c : cell) :
  cell_eqb a b = true -> cell_eqb b c = true -> cell_eqb a c = true.
Proof.
  destruct a as [s|[p|]], b as [t|[q|]], c as [u|[r|]]; simpl;
    try discriminate.
  - rewrite !String.eqb_eq. congruence.
  - rewrite !Qeq_bool_iff. intros H1 H2. rewrite H1. exact H2.
Qed.

Lemma cell_eqb_leb (a b : cell) : cell_eqb a b = true -> cell_leb a b = true.
Proof.
  destruct a as [s|[p|]], b as [t|[q|]]; simpl; try discriminate.
  - rewrite String.eqb_eq. intros ->. apply string_leb_refl.
  - rewrite Qeq_bool_iff, Qle_bool_iff. intros ->. lra.
Qed.

Lemma cell_leb_antisym (a b : cell) :
  cell_leb a b = true -> cell_leb b a = true -> cell_eqb a b = true.
Proof.
  destruct a as [s|[p|]], b as [t|[q|]]; simpl; try discriminate.
  - intros H1 H2. apply String.eqb_eq. apply String.leb_antisym; assumption.
  - rewrite !Qle_bool_iff, Qeq_bool_iff. lra.
Qed.

Lemma cell_leb_total (a b : cell) :
  is_missing a = false -> is_missing b = false ->
  cell_leb a b = true \/ cell_leb b a = true.
Proof.
  destruct a as [s|[p|]], b as [t|[q|]]; simpl; try discriminate; intros _ _;
    try tauto.
  - apply String.leb_total.
  - rewrite !Qle_bool_iff. lra.
Qed.

Lemma cell_leb_trans (a b c : cell) :
  cell_leb a b = true -> cell_leb b c = true -> cell_leb a c = true.
Proof.
  destruct a as [s|[p|]], b as [t|[q|]], c as [u|[r|]]; simpl;
    try discriminate; try reflexivity.
  - apply string_leb_trans.
  - rewrite !Qle_bool_iff. lra.
Qed.

Lemma key_lt_trans (a b c : cell) : key_lt a b -> key_lt b c -> key_lt a c.
Proof.
  intros [L1 N1] [L2 N2]. split; [apply (cell_leb_trans a b c); assumption|].
  destruct (cell_eqb a c) eqn:E; [|reflexivity].
  rewrite cell_eqb_sym in E. apply cell_eqb_leb in E.
  pose proof (cell_leb_trans _ _ _ L2 E) as L3.
  pose proof (cell_leb_antisym _ _ L1 L3). congruence.
Qed.

Lemma insert_key_keeps (k c : cell) (ks : list cell) :
  c ∈ ks -> c ∈ insert_key k ks.
Proof.
  induction ks as [|k' ks IH]; simpl; intros H.
  - apply elem_of_nil in H. contradiction.
  - destruct (cell_eqb k k'); [exact H|].
    destruct (cell_leb k k'); [right; exact H|].
    apply elem_of_cons in H. destruct H as [->|H]; [left | right; apply IH, H].
Qed.

Lemma insert_key_has (k : cell) (ks : list cell) :
  is_missing k = false -> existsb (cell_eqb k) (insert_key k ks) = true.
Proof.
  intros Hk. induction ks as [|k' ks IH]; simpl.
  - rewrite (cell_eqb_refl k Hk). reflexivity.
  - destruct (cell_eqb k k') eqn:E; simpl; [rewrite E; reflexivity|].
    destruct (cell_leb k k'); simpl.
    + rewrite (cell_eqb_refl k Hk). reflexivity.
    + rewrite E, IH. reflexivity.
Qed.

Lemma insert_key_sorted (k : cell) (ks : list cell) :
  is_missing k = false ->
  Forall (fun c => is_missing c = false) ks ->
  StronglySorted key_lt ks ->
  StronglySorted key_lt (insert_key k ks).
Proof.
  intros Hk Hks Hs. induction Hs as [|k' ks Hs IH Hall]; simpl.
  - constructor; constructor.
  - inversion Hks as [|? ? Hk' Hks']; subst.
    destruct (cell_eqb k k') eqn:E; [constructor; assumption|].
    destruct (cell_leb k k') eqn:L.
    + constructor; [constructor; assumption|].
      constructor; [split; assumption|].
      rewrite Forall_forall in *. intros c Hc.
      apply (key_lt_trans k k' c); [split; assumption | apply Hall, Hc].
    + constructor; [apply IH, Hks'|].
      rewrite Forall_forall in *. intros c Hc.
      apply elem_of_insert_key in Hc. destruct Hc as [->|Hc]; [|apply Hall, Hc].
      split.
      * destruct (cell_leb_total k k' Hk Hk'); congruence.
      * rewrite cell_eqb_sym. exact E.
Qed.

Lemma group_keys_present (rs : list (gmap string cell)) (g : string) :
  Forall (fun c => is_missing c = false) (group_keys rs g).
Proof.
  rewrite Forall_forall. intros k Hk.
  apply (group_keys_from_data rs g k Hk).
Qed.

(** The group keys are in strictly ascending order: no key occurs twice. *)
Lemma group_keys_sorted (rs : list (gmap string cell)) (g : string) :
  StronglySorted key_lt (group_keys rs g).
Proof.
  induction rs as [|r rs IH]; simpl; [constructor|].
  destruct (r !! g) as [c|]; [|exact IH].
  destruct (is_missing c) eqn:E; [exact IH|].
  apply insert_key_sorted; [exact E | apply group_keys_present | exact IH].
Qed.

(** Every value of the grouping column that is not missing has its key. *)
Lemma group_keys_complete (rs : list (gmap string cell)) (g : string)
    (r : gmap string cell) (c : cell) :
  r ∈ rs -> r !! g = Some c -> is_missing c = false ->
  existsb (cell_eqb c) (group_keys rs g) = true.
Proof.
  induction rs as [|r' rs IH]; simpl; intros Hin Hc Hm.
  - apply elem_of_nil in Hin. contradiction.
  - apply elem_of_cons in Hin. destruct Hin as [<-|Hin].
    + rewrite Hc, Hm. apply insert_key_has, Hm.
    + specialize (IH Hin Hc Hm).
      destruct (r' !! g) as [c'|]; [|exact IH].
      destruct (is_missing c'); [exact IH|].
      apply existsb_exists in IH. destruct IH as [k [Hk Hck]].
      apply existsb_exists. exists k. split; [|exact Hck].
      apply list_elem_of_In, insert_key_keeps, list_elem_of_In, Hk.
Qed.

Lemma filter_none {A} (f : A -> bool) (l : list A) :
  (forall x, x ∈ l -> f x = false) -> List.filter f l = [].
Proof.
  induction l as [|x l IH]; simpl; intros H; [reflexivity|].
  rewrite (H x) by left. apply IH. intros y Hy. apply H. right. exact Hy.
Qed.

(** Among keys in strictly ascending order, exactly one matches a value that
    has a key. *)
Lemma sorted_keys_match_once (c : cell) (ks : list cell) :
  StronglySorted key_lt ks ->
  existsb (cell_eqb c) ks = true ->
  length (List.filter (cell_eqb c) ks) = 1%nat.
Proof.
  intros Hs. induction Hs as [|k ks Hs IH Hall]; simpl; [discriminate|].
  destruct (cell_eqb c k) eqn:E; simpl.
  - intros _. f_equal.
    assert (List.filter (cell_eqb c) ks = []) as ->; [|reflexivity].
    apply filter_none. intros k' Hk'.
    rewrite Forall_forall in Hall.
    destruct (Hall k' Hk') as [_ Hne].
    destruct (cell_eqb c k') eqn:E'; [|reflexivity].
    rewrite cell_eqb_sym in E.
    rewrite (cell_eqb_trans _ _ _ E E') in Hne. discriminate.
  - exact IH.
Qed.

(** ** One row per channel, and the totals *)

Lemma map_map_list {A B C} (f : A -> B) (h : B -> C) (l : list A) :
  map h (map f l) = map (fun x => h (f x)) l.
Proof. induction l as [|x l IH]; simpl; [|rewrite IH]; reflexivity. Qed.

(** The rows of the aggregate are, up to their order, the rows of the group
    keys. *)
Lemma grouped_channels_perm (data : DataFrame) (g : string) (grouped : DataFrame) :
  group_col data = Some g ->
  grouped_channels data g = Ok grouped ->
  rows grouped ≡ₚ map (report_row data g) (group_keys (rows data) g).
Proof.
  intros Hg Hok. unfold grouped_channels, sort_values_desc in Hok.
  set (G := groupby_agg data g (agg_cols data)) in *.
  assert (forall col, col ∈ agg_names -> has_col G col = has_col data col) as HG
    by (intros col Hc; apply has_col_grouped; assumption).
  assert (has_col G "users" = has_col data "users") as Hu
    by (apply HG; unfold agg_names; rewrite !elem_of_cons; tauto).
  assert (has_col G "sessions" = has_col data "sessions") as Hs
    by (apply HG; unfold agg_names; rewrite !elem_of_cons; tauto).
  assert (has_col G "conversions" = has_col data "conversions") as Hc
    by (apply HG; unfold agg_names; rewrite !elem_of_cons; tauto).
  assert (rows G = map (fun k => agg_row g k (group_rows (rows data) g k)
                                       (agg_cols data))
                       (group_keys (rows data) g)) as HrowsG by reflexivity.
  clearbody G. unfold report_row.
  unfold add_conversion_rate, add_sessions_per_user in Hok.
  rewrite Hu, Hs in Hok.
  destruct (has_col data "users") eqn:Eu, (has_col data "sessions") eqn:Es;
    simpl in Hok; rewrite ?has_col_assign, ?Hu, ?Hs, ?Hc in Hok; simpl in Hok;
    rewrite ?orb_false_r, ?andb_false_r, ?andb_true_r in Hok;
    try (destruct (has_col data "conversions") eqn:Ec; simpl in Hok);
    rewrite ?has_col_assign, ?Hu, ?Hs, ?Hc in Hok; simpl in Hok;
    try discriminate Hok;
    inversion Hok; subst grouped; simpl;
    rewrite sort_desc_perm, HrowsG, ?map_map_list; simpl; reflexivity.
Qed.

Lemma report_row_key (data : DataFrame) (g : string) (k : cell) :
  group_col data = Some g -> report_row data g k !! g = Some k.
Proof.
  intros Hg. unfold report_row.
  assert (g <> "sessions_per_user" /\ g <> "conversion_rate" /\ g ∉ agg_names)
    as (N1 & N2 & N3).
  { apply group_col_cases in Hg. unfold agg_names.
    rewrite !elem_of_cons, elem_of_nil.
    destruct Hg as [-> | ->]; intuition discriminate. }
  assert (agg_row g k (group_rows (rows data) g k) (agg_cols data) !! g = Some k)
    as Hbase.
  { rewrite agg_row_lookup_other by (rewrite agg_cols_names; tauto).
    apply lookup_singleton_eq. }
  destruct (has_col data "conversions" && has_col data "sessions"),
    (has_col data "sessions");
    rewrite ?lookup_insert_ne by congruence; exact Hbase.
Qed.

Lemma filter_length_perm {A} (f : A -> bool) (l l' : list A) :
  l ≡ₚ l' -> length (List.filter f l) = length (List.filter f l').
Proof.
  intros H. induction H as [|x l l' H IH|x y l|l l' l'' H1 IH1 H2 IH2]; simpl.
  - reflexivity.
  - destruct (f x); simpl; congruence.
  - destruct (f x), (f y); reflexivity.
  - congruence.
Qed.

Lemma filter_map_list {A B} (f : B -> bool) (h : A -> B) (l : list A) :
  length (List.filter f (map h l)) = length (List.filter (fun x => f (h x)) l).
Proof.
  induction l as [|x l IH]; simpl; [reflexivity|].
  destruct (f (h x)); simpl; congruence.
Qed.

(** X3. Every channel of the dataset has exactly one row in the report. *)
Theorem one_row_per_channel (data : DataFrame) (a : Analysis.t) (g : string)
    (r : gmap string cell) (c : cell) :
  analyze_source_medium data = Ok (SourceReport a) ->
  group_col data = Some g ->
  r ∈ rows data -> r !! g = Some c -> is_missing c = false ->
  length (List.filter (of_channel g c) (Analysis.by_channel a)) = 1%nat.
Proof.
  intros Ha Hg Hr Hc Hm.
  destruct (analyze_source_medium_report _ _ Ha)
    as (g' & grouped & Hg' & Hok & Hby & _).
  assert (g' = g) as -> by congruence.
  rewrite Hby, (filter_length_perm _ _ _ (grouped_channels_perm _ _ _ Hg Hok)).
  rewrite filter_map_list.
  rewrite (List.filter_ext _ (cell_eqb c)).
  - apply sorted_keys_match_once; [apply group_keys_sorted|].
    apply (group_keys_complete _ _ r); assumption.
  - intros k. unfold of_channel. rewrite (report_row_key _ _ _ Hg). reflexivity.
Qed.

Lemma series_sum_cons (r : gmap string cell) (rs : list (gmap string cell))
    (c : string) :
  series_sum (series (r :: rs) c) == summand c r + series_sum (series rs c).
Proof.
  unfold series_sum, summand. simpl.
  destruct (float_at r c); simpl; fold (series rs c); lra.
Qed.

Lemma series_sum_perm (l l' : list (gmap string cell)) (c : string) :
  l ≡ₚ l' -> series_sum (series l c) == series_sum (series l' c).
Proof.
  intros H. induction H as [|x l l' H IH|x y l|l l' l'' H1 IH1 H2 IH2].
  - reflexivity.
  - rewrite !series_sum_cons, IH. reflexivity.
  - rewrite !series_sum_cons. lra.
  - rewrite IH1. exact IH2.
Qed.

Lemma Qsum_map_add {A} (f h : A -> Q) (l : list A) :
  Qsum (map (fun x => f x + h x) l) == Qsum (map f l) + Qsum (map h l).
Proof. induction l as [|x l IH]; simpl; [lra | rewrite IH; lra]. Qed.

Lemma Qsum_map_ext {A} (f h : A -> Q) (l : list A) :
  (forall x, f x == h x) -> Qsum (map f l) == Qsum (map h l).
Proof.
  intros H. induction l as [|x l IH]; simpl; [reflexivity|].
  rewrite IH, (H x). reflexivity.
Qed.

(** Over keys in strictly ascending order, a value is counted by the one key
    it matches. *)
Lemma Qsum_matching_key (c : cell) (v : Q) (ks : list cell) :
  StronglySorted key_lt ks ->
  Qsum (map (fun k => if cell_eqb c k then v else 0) ks)
  == (if existsb (cell_eqb c) ks then v else 0).
Proof.
  intros Hs. induction Hs as [|k ks Hs IH Hall]; simpl; [reflexivity|].
  destruct (cell_eqb c k) eqn:E; simpl; [|rewrite IH; lra].
  rewrite IH.
  assert (existsb (cell_eqb c) ks = false) as ->; [|lra].
  destruct (existsb (cell_eqb c) ks) eqn:Ex; [|reflexivity].
  apply existsb_exists in Ex. destruct Ex as [k' [Hk' E']].
  rewrite Forall_forall in Hall. apply list_elem_of_In in Hk'.
  destruct (Hall k' Hk') as [_ Hne].
  rewrite cell_eqb_sym in E. rewrite (cell_eqb_trans _ _ _ E E') in Hne.
  discriminate.
Qed.

(** The sums of the groups add up to the sum over the rows that have a key. *)
Lemma group_sums_add_up (rs : list (gmap string cell)) (g c : string)
    (ks : list cell) :
  StronglySorted key_lt ks ->
  Qsum (map (fun k => series_sum (series (group_rows rs g k) c)) ks)
  == series_sum (series (List.filter (keyed_by g ks) rs) c).
Proof.
  intros Hs. induction rs as [|r rs IH].
  - simpl. induction ks as [|k ks IHk]; simpl; [reflexivity|].
    inversion Hs; subst. rewrite IHk by assumption. unfold series_sum. simpl. lra.
  - assert (Qsum (map (fun k => series_sum (series (group_rows (r :: rs) g k) c)) ks)
            == Qsum (map (fun k => (if match r !! g with
                                       | Some x => cell_eqb x k
                                       | None => false
                                       end then summand c r else 0)
                                   + series_sum (series (group_rows rs g k) c)) ks))
      as ->.
    { apply Qsum_map_ext. intros k. unfold group_rows. simpl.
      destruct (match r !! g with Some x => cell_eqb x k | None => false end).
      - apply series_sum_cons.
      - lra. }
    rewrite Qsum_map_add, IH. simpl. unfold keyed_by at 2.
    destruct (r !! g) as [x|].
    + rewrite (Qsum_matching_key x _ ks Hs).
      destruct (existsb (cell_eqb x) ks); [rewrite series_sum_cons|]; lra.
    + assert (Qsum (map (fun _ : cell => if false then summand c r else 0) ks) == 0)
        as -> by (clear; induction ks as [|k ks IHk]; simpl; [|rewrite IHk]; lra).
      lra.
Qed.

Lemma keyed_by_group_keys (rs : list (gmap string cell)) (g : string) :
  List.filter (keyed_by g (group_keys rs g)) rs = List.filter (has_channel g) rs.
Proof.
  apply List.filter_ext_in. intros r Hr. apply list_elem_of_In in Hr.
  unfold keyed_by, has_channel. destruct (r !! g) as [x|] eqn:E; [|reflexivity].
  destruct (is_missing x) eqn:Em; simpl.
  - destruct x as [s|[q|]]; try discriminate Em.
    destruct (existsb _ _) eqn:Ex; [|reflexivity].
    apply existsb_exists in Ex. destruct Ex as [k [_ Hk]]. discriminate Hk.
  - apply (group_keys_complete rs g r x Hr E Em).
Qed.

Lemma agg_cols_sum (data : DataFrame) (c : string) (f : aggfun) :
  c ∈ sum_names -> (c, f) ∈ agg_cols data -> f = agg_sum.
Proof.
  unfold agg_cols, sum_names. rewrite !elem_of_app, elem_of_map.
  intros Hc [[col [H _]] | [H | H]].
  - inversion H. reflexivity.
  - destruct (has_col data "bounce_rate");
      [|apply elem_of_nil in H; contradiction].
    apply list_elem_of_singleton in H. inversion H; subst.
    rewrite !elem_of_cons, elem_of_nil in Hc. intuition discriminate.
  - destruct (has_col data "avg_session_duration");
      [|apply elem_of_nil in H; contradiction].
    apply list_elem_of_singleton in H. inversion H; subst.
    rewrite !elem_of_cons, elem_of_nil in Hc. intuition discriminate.
Qed.

Lemma report_row_sum (data : DataFrame) (g c : string) (k : cell) :
  c ∈ sum_names -> has_col data c = true ->
  float_at (report_row data g k) c
  = Fin (series_sum (series (group_rows (rows data) g k) c)).
Proof.
  intros Hc Hcol. unfold report_row.
  assert (c <> "sessions_per_user" /\ c <> "conversion_rate") as [N1 N2].
  { unfold sum_names in Hc. rewrite !elem_of_cons, elem_of_nil in Hc.
    intuition (subst; discriminate). }
  assert (c ∈ map fst (agg_cols data)) as Hin.
  { apply agg_cols_names. split; [|exact Hcol].
    unfold sum_names in Hc. unfold agg_names.
    rewrite !elem_of_cons, elem_of_nil in *. tauto. }
  destruct (agg_row_lookup g k (group_rows (rows data) g k) _ _ Hin)
    as [f [Hf Hl]].
  rewrite (agg_cols_sum _ _ _ Hc Hf) in Hl. simpl in Hl.
  destruct (has_col data "conversions" && has_col data "sessions"),
    (has_col data "sessions");
    rewrite ?float_at_insert_ne by congruence;
    unfold float_at; rewrite Hl; reflexivity.
Qed.

Lemma series_sum_report_rows (data : DataFrame) (g c : string) (ks : list cell) :
  c ∈ sum_names -> has_col data c = true ->
  series_sum (series (map (report_row data g) ks) c)
  == Qsum (map (fun k => series_sum (series (group_rows (rows data) g k) c)) ks).
Proof.
  intros Hc Hcol. induction ks as [|k ks IH]; [reflexivity|].
  simpl map. rewrite series_sum_cons, IH. unfold summand.
  rewrite (report_row_sum data g c k Hc Hcol). simpl. reflexivity.
Qed.

(** X4. The channel sums of a report add up to the sum over the rows of the
    dataset that have a channel; when every row has one, to the total of the
    summary. *)
Theorem channel_sums_add_up (data : DataFrame) (a : Analysis.t) (g c : string) :
  analyze_source_medium data = Ok (SourceReport a) ->
  group_col data = Some g ->
  c ∈ sum_names -> has_col data c = true ->
  series_sum (series (Analysis.by_channel a) c)
  == series_sum (series (List.filter (has_channel g) (rows data)) c)
  /\ (forallb (has_channel g) (rows data) = true ->
      series_sum (series (Analysis.by_channel a) c) == _safe_sum data c).
Proof.
  intros Ha Hg Hc Hcol.
  destruct (analyze_source_medium_report _ _ Ha)
    as (g' & grouped & Hg' & Hok & Hby & _).
  assert (g' = g) as -> by congruence.
  assert (series_sum (series (Analysis.by_channel a) c)
          == series_sum (series (List.filter (has_channel g) (rows data)) c)) as H.
  { rewrite Hby, (series_sum_perm _ _ c (grouped_channels_perm _ _ _ Hg Hok)).
    rewrite (series_sum_report_rows _ _ _ _ Hc Hcol).
    rewrite (group_sums_add_up _ _ _ _ (group_keys_sorted (rows data) g)).
    rewrite keyed_by_group_keys. reflexivity. }
  split; [exact H|].
  intros Hall. rewrite H. unfold _safe_sum. rewrite Hcol.
  rewrite (List.forallb_filter_id _ _ Hall). reflexivity.
Qed.

Lemma one_row_per_channel_witness :
  exists a,
    analyze_source_medium two_channels = Ok (SourceReport a)
    /\ length (List.filter (of_channel "source_medium" (Str "direct / none"))
                           (Analysis.by_channel a)) = 1%nat.
Proof.
  destruct two_channels_report as (a & r1 & r2 & E & _).
  exists a. split; [exact E|].
  apply (one_row_per_channel two_channels a "source_medium"
           (channel_row "direct / none" 50 50 0 80) (Str "direct / none") E);
    [reflexivity | right; left | reflexivity | reflexivity].
Defined.

Lemma channel_sums_add_up_witness :
  exists a,
    analyze_source_medium two_channels = Ok (SourceReport a)
    /\ series_sum (series (Analysis.by_channel a) "sessions")
       == _safe_sum two_channels "sessions".
Proof.
  destruct two_channels_report as (a & r1 & r2 & E & _).
  exists a. split; [exact E|].
  apply (channel_sums_add_up two_channels a "source_medium" "sessions" E);
    [reflexivity | right; left | reflexivity | reflexivity].
Defined.

(** ** Underperformers need three groups *)

Lemma elem_of_dropna_series (rs : list (gmap string cell)) (c : string)
    (row : gmap string cell) (x : Q) :
  row ∈ rs -> float_at row c = Fin x -> x ∈ dropna (series rs c).
Proof.
  induction rs as [|r rs IH]; intros Hin Hx.
  - apply elem_of_nil in Hin. contradiction.
  - apply elem_of_cons in Hin. simpl. destruct Hin as [<-|Hin].
    + rewrite Hx. left.
    + specialize (IH Hin Hx). fold (series rs c).
      destruct (float_at r c); [right|]; exact IH.
Qed.

Lemma exceeds_small (x m v : Q) :
  (x - m) * (x - m) <= v -> exceeds (Fin x) (Fin m) (Fin v) = false.
Proof.
  intros H. unfold exceeds. apply andb_false_iff. right. apply Qgtb_le. exact H.
Qed.

Lemma Qsquare_nonneg (x : Q) : 0 <= x * x.
Proof. nra. Qed.

(** X5. With at most two groups that have a bounce_rate, no group exceeds the
    mean by more than the sample standard deviation: the list is empty. *)
Theorem underperformers_need_three_groups (grouped : DataFrame) :
  (length (dropna (series (rows grouped) "bounce_rate")) <= 2)%nat ->
  _identify_underperformers grouped = [].
Proof.
  intros Hlen. rewrite underperformers_eq.
  destruct (has_col grouped "bounce_rate"); [|reflexivity].
  rewrite filter_none; [reflexivity|].
  intros row Hrow. unfold above_threshold.
  destruct (float_at row "bounce_rate") as [x|] eqn:Ex; [|reflexivity].
  pose proof (elem_of_dropna_series _ _ _ _ Hrow Ex) as Hx.
  unfold series_mean, series_var.
  destruct (dropna (series (rows grouped) "bounce_rate"))
    as [|a [|b [|c vs]]] eqn:Ev; try reflexivity; [|simpl in Hlen; lia].
  cbv zeta. apply exceeds_small.
  unfold Qlen. cbn [length map Qsum].
  change (inject_Z (Z.of_nat 2)) with 2.
  set (m := (a + (b + 0)) / 2).
  pose proof (Qsquare_nonneg (a - m)). pose proof (Qsquare_nonneg (b - m)).
  assert (((a - m) * (a - m) + ((b - m) * (b - m) + 0)) / (2 - 1)
          == (a - m) * (a - m) + (b - m) * (b - m)) as -> by field.
  rewrite !elem_of_cons, elem_of_nil in Hx.
  destruct Hx as [->|[->|[]]]; lra.
Qed.

Lemma underperformers_need_three_groups_witness :
  _identify_underperformers two_channels = [].
Proof.
  apply (underperformers_need_three_groups two_channels).
  vm_compute. apply le_n.
Defined.

(** ** The best channels of the quality analysis *)

Section IdxExtreme.
Variable better : Q -> Q -> bool.
Hypothesis better_asym : forall a b, better a b = true -> better b a = false.
Hypothesis better_trans :
  forall a b c, better b a = false -> better c b = false -> better c a = false.
Hypothesis better_mix :
  forall a b c, better a b = true -> better c b = false -> better a c = true.

Lemma better_irrefl (a : Q) : better a a = false.
Proof.
  destruct (better a a) eqn:E; [|reflexivity].
  rewrite (better_asym _ _ E) in E. discriminate.
Qed.

Lemma better_replaces (q b v : Q) :
  better q b = true -> better q v = false -> better v b = true.
Proof.
  intros Hqb Hqv. destruct (better v b) eqn:E; [reflexivity|].
  rewrite (better_mix _ _ _ Hqb E) in Hqv. discriminate.
Qed.

Lemma idx_extreme_spec (xs : list num) :
  forall (start : nat) (best : option (nat * Q)) (i : nat) (v : Q),
    idx_extreme better xs start best = Some (i, v) ->
    (forall j w, xs !! j = Some (Fin w) -> better w v = false)
    /\ (forall i0 b, best = Some (i0, b) -> better b v = false)
    /\ (best = Some (i, v)
        \/ ((start <= i)%nat
            /\ xs !! (i - start)%nat = Some (Fin v)
            /\ (forall j w, (j < i - start)%nat -> xs !! j = Some (Fin w) ->
                            better v w = true)
            /\ (forall i0 b, best = Some (i0, b) -> better v b = true))).
Proof.
  induction xs as [|x xs IH]; intros start best i v H; simpl in H.
  - subst best. split; [intros j w Hj; rewrite lookup_nil in Hj; discriminate|].
    split; [|left; reflexivity].
    intros i0 b Hb. inversion Hb. apply better_irrefl.
  - destruct x as [q|].
    + destruct best as [[i0 b]|].
      * destruct (better q b) eqn:Eqb.
        -- destruct (IH _ _ _ _ H) as (Hall & Hold & Horigin).
           pose proof (Hold _ _ eq_refl) as Hqv.
           pose proof (better_replaces _ _ _ Eqb Hqv) as Hvb.
           split; [intros [|j] w Hj; simpl in Hj;
                   [inversion Hj; subst; exact Hqv | apply (Hall j w Hj)]|].
           split; [intros ? ? Hb; inversion Hb; subst;
                   apply better_asym, Hvb|].
           right. destruct Horigin as [Heq | (Hle & Hi & Hearly & Hnew)].
           ++ inversion Heq; subst. replace (i - i)%nat with 0%nat by lia.
              split; [lia|]. split; [reflexivity|].
              split; [intros j w Hj; lia|].
              intros ? ? Hb. inversion Hb; subst. exact Eqb.
           ++ split; [lia|]. replace (i - start)%nat with (S (i - S start)) by lia.
              split; [exact Hi|]. split.
              ** intros [|j] w Hj Hw; simpl in Hw.
                 --- inversion Hw; subst. apply (Hnew _ _ eq_refl).
                 --- apply (Hearly j w); [lia | exact Hw].
              ** intros ? ? Hb. inversion Hb; subst. exact Hvb.
        -- destruct (IH _ _ _ _ H) as (Hall & Hold & Horigin).
           pose proof (Hold _ _ eq_refl) as Hbv.
           split; [intros [|j] w Hj; simpl in Hj;
                   [inversion Hj; subst; apply (better_trans _ _ _ Hbv Eqb)
                   | apply (Hall j w Hj)]|].
           split; [exact Hold|].
           destruct Horigin as [Heq | (Hle & Hi & Hearly & Hnew)];
             [left; exact Heq|].
           right. split; [lia|].
           replace (i - start)%nat with (S (i - S start)) by lia.
           split; [exact Hi|]. split; [|exact Hnew].
           intros [|j] w Hj Hw; simpl in Hw.
           ++ inversion Hw; subst.
              apply (better_mix _ _ _ (Hnew _ _ eq_refl) Eqb).
           ++ apply (Hearly j w); [lia | exact Hw].
      * destruct (IH _ _ _ _ H) as (Hall & Hold & Horigin).
        pose proof (Hold _ _ eq_refl) as Hqv.
        split; [intros [|j] w Hj; simpl in Hj;
                [inversion Hj; subst; exact Hqv | apply (Hall j w Hj)]|].
        split; [intros ? ? Hb; discriminate|].
        right. destruct Horigin as [Heq | (Hle & Hi & Hearly & Hnew)].
        -- inversion Heq; subst. replace (i - i)%nat with 0%nat by lia.
           split; [lia|]. split; [reflexivity|].
           split; [intros j w Hj; lia | intros ? ? Hb; discriminate].
        -- split; [lia|]. replace (i - start)%nat with (S (i - S start)) by lia.
           split; [exact Hi|]. split; [|intros ? ? Hb; discriminate].
           intros [|j] w Hj Hw; simpl in Hw.
           ++ inversion Hw; subst. apply (Hnew _ _ eq_refl).
           ++ apply (Hearly j w); [lia | exact Hw].
    + destruct (IH _ _ _ _ H) as (Hall & Hold & Horigin).
      split; [intros [|j] w Hj; simpl in Hj;
              [discriminate | apply (Hall j w Hj)]|].
      split; [exact Hold|].
      destruct Horigin as [Heq | (Hle & Hi & Hearly & Hnew)];
        [left; exact Heq|].
      right. split; [lia|].
      replace (i - start)%nat with (S (i - S start)) by lia.
      split; [exact Hi|]. split; [|exact Hnew].
      intros [|j] w Hj Hw; simpl in Hw; [discriminate|].
      apply (Hearly j w); [lia | exact Hw].
Qed.

Lemma idx_extreme_none (xs : list num) :
  forall (start : nat) (best : option (nat * Q)),
    idx_extreme better xs start best = None <-> best = None /\ dropna xs = [].
Proof.
  induction xs as [|x xs IH]; intros start best; simpl.
  - tauto.
  - destruct x as [q|].
    + destruct best as [[i0 b]|].
      * destruct (better q b); rewrite IH;
          split; intros [H _]; discriminate H.
      * rewrite IH. split; intros [H1 H2]; discriminate.
    + apply IH.
Qed.
End IdxExtreme.

Lemma lookup_map_list {A B} (f : A -> B) (l : list A) (i : nat) :
  map f l !! i = f <$> l !! i.
Proof.
  revert i. induction l as [|x l IH]; intros [|i]; simpl; try reflexivity.
  apply IH.
Qed.

Lemma idxmin_spec (xs : list num) (i : nat) :
  idxmin xs = Ok i ->
  exists v, xs !! i = Some (Fin v)
            /\ (forall j w, xs !! j = Some (Fin w) -> v <= w)
            /\ (forall j w, (j < i)%nat -> xs !! j = Some (Fin w) -> v < w).
Proof.
  unfold idxmin.
  destruct (idx_extreme _ xs 0 None) as [[i' v]|] eqn:E; [|discriminate].
  intros H. inversion H; subst.
  apply idx_extreme_spec in E.
  - destruct E as (Hall & _ & [Heq | (_ & Hi & Hearly & _)]); [discriminate|].
    rewrite Nat.sub_0_r in Hi, Hearly. exists v. split; [exact Hi|]. split.
    + intros j w Hj. apply Qgtb_le. apply (Hall j w Hj).
    + intros j w Hlt Hj. apply Qgtb_lt. apply (Hearly j w Hlt Hj).
  - intros a b. rewrite Qgtb_lt, Qgtb_le. lra.
  - intros a b c. rewrite !Qgtb_le. lra.
  - intros a b c. rewrite !Qgtb_lt, Qgtb_le. lra.
Qed.

Lemma idxmax_spec (xs : list num) (i : nat) :
  idxmax xs = Ok i ->
  exists v, xs !! i = Some (Fin v)
            /\ (forall j w, xs !! j = Some (Fin w) -> w <= v)
            /\ (forall j w, (j < i)%nat -> xs !! j = Some (Fin w) -> w < v).
Proof.
  unfold idxmax.
  destruct (idx_extreme _ xs 0 None) as [[i' v]|] eqn:E; [|discriminate].
  intros H. inversion H; subst.
  apply idx_extreme_spec in E.
  - destruct E as (Hall & _ & [Heq | (_ & Hi & Hearly & _)]); [discriminate|].
    rewrite Nat.sub_0_r in Hi, Hearly. exists v. split; [exact Hi|]. split.
    + intros j w Hj. apply Qgtb_le. apply (Hall j w Hj).
    + intros j w Hlt Hj. apply Qgtb_lt. apply (Hearly j w Hlt Hj).
  - intros a b. rewrite Qgtb_lt, Qgtb_le. lra.
  - intros a b c. rewrite !Qgtb_le. lra.
  - intros a b c. rewrite !Qgtb_lt, Qgtb_le. lra.
Qed.

(** [idxmin] and [idxmax] raise exactly on a column without any value. *)
Lemma idxmin_raises (xs : list num) :
  is_ok (idxmin xs) = false <-> dropna xs = [].
Proof.
  unfold idxmin.
  destruct (idx_extreme _ xs 0 None) as [[i v]|] eqn:E; simpl.
  - split; [discriminate|]. intros H.
    assert (idx_extreme (fun q b => Qgtb b q) xs 0 None = None) as E'
      by (apply idx_extreme_none; tauto).
    congruence.
  - apply idx_extreme_none in E. tauto.
Qed.

Lemma idxmax_raises (xs : list num) :
  is_ok (idxmax xs) = false <-> dropna xs = [].
Proof.
  unfold idxmax.
  destruct (idx_extreme _ xs 0 None) as [[i v]|] eqn:E; simpl.
  - split; [discriminate|]. intros H.
    assert (idx_extreme (fun q b => Qgtb q b) xs 0 None = None) as E'
      by (apply idx_extreme_none; tauto).
    congruence.
  - apply idx_extreme_none in E. tauto.
Qed.

Lemma series_lookup (rs : list (gmap string cell)) (col : string) (j : nat)
    (row : gmap string cell) :
  rs !! j = Some row -> series rs col !! j = Some (float_at row col).
Proof. intros H. unfold series. rewrite lookup_map_list, H. reflexivity. Qed.

Lemma series_lookup_inv (rs : list (gmap string cell)) (col : string) (j : nat)
    (x : num) :
  series rs col !! j = Some x ->
  exists row, rs !! j = Some row /\ float_at row col = x.
Proof.
  unfold series. rewrite lookup_map_list.
  destruct (rs !! j) as [row|]; simpl; [|discriminate].
  intros H. inversion H. exists row. split; reflexivity.
Qed.

Lemma loc_idxmin_lowest (grouped : DataFrame) (col : string) (ch : cell) :
  (i ← idxmin (series (rows grouped) col); loc grouped i "source_medium") = Ok ch ->
  first_lowest grouped col ch.
Proof.
  destruct (idxmin (series (rows grouped) col)) as [i|] eqn:E; [|discriminate].
  simpl. unfold loc, getitem.
  destruct (rows grouped !! i) as [row|] eqn:Er; [|discriminate].
  destruct (row !! "source_medium") as [c|] eqn:Ec; [|discriminate].
  intros H. inversion H; subst.
  destruct (idxmin_spec _ _ E) as (v & Hv & Hall & Hfirst).
  rewrite (series_lookup _ _ _ _ Er) in Hv. inversion Hv as [Hv'].
  exists i, row, v. repeat split; try assumption.
  - intros row' w Hin Hw. apply list_elem_of_lookup in Hin.
    destruct Hin as [j Hj]. apply (Hall j w).
    rewrite (series_lookup _ _ _ _ Hj), Hw. reflexivity.
  - intros j row' w Hlt Hj Hw. apply (Hfirst j w Hlt).
    rewrite (series_lookup _ _ _ _ Hj), Hw. reflexivity.
Qed.

Lemma loc_idxmax_highest (grouped : DataFrame) (col : string) (ch : cell) :
  (i ← idxmax (series (rows grouped) col); loc grouped i "source_medium") = Ok ch ->
  first_highest grouped col ch.
Proof.
  destruct (idxmax (series (rows grouped) col)) as [i|] eqn:E; [|discriminate].
  simpl. unfold loc, getitem.
  destruct (rows grouped !! i) as [row|] eqn:Er; [|discriminate].
  destruct (row !! "source_medium") as [c|] eqn:Ec; [|discriminate].
  intros H. inversion H; subst.
  destruct (idxmax_spec _ _ E) as (v & Hv & Hall & Hfirst).
  rewrite (series_lookup _ _ _ _ Er) in Hv. inversion Hv as [Hv'].
  exists i, row, v. repeat split; try assumption.
  - intros row' w Hin Hw. apply list_elem_of_lookup in Hin.
    destruct Hin as [j Hj]. apply (Hall j w).
    rewrite (series_lookup _ _ _ _ Hj), Hw. reflexivity.
  - intros j row' w Hlt Hj Hw. apply (Hfirst j w Hlt).
    rewrite (series_lookup _ _ _ _ Hj), Hw. reflexivity.
Qed.

(** X6. In the quality analysis of an aggregate by 'source_medium', the best
    bounce-rate channel is the first channel with the lowest bounce_rate and
    the best conversion channel the first with the highest conversion_rate,
    NaN left aside; without a 'source_medium' column both are 'N/A', and a
    column that is absent gives no entry. *)
Theorem quality_best_channels (grouped : DataFrame) (q : Quality.t) :
  _analyze_traffic_quality grouped = Ok q ->
  (has_col grouped "bounce_rate" = false ->
   Quality.best_bounce_rate_channel q = None /\ Quality.avg_bounce_rate q = None)
  /\ (has_col grouped "conversion_rate" = false ->
      Quality.best_conversion_channel q = None
      /\ Quality.avg_conversion_rate q = None)
  /\ (has_col grouped "source_medium" = false ->
      (has_col grouped "bounce_rate" = true ->
       Quality.best_bounce_rate_channel q = Some (Str "N/A"))
      /\ (has_col grouped "conversion_rate" = true ->
          Quality.best_conversion_channel q = Some (Str "N/A")))
  /\ (has_col grouped "source_medium" = true ->
      (has_col grouped "bounce_rate" = true ->
       exists ch, Quality.best_bounce_rate_channel q = Some ch
                  /\ first_lowest grouped "bounce_rate" ch)
      /\ (has_col grouped "conversion_rate" = true ->
          exists ch, Quality.best_conversion_channel q = Some ch
                     /\ first_highest grouped "conversion_rate" ch)).
Proof.
  unfold _analyze_traffic_quality.
  destruct (has_col grouped "bounce_rate") eqn:Eb,
    (has_col grouped "conversion_rate") eqn:Ec,
    (has_col grouped "source_medium") eqn:Es; simpl;
    repeat match goal with
           | |- context [mbind ?k (idxmin ?xs)] =>
               let E := fresh "Emin" in
               destruct (mbind k (idxmin xs)) as [?ch|] eqn:E; simpl;
               [|discriminate]
           | |- context [mbind ?k (idxmax ?xs)] =>
               let E := fresh "Emax" in
               destruct (mbind k (idxmax xs)) as [?ch|] eqn:E; simpl;
               [|discriminate]
           end;
    intros H; inversion H; subst; simpl;
    repeat split; try discriminate; try reflexivity; intros _;
    eexists; (split; [reflexivity|]);
    first [apply loc_idxmin_lowest; assumption
          | apply loc_idxmax_highest; assumption].
Qed.

Example six_channels_quality :
  exists q, _analyze_traffic_quality six_channels = Ok q
            /\ Quality.best_bounce_rate_channel q = Some (Str "newsletter / email")
            /\ Quality.best_conversion_channel q = Some (Str "partner / referral").
Proof. eexists. split; [vm_compute; reflexivity|]. split; reflexivity. Qed.

Lemma quality_best_channels_witness :
  first_lowest six_channels "bounce_rate" (Str "newsletter / email")
  /\ first_highest six_channels "conversion_rate" (Str "partner / referral").
Proof.
  destruct six_channels_quality as (q & Hq & Hb & Hc).
  destruct (quality_best_channels six_channels q Hq) as (_ & _ & _ & H).
  destruct (H eq_refl) as [H1 H2].
  destruct (H1 eq_refl) as (ch1 & E1 & L1). destruct (H2 eq_refl) as (ch2 & E2 & L2).
  rewrite Hb in E1. rewrite Hc in E2. inversion E1; inversion E2; subst.
  split; assumption.
Defined.

(** ** When the source/medium analysis raises *)

Lemma has_col_add_sessions_per_user (df : DataFrame) (col : string) :
  col <> "sessions_per_user" ->
  has_col (add_sessions_per_user df) col = has_col df col.
Proof.
  intros H. unfold add_sessions_per_user.
  destruct (has_col df "users" && has_col df "sessions"); [|reflexivity].
  rewrite has_col_assign. rewrite bool_decide_eq_false_2 by exact H.
  apply orb_false_r.
Qed.

Lemma has_col_add_conversion_rate (df : DataFrame) (col : string) :
  col <> "conversion_rate" ->
  has_col (add_conversion_rate df) col = has_col df col.
Proof.
  intros H. unfold add_conversion_rate.
  destruct (has_col df "conversions" && has_col df "sessions"); [|reflexivity].
  rewrite has_col_assign. rewrite bool_decide_eq_false_2 by exact H.
  apply orb_false_r.
Qed.

(** The aggregate is built unless the 'users' column is absent, in which case
    the sort raises the KeyError. *)
Lemma grouped_channels_result (data : DataFrame) (g : string) :
  group_col data = Some g ->
  (has_col data "users" = true -> exists grouped, grouped_channels data g = Ok grouped)
  /\ (has_col data "users" = false ->
      grouped_channels data g = Raise (KeyError "users")).
Proof.
  intros Hg. unfold grouped_channels, sort_values_desc.
  rewrite has_col_add_conversion_rate, has_col_add_sessions_per_user by discriminate.
  rewrite (has_col_grouped data g "users" Hg)
    by (unfold agg_names; rewrite !elem_of_cons; tauto).
  split; intros ->; [eexists|]; reflexivity.
Qed.

Lemma grouped_channels_has_col (data : DataFrame) (g : string)
    (grouped : DataFrame) (col : string) :
  grouped_channels data g = Ok grouped ->
  col <> "sessions_per_user" -> col <> "conversion_rate" ->
  has_col grouped col = has_col (groupby_agg data g (agg_cols data)) col.
Proof.
  unfold grouped_channels, sort_values_desc.
  destruct (has_col _ "users"); [|discriminate].
  intros H N1 N2. inversion H; subst.
  change (has_col (add_conversion_rate
                     (add_sessions_per_user (groupby_agg data g (agg_cols data))))
                  col
          = has_col (groupby_agg data g (agg_cols data)) col).
  rewrite has_col_add_conversion_rate, has_col_add_sessions_per_user by assumption.
  reflexivity.
Qed.

Lemma grouped_has_source_medium (data : DataFrame) (g : string)
    (grouped : DataFrame) :
  group_col data = Some g ->
  grouped_channels data g = Ok grouped ->
  has_col grouped "source_medium" = has_col data "source_medium".
Proof.
  intros Hg Hok.
  rewrite (grouped_channels_has_col _ _ _ _ Hok) by discriminate.
  apply eq_true_iff_eq. rewrite has_col_true. simpl.
  rewrite elem_of_cons, agg_cols_names. unfold agg_names.
  rewrite !elem_of_cons, elem_of_nil. unfold group_col in Hg.
  destruct (has_col data "source_medium"); simpl in Hg.
  - inversion Hg. tauto.
  - destruct (has_col data "source"); inversion Hg.
    split; [|discriminate]. intros [H|[H _]]; [discriminate|].
    intuition discriminate.
Qed.

(** On the aggregate of the engine, the row that [idxmin] or [idxmax] points
    at has its 'source_medium': [loc] succeeds. *)
Lemma loc_defined (data : DataFrame) (grouped : DataFrame) (i : nat)
    (col : string) (v : num) :
  group_col data = Some "source_medium" ->
  grouped_channels data "source_medium" = Ok grouped ->
  series (rows grouped) col !! i = Some v ->
  is_ok (loc grouped i "source_medium") = true.
Proof.
  intros Hg Hok Hi. apply series_lookup_inv in Hi. destruct Hi as [row [Hr _]].
  unfold loc, getitem. rewrite Hr.
  assert (row ∈ rows grouped) as Hin by (apply list_elem_of_lookup; eauto).
  destruct (grouped_row_key _ _ _ _ Hg Hok Hin) as [k [Hk _]].
  rewrite Hk. reflexivity.
Qed.

(** Once the aggregate is built, the top performers and the distribution are
    computed without a fault: the analysis succeeds or fails with the quality
    analysis. *)
Lemma analyze_after_grouping (data : DataFrame) (g : string) (grouped : DataFrame) :
  group_col data = Some g ->
  grouped_channels data g = Ok grouped ->
  (forall e, _analyze_traffic_quality grouped = Raise e ->
             analyze_source_medium data = Raise e)
  /\ (forall q, _analyze_traffic_quality grouped = Ok q ->
                exists a, analyze_source_medium data = Ok (SourceReport a)
                          /\ Analysis.by_channel a = rows grouped
                          /\ Analysis.quality_analysis a = q).
Proof.
  intros Hg Hok.
  destruct (grouped_users_defined _ _ _ Hg Hok) as (Hcol & Hdef & Htop).
  destruct (top_performers_of_rows _ Htop) as [ps [Hps _]].
  destruct (distribution_defined grouped "users" Hcol Hdef) as [d [Hd _]].
  unfold analyze_source_medium. rewrite Hg, Hok. simpl.
  unfold _identify_top_performers. rewrite Hps. simpl. rewrite Hd. simpl.
  split.
  - intros e ->. reflexivity.
  - intros q ->. simpl. eexists. split; [reflexivity|]. split; reflexivity.
Qed.

Lemma idxmin_error (xs : list num) (e : exn) :
  idxmin xs = Raise e -> e = ValueError "Encountered all NA values".
Proof.
  unfold idxmin. destruct (idx_extreme _ xs 0 None) as [[i v]|]; [discriminate|].
  intros H. inversion H. reflexivity.
Qed.

Lemma idxmax_error (xs : list num) (e : exn) :
  idxmax xs = Raise e -> e = ValueError "Encountered all NA values".
Proof.
  unfold idxmax. destruct (idx_extreme _ xs 0 None) as [[i v]|]; [discriminate|].
  intros H. inversion H. reflexivity.
Qed.

Lemma pick_min_error (data : DataFrame) (grouped : DataFrame) (col : string)
    (e : exn) :
  group_col data = Some "source_medium" ->
  grouped_channels data "source_medium" = Ok grouped ->
  (i ← idxmin (series (rows grouped) col); loc grouped i "source_medium") = Raise e ->
  e = ValueError "Encountered all NA values"
  /\ dropna (series (rows grouped) col) = [].
Proof.
  intros Hg Hok.
  destruct (idxmin (series (rows grouped) col)) as [i|e'] eqn:E; simpl.
  - destruct (idxmin_spec _ _ E) as (v & Hv & _).
    pose proof (loc_defined _ _ _ _ _ Hg Hok Hv) as Hloc.
    destruct (loc grouped i "source_medium"); [discriminate | discriminate Hloc].
  - intros H. inversion H; subst. split; [apply (idxmin_error _ _ E)|].
    apply idxmin_raises. rewrite E. reflexivity.
Qed.

Lemma pick_max_error (data : DataFrame) (grouped : DataFrame) (col : string)
    (e : exn) :
  group_col data = Some "source_medium" ->
  grouped_channels data "source_medium" = Ok grouped ->
  (i ← idxmax (series (rows grouped) col); loc grouped i "source_medium") = Raise e ->
  e = ValueError "Encountered all NA values"
  /\ dropna (series (rows grouped) col) = [].
Proof.
  intros Hg Hok.
  destruct (idxmax (series (rows grouped) col)) as [i|e'] eqn:E; simpl.
  - destruct (idxmax_spec _ _ E) as (v & Hv & _).
    pose proof (loc_defined _ _ _ _ _ Hg Hok Hv) as Hloc.
    destruct (loc grouped i "source_medium"); [discriminate | discriminate Hloc].
  - intros H. inversion H; subst. split; [apply (idxmax_error _ _ E)|].
    apply idxmax_raises. rewrite E. reflexivity.
Qed.

Lemma quality_error (data : DataFrame) (g : string) (grouped : DataFrame) (e : exn) :
  group_col data = Some g ->
  grouped_channels data g = Ok grouped ->
  _analyze_traffic_quality grouped = Raise e ->
  e = ValueError "Encountered all NA values"
  /\ has_col data "source_medium" = true
  /\ (all_nan grouped "bounce_rate" \/ all_nan grouped "conversion_rate").
Proof.
  intros Hg Hok. pose proof (grouped_has_source_medium _ _ _ Hg Hok) as Hsm.
  unfold _analyze_traffic_quality, all_nan. rewrite Hsm.
  destruct (has_col data "source_medium") eqn:Es.
  - assert (g = "source_medium") as ->
      by (unfold group_col in Hg; rewrite Es in Hg; inversion Hg; reflexivity).
    destruct (has_col grouped "bounce_rate") eqn:Eb; simpl.
    + destruct (mbind _ (idxmin _)) as [ch|e1] eqn:E1; simpl.
      * destruct (has_col grouped "conversion_rate") eqn:Ec; simpl;
          [|discriminate].
        destruct (mbind _ (idxmax _)) as [ch2|e2] eqn:E2; simpl; [discriminate|].
        intros H. inversion H; subst.
        destruct (pick_max_error _ _ _ _ Hg Hok E2) as [-> Hn]. tauto.
      * intros H. inversion H; subst.
        destruct (pick_min_error _ _ _ _ Hg Hok E1) as [-> Hn]. tauto.
    + destruct (has_col grouped "conversion_rate") eqn:Ec; simpl; [|discriminate].
      destruct (mbind _ (idxmax _)) as [ch2|e2] eqn:E2; simpl; [discriminate|].
      intros H. inversion H; subst.
      destruct (pick_max_error _ _ _ _ Hg Hok E2) as [-> Hn]. tauto.
  - destruct (has_col grouped "bounce_rate"), (has_col grouped "conversion_rate");
      simpl; discriminate.
Qed.



(** X8. Grouped by 'source' (no 'source_medium'), the analysis never raises
    as soon as the 'users' column is there. *)
Theorem analyze_by_source_succeeds (data : DataFrame) :
  has_col data "source_medium" = false ->
  has_col data "source" = true ->
  has_col data "users" = true ->
  exists a, analyze_source_medium data = Ok (SourceReport a).
Proof.
  intros Hsm Hs Hu.
  assert (group_col data = Some "source") as Hg
    by (unfold group_col; rewrite Hsm, Hs; reflexivity).
  destruct (proj1 (grouped_channels_result data "source" Hg) Hu) as [grouped Hok].
  destruct (analyze_after_grouping _ _ _ Hg Hok) as [_ Hfine].
  destruct (_analyze_traffic_quality grouped) as [q|e] eqn:Eq.
  - destruct (Hfine q eq_refl) as [a [Ha _]]. exists a. exact Ha.
  - destruct (quality_error _ _ _ _ Hg Hok Eq) as (_ & Hsm' & _). congruence.
Qed.

Lemma analyze_by_source_succeeds_witness :
  exists a, analyze_source_medium source_only = Ok (SourceReport a).
Proof. apply (analyze_by_source_succeeds source_only); reflexivity. Defined.

(** ** The analysis groups by the key *)

Lemma analyze_reports (data : DataFrame) (g : string) (r : SourceAnalysis) :
  group_col data = Some g ->
  analyze_source_medium data = Ok r ->
  exists a grouped,
    r = SourceReport a
    /\ grouped_channels data g = Ok grouped
    /\ Analysis.by_channel a = rows grouped.
Proof.
  intros Hg Hr. destruct (grouped_channels_result data _ Hg) as [Hyes Hno].
  destruct (has_col data "users") eqn:Eu.
  - destruct (Hyes eq_refl) as [grouped Hok].
    destruct (analyze_after_grouping _ _ _ Hg Hok) as [Hraise Hfine].
    destruct (_analyze_traffic_quality grouped) as [q|e] eqn:Eq.
    + destruct (Hfine q eq_refl) as (a & Ha & Hby & _).
      rewrite Ha in Hr. injection Hr as <-. exists a, grouped. auto.
    + rewrite (Hraise e eq_refl) in Hr. discriminate Hr.
  - unfold analyze_source_medium in Hr. rewrite Hg, (Hno eq_refl) in Hr.
    discriminate Hr.
Qed.

(** C6. The source/medium analysis groups by 'source_medium' when the column
    exists, otherwise by 'source' when that column exists: what it then
    returns is never the marker but a report, every row of which carries
    under that column a value that the column has in the dataset, and every
    such value that is not missing has its row in the report. When neither
    column exists the analysis returns the marker
    'No source/medium data available' and does not raise. *)
Theorem C6_grouping_key (data : DataFrame) :
  (has_col data "source_medium" = true -> group_col data = Some "source_medium")
  /\ (has_col data "source_medium" = false -> has_col data "source" = true ->
      group_col data = Some "source")
  /\ (has_col data "source_medium" = false -> has_col data "source" = false ->
      analyze_source_medium data = Ok (SourceError "No source/medium data available"))
  /\ (forall g r,
        group_col data = Some g ->
        analyze_source_medium data = Ok r ->
        exists a,
          r = SourceReport a
          /\ (forall row,
                row ∈ Analysis.by_channel a ->
                exists k r0,
                  row !! g = Some k /\ is_missing k = false
                  /\ r0 ∈ rows data /\ r0 !! g = Some k)
          /\ (forall r0 k,
                r0 ∈ rows data -> r0 !! g = Some k -> is_missing k = false ->
                existsb (of_channel g k) (Analysis.by_channel a) = true)).
Proof.
  split; [unfold group_col; intros ->; reflexivity|].
  split; [unfold group_col; intros -> ->; reflexivity|].
  split; [unfold analyze_source_medium, group_col; intros -> ->; reflexivity|].
  intros g r Hg Hr.
  destruct (analyze_reports _ _ _ Hg Hr) as (a & grouped & -> & Hok & Hby).
  exists a. split; [reflexivity|]. rewrite Hby. split.
  - intros row Hin.
    destruct (grouped_row_key _ _ _ _ Hg Hok Hin) as [k [Hk Hkeys]].
    destruct (group_keys_from_data _ _ _ Hkeys) as [Hm [r0 [Hr0 Hrk]]].
    exists k, r0. auto.
  - intros r0 k Hr0 Hk Hm.
    pose proof (group_keys_complete _ _ _ _ Hr0 Hk Hm) as Hex.
    apply existsb_exists in Hex. destruct Hex as [k' [Hk' Heq]].
    apply existsb_exists. exists (report_row data g k'). split.
    + apply list_elem_of_In.
      rewrite (grouped_channels_perm _ _ _ Hg Hok).
      apply elem_of_map. exists k'. split; [reflexivity|].
      apply list_elem_of_In, Hk'.
    + unfold of_channel. rewrite (report_row_key _ _ _ Hg). exact Heq.
Qed.

Lemma C6_grouping_key_witness :
  group_col two_channels = Some "source_medium"
  /\ group_col source_only = Some "source"
  /\ analyze_source_medium no_channel
     = Ok (SourceError "No source/medium data available")
  /\ (exists a,
        analyze_source_medium two_channels = Ok (SourceReport a)
        /\ existsb (of_channel "source_medium" (Str "direct / none"))
                   (Analysis.by_channel a) = true)
  /\ (exists a,
        analyze_source_medium source_only = Ok (SourceReport a)
        /\ existsb (of_channel "source" (Str "bing"))
                   (Analysis.by_channel a) = true).
Proof.
  split; [|split; [|split; [|split]]].
  - apply (proj1 (C6_grouping_key two_channels)). reflexivity.
  - apply (proj1 (proj2 (C6_grouping_key source_only))); reflexivity.
  - apply (proj1 (proj2 (proj2 (C6_grouping_key no_channel)))); reflexivity.
  - destruct two_channels_report as (a & _ & _ & Ha & _).
    destruct (proj2 (proj2 (proj2 (C6_grouping_key two_channels)))
                "source_medium" (SourceReport a) eq_refl Ha)
      as (a' & Heq & _ & Hcover).
    injection Heq as <-. exists a. split; [exact Ha|].
    apply (Hcover (channel_row "direct / none" 50 50 0 80));
      [right; left | reflexivity | reflexivity].
  - destruct source_only_report as (a & Ha & _).
    destruct (proj2 (proj2 (proj2 (C6_grouping_key source_only)))
                "source" (SourceReport a) eq_refl Ha)
      as (a' & Heq & _ & Hcover).
    injection Heq as <-. exists a. split; [exact Ha|].
    apply (Hcover (row_of [("source", Str "bing"); ("users", Num (Fin 2))]));
      [right; left | reflexivity | reflexivity].
Defined.

(** ** A dataset without sessions *)

Lemma series_sum_zero (rs : list (gmap string cell)) (c : string) :
  (forall r, r ∈ rs -> summand c r == 0) -> series_sum (series rs c) == 0.
Proof.
  induction rs as [|r rs IH]; intros H; [reflexivity|].
  rewrite series_sum_cons, (H r) by left.
  rewrite IH; [lra|]. intros r' Hr'. apply H. right. exact Hr'.
Qed.

Lemma group_rows_subset (rs : list (gmap string cell)) (g : string) (k : cell)
    (r : gmap string cell) :
  r ∈ group_rows rs g k -> r ∈ rs.
Proof.
  unfold group_rows. rewrite list_elem_of_In, filter_In, <- list_elem_of_In. tauto.
Qed.

Lemma report_row_conversion_rate_nan (data : DataFrame) (g : string) (k : cell) :
  has_col data "conversions" = true -> has_col data "sessions" = true ->
  forallb no_session (rows data) = true ->
  float_at (report_row data g k) "conversion_rate" = NaN.
Proof.
  intros Hc Hs Hall. unfold report_row. rewrite Hc, Hs. simpl.
  unfold float_at at 1. rewrite lookup_insert_eq. simpl.
  apply conversion_rate_in_zero.
  rewrite float_at_insert_ne by discriminate.
  assert ("sessions" ∈ map fst (agg_cols data)) as Hin.
  { apply agg_cols_names. split; [|exact Hs].
    unfold agg_names. rewrite !elem_of_cons. tauto. }
  destruct (agg_row_lookup g k (group_rows (rows data) g k) _ _ Hin)
    as [f [Hf Hl]].
  rewrite (agg_cols_sum data "sessions" f) in Hl;
    [|unfold sum_names; rewrite !elem_of_cons; tauto | exact Hf].
  unfold float_at. rewrite Hl. simpl.
  apply series_sum_zero. intros r Hr. apply group_rows_subset in Hr.
  rewrite forallb_forall in Hall. apply list_elem_of_In in Hr.
  specialize (Hall r Hr). unfold no_session in Hall. unfold summand.
  destruct (float_at r "sessions"); [apply Qeq_bool_iff, Hall | reflexivity].
Qed.

Lemma dropna_all_nan (rs : list (gmap string cell)) (c : string) :
  (forall r, r ∈ rs -> float_at r c = NaN) -> dropna (series rs c) = [].
Proof.
  induction rs as [|r rs IH]; intros H; [reflexivity|].
  simpl. rewrite (H r) by left. apply IH. intros r' Hr'. apply H. right. exact Hr'.
Qed.

Lemma grouped_channels_columns (data : DataFrame) (g : string)
    (grouped : DataFrame) :
  grouped_channels data g = Ok grouped ->
  columns grouped
  = columns (add_conversion_rate
               (add_sessions_per_user (groupby_agg data g (agg_cols data)))).
Proof.
  unfold grouped_channels, sort_values_desc.
  destruct (has_col _ "users"); [|discriminate].
  intros H. inversion H. reflexivity.
Qed.

(** X9. A dataset with 'source_medium', 'users', 'conversions' and 'sessions'
    in which no row recorded a session has no conversion rate to compare: the
    source/medium analysis raises. *)
Theorem no_sessions_analysis_raises (data : DataFrame) :
  has_col data "source_medium" = true ->
  has_col data "users" = true ->
  has_col data "conversions" = true ->
  has_col data "sessions" = true ->
  forallb no_session (rows data) = true ->
  exists e, analyze_source_medium data = Raise e.
Proof.
  intros Hsm Hu Hc Hs Hall.
  assert (group_col data = Some "source_medium") as Hg
    by (unfold group_col; rewrite Hsm; reflexivity).
  destruct (proj1 (grouped_channels_result data _ Hg) Hu) as [grouped Hok].
  destruct (analyze_after_grouping _ _ _ Hg Hok) as [Hraise _].
  assert (has_col grouped "source_medium" = true) as Hgsm
    by (rewrite (grouped_has_source_medium _ _ _ Hg Hok); exact Hsm).
  assert (has_col grouped "conversion_rate" = true) as Hgcr.
  { unfold has_col at 1. rewrite (grouped_channels_columns _ _ _ Hok).
    fold (has_col (add_conversion_rate
                     (add_sessions_per_user
                        (groupby_agg data "source_medium" (agg_cols data))))
                  "conversion_rate").
    unfold add_conversion_rate.
    rewrite !has_col_add_sessions_per_user by discriminate.
    rewrite !(has_col_grouped data _ _ Hg)
      by (unfold agg_names; rewrite !elem_of_cons; tauto).
    rewrite Hc, Hs. simpl. rewrite has_col_assign.
    rewrite (bool_decide_eq_true_2 _ eq_refl). apply orb_true_r. }
  assert (dropna (series (rows grouped) "conversion_rate") = []) as Hnan.
  { apply dropna_all_nan. intros row Hrow.
    rewrite (grouped_channels_perm _ _ _ Hg Hok) in Hrow.
    apply elem_of_map in Hrow. destruct Hrow as [k [-> _]].
    apply report_row_conversion_rate_nan; assumption. }
  assert (idxmax (series (rows grouped) "conversion_rate")
          = Raise (ValueError "Encountered all NA values")) as Hmax.
  { apply idxmax_raises in Hnan.
    destruct (idxmax _) as [i|e] eqn:E; [discriminate|].
    rewrite (idxmax_error _ _ E). reflexivity. }
  assert (exists e, _analyze_traffic_quality grouped = Raise e) as [e He].
  { unfold _analyze_traffic_quality. rewrite Hgsm, Hgcr, Hmax.
    destruct (has_col grouped "bounce_rate"); simpl.
    - destruct (mbind _ (idxmin _)) as [ch|e]; simpl; eexists; reflexivity.
    - eexists; reflexivity. }
  exists e. apply Hraise, He.
Qed.

Lemma no_sessions_analysis_raises_witness :
  exists e, analyze_source_medium all_idle = Raise e.
Proof. apply (no_sessions_analysis_raises all_idle); reflexivity. Defined.

(** ** The ratios of the summary *)

Lemma round2_nonneg (x : Q) : 0 <= x -> 0 <= round2 x.
Proof.
  intros H. unfold round2.
  pose proof (round_half_even_floor (x * 100)) as [Hf _].
  assert (0 <= Qfloor (x * 100))%Z as H0.
  { change 0%Z with (Qfloor 0). apply Qfloor_resp_le. lra. }
  assert (0 <= round_half_even (x * 100))%Z as Hr by lia.
  rewrite Zle_Qle in Hr. change (inject_Z 0) with 0 in Hr.
  set (r := inject_Z (round_half_even (x * 100))) in *.
  assert (r / 100 == r * (1 # 100)) as -> by field. lra.
Qed.

(** X10. When the totals are not negative and the conversions do not exceed
    the sessions, the pages per session of the summary are not negative and
    its conversion rate is a percentage between 0 and 100. *)
Theorem summary_ratios_bounded (data : DataFrame) :
  0 <= _safe_sum data "pageviews" ->
  0 <= _safe_sum data "conversions" ->
  _safe_sum data "conversions" <= _safe_sum data "sessions" ->
  0 <= _calculate_pages_per_session data
  /\ 0 <= _calculate_conversion_rate data <= 100.
Proof.
  unfold _safe_sum, _calculate_pages_per_session, _calculate_conversion_rate.
  destruct (has_col data "sessions") eqn:Es; rewrite ?andb_false_r, ?andb_true_r;
    [|intros; lra].
  set (ts := series_sum (series (rows data) "sessions")).
  destruct (Qgtb ts 0) eqn:Et;
    [|intros; destruct (has_col data "pageviews"), (has_col data "conversions");
      lra].
  apply Qgtb_lt in Et. intros Hp Hc Hcs. split.
  - destruct (has_col data "pageviews"); [|lra].
    apply round2_nonneg. apply Qle_shift_div_l; lra.
  - destruct (has_col data "conversions"); [|lra].
    set (tc := series_sum (series (rows data) "conversions")) in *.
    apply (round2_range _ 0 100).
    + change (inject_Z 0) with 0.
      assert (0 <= tc / ts) by (apply Qle_shift_div_l; lra). lra.
    + change (inject_Z 100) with 100.
      assert (tc / ts <= 1) by (apply Qle_shift_div_r; lra). lra.
Qed.

Lemma summary_ratios_bounded_witness :
  0 <= _calculate_pages_per_session two_channels
  /\ 0 <= _calculate_conversion_rate two_channels <= 100.
Proof.
  apply (summary_ratios_bounded two_channels); vm_compute; discriminate.
Defined.

(** ** Events *)

Lemma Qnum_nonneg (x : Q) : (0 <= Qnum x)%Z <-> 0 <= x.
Proof. destruct x as [n d]. unfold Qle. simpl. lia. Qed.

Lemma trunc_of_nonneg (x : Q) : 0 <= x -> trunc x = Qfloor x.
Proof.
  intros H. apply Qnum_nonneg in H. destruct x as [n d]. unfold trunc. simpl in *.
  apply Z.quot_div_nonneg; lia.
Qed.

Lemma trunc_of_negative (x : Q) : x < 0 -> trunc x = Qceiling x.
Proof.
  intros H. assert (Qnum x < 0)%Z as Hn.
  { destruct (Z_lt_le_dec (Qnum x) 0) as [L|L]; [exact L|].
    apply Qnum_nonneg in L. lra. }
  destruct x as [n d]. unfold trunc, Qceiling. simpl in *.
  rewrite <- (Z.opp_involutive n) at 1.
  rewrite Z.quot_opp_l by lia. f_equal. apply Z.quot_div_nonneg; lia.
Qed.

(** [int] is monotone. *)
Lemma trunc_mono (a b : Q) : a <= b -> (trunc a <= trunc b)%Z.
Proof.
  intros H. destruct (Qlt_le_dec a 0) as [Ha|Ha], (Qlt_le_dec b 0) as [Hb|Hb].
  - rewrite (trunc_of_negative a Ha), (trunc_of_negative b Hb). apply Qceiling_resp_le, H.
  - rewrite (trunc_of_negative a Ha), (trunc_of_nonneg b Hb).
    assert (Qceiling a <= 0)%Z
      by (change 0%Z with (Qceiling 0); apply Qceiling_resp_le; lra).
    assert (0 <= Qfloor b)%Z
      by (change 0%Z with (Qfloor 0); apply Qfloor_resp_le; lra).
    lia.
  - lra.
  - rewrite (trunc_of_nonneg a Ha), (trunc_of_nonneg b Hb). apply Qfloor_resp_le, H.
Qed.

(** X11. The events of [_get_top_events]: at most [n], in descending order of
    their count, each an event name of the dataset with the integer part of
    the sum of its 'event_count'. *)
Theorem top_events_ordered (data : DataFrame) (n : nat) (tops : list TopEvent.t) :
  _get_top_events data n = Ok tops ->
  (length tops <= n)%nat
  /\ (forall i j t1 t2, (i < j)%nat -> tops !! i = Some t1 -> tops !! j = Some t2 ->
                        (TopEvent.count t2 <= TopEvent.count t1)%Z)
  /\ (forall t, t ∈ tops ->
        is_missing (TopEvent.event t) = false
        /\ (exists r, r ∈ rows data
                      /\ r !! "event_name" = Some (TopEvent.event t))
        /\ TopEvent.count t
           = trunc (series_sum
                      (series (group_rows (rows data) "event_name"
                                          (TopEvent.event t)) "event_count"))).
Proof.
  unfold _get_top_events.
  destruct (has_col data "event_name"); simpl.
  2:{ intros H. inversion H. split; [simpl; lia|].
      split; [intros i j t1 t2 _ Hi; rewrite lookup_nil in Hi; discriminate|].
      intros t Ht. apply elem_of_nil in Ht. contradiction. }
  destruct (has_col data "event_count"); simpl; [|discriminate].
  intros H. inversion H; subst. clear H.
  set (sums := map (fun k => (k, series_sum
                                   (series (group_rows (rows data) "event_name" k)
                                           "event_count")))
                   (group_keys (rows data) "event_name")).
  set (key := fun kc : cell * Q => Fin kc.2).
  split; [rewrite length_map, length_take; lia|]. split.
  - intros i j t1 t2 Hij H1 H2.
    rewrite lookup_map_list in H1, H2.
    destruct (take n (sort_desc key sums) !! i) as [kc1|] eqn:E1; [|discriminate].
    destruct (take n (sort_desc key sums) !! j) as [kc2|] eqn:E2; [|discriminate].
    simpl in H1, H2. inversion H1; inversion H2; subst. simpl.
    apply lookup_take_Some in E1, E2. destruct E1 as [E1 _], E2 as [E2 _].
    pose proof (strongly_sorted_lookup _ _ i j kc1 kc2
                  (sort_desc_sorted key sums) Hij E1 E2) as Hs.
    unfold not_after, key in Hs. simpl in Hs. apply Qgtb_le in Hs.
    apply trunc_mono, Hs.
  - intros t Ht. apply elem_of_map in Ht. destruct Ht as [kc [-> Hkc]].
    apply subseteq_take in Hkc.
    rewrite sort_desc_perm in Hkc. unfold sums in Hkc.
    apply elem_of_map in Hkc. destruct Hkc as [k [-> Hk]]. simpl.
    destruct (group_keys_from_data _ _ _ Hk) as [Hm Hr].
    split; [exact Hm|]. split; [exact Hr | reflexivity].
Qed.

Example counted_events_top :
  exists tops, _get_top_events counted_events 3 = Ok tops
               /\ map (fun t => (TopEvent.event t, TopEvent.count t)) tops
                  = [(Str "page_view", 100%Z); (Str "scroll", 25%Z);
                     (Str "file_download", 9%Z)].
Proof. eexists. split; vm_compute; reflexivity. Qed.

Lemma top_events_ordered_witness :
  exists tops, _get_top_events counted_events 3 = Ok tops
               /\ (length tops <= 3)%nat.
Proof.
  destruct counted_events_top as [tops [H _]]. exists tops. split; [exact H|].
  apply (top_events_ordered counted_events 3 tops H).
Defined.

Lemma prefix_spec (kw s : string) :
  String.prefix kw s = true <-> exists post, s = kw ++ post.
Proof.
  revert s. induction kw as [|a kw IH]; intros s.
  - split; [intros _; exists s; reflexivity | intros _; destruct s; reflexivity].
  - destruct s as [|b s]; simpl.
    + split; [discriminate | intros [post H]; discriminate].
    + destruct (Ascii.ascii_dec a b) as [->|Hne].
      * rewrite IH. split; intros [post H]; exists post.
        -- change (String b s = String b (kw ++ post)). congruence.
        -- change (String b s = String b (kw ++ post)) in H. congruence.
      * split; [discriminate|]. intros [post H].
        change (String b s = String a (kw ++ post)) in H. congruence.
Qed.

(** [contains kw s] decides that [kw] is a substring of [s]. *)
Lemma contains_spec (kw s : string) :
  contains kw s = true <-> exists pre post, s = pre ++ kw ++ post.
Proof.
  induction s as [|b s IH]; cbn [contains]; rewrite orb_true_iff, prefix_spec.
  - split.
    + intros [[post H]|H]; [|discriminate]. exists "", post. exact H.
    + intros [pre [post H]]. left. destruct pre as [|c pre]; [|discriminate].
      exists post. exact H.
  - rewrite IH. split.
    + intros [[post H]|[pre [post H]]].
      * exists "", post. exact H.
      * exists (String b pre), post.
        change (String b s = String b (pre ++ kw ++ post)). congruence.
    + intros [pre [post H]]. destruct pre as [|c pre].
      * left. exists post. exact H.
      * right. change (String b s = String c (pre ++ kw ++ post)) in H.
        exists pre, post. congruence.
Qed.

Lemma mentions_spec (keywords : list string) (s : string) :
  mentions keywords (Str s) = true <-> names_keyword keywords s.
Proof.
  unfold mentions, names_keyword. rewrite existsb_exists. simpl py_str. split.
  - intros [kw [Hkw Hc]]. apply contains_spec in Hc.
    destruct Hc as [pre [post Hc]]. exists kw, pre, post.
    split; [apply list_elem_of_In, Hkw | exact Hc].
  - intros (kw & pre & post & Hkw & Hc). exists kw.
    split; [apply list_elem_of_In, Hkw|]. apply contains_spec. eauto.
Qed.

Lemma cell_same_refl (c : cell) : cell_same c c = true.
Proof.
  destruct c as [s|[q|]]; unfold cell_same; simpl.
  - rewrite String.eqb_refl. reflexivity.
  - assert (Qeq_bool q q = true) as -> by (apply Qeq_bool_iff; reflexivity).
    reflexivity.
  - reflexivity.
Qed.

Lemma cell_same_Str (s : string) (c : cell) :
  cell_same (Str s) c = true <-> c = Str s.
Proof.
  destruct c as [t|[q|]]; unfold cell_same; simpl; rewrite ?orb_false_r.
  - rewrite String.eqb_eq. split; congruence.
  - split; discriminate.
  - split; discriminate.
Qed.

Lemma unique_from_not_seen (seen cs : list cell) (x : cell) :
  x ∈ unique_from seen cs -> existsb (cell_same x) seen = false.
Proof.
  revert seen. induction cs as [|c cs IH]; intros seen; simpl.
  - intros H. apply elem_of_nil in H. contradiction.
  - destruct (existsb (cell_same c) seen) eqn:E; [apply IH|].
    rewrite elem_of_cons. intros [->|H]; [exact E|].
    apply IH in H. simpl in H. apply orb_false_iff in H. tauto.
Qed.

Lemma unique_from_NoDup (seen cs : list cell) : NoDup (unique_from seen cs).
Proof.
  revert seen. induction cs as [|c cs IH]; intros seen; simpl; [constructor|].
  destruct (existsb (cell_same c) seen); [apply IH|].
  constructor; [|apply IH]. intros Hin.
  apply unique_from_not_seen in Hin. simpl in Hin.
  rewrite cell_same_refl in Hin. discriminate.
Qed.

Lemma unique_from_Str (seen cs : list cell) (s : string) :
  Str s ∈ unique_from seen cs <-> Str s ∈ cs /\ Str s ∉ seen.
Proof.
  revert seen. induction cs as [|c cs IH]; intros seen; simpl.
  - rewrite elem_of_nil. tauto.
  - assert (forall l, existsb (cell_same (Str s)) l = true <-> Str s ∈ l) as Hex.
    { intros l. rewrite existsb_exists. split.
      - intros [x [Hx Hs]]. apply cell_same_Str in Hs. subst.
        apply list_elem_of_In, Hx.
      - intros H. exists (Str s). split; [apply list_elem_of_In, H|].
        apply cell_same_refl. }
    destruct (existsb (cell_same c) seen) eqn:E.
    + rewrite IH, elem_of_cons. split; [tauto|].
      intros [[<-|H] Hn]; [|tauto]. apply Hex in E. contradiction.
    + rewrite !elem_of_cons, IH, elem_of_cons. split.
      * intros [<-|[H Hn]]; [|tauto]. split; [tauto|].
        intros Hin. apply Hex in Hin. congruence.
      * intros [[<-|H] Hn]; [tauto|].
        destruct (cell_same (Str s) c) eqn:Es;
          [apply cell_same_Str in Es; left; congruence|].
        right. split; [exact H|]. intros [Heq|Hs]; [|tauto].
        subst c. rewrite cell_same_refl in Es. discriminate.
Qed.

Lemma NoDup_list_filter {A : Type} (f : A -> bool) (l : list A) :
  NoDup l -> NoDup (List.filter f l).
Proof. rewrite !NoDup_ListNoDup. apply List.NoDup_filter. Qed.

Lemma unique_Str (data : DataFrame) (s : string) :
  Str s ∈ unique (rows data) "event_name" <-> event_occurs data s.
Proof.
  unfold unique, event_occurs. rewrite unique_from_Str, elem_of_nil.
  rewrite list_elem_of_omap. tauto.
Qed.

(** X12. The conversion events are the event names of the dataset whose
    lower-case form contains one of the six keywords, each reported once. *)
Theorem conversion_events_spec (data : DataFrame) :
  has_col data "event_name" = true ->
  ascii_event_names data = true ->
  NoDup (_identify_conversion_events data)
  /\ (forall e, e ∈ _identify_conversion_events data -> exists s, e = Str s)
  /\ (forall s,
        Str s ∈ _identify_conversion_events data
        <-> event_occurs data s /\ names_keyword conversion_keywords s).
Proof.
  intros Hcol _. unfold _identify_conversion_events. rewrite Hcol. simpl negb.
  cbv iota. split; [apply NoDup_list_filter, unique_from_NoDup|]. split.
  - intros e He. apply list_elem_of_In, filter_In in He. destruct He as [_ Hm].
    destruct e as [s|x]; [exists s; reflexivity|]. discriminate Hm.
  - intros s. rewrite list_elem_of_In, filter_In, <- list_elem_of_In, unique_Str.
    rewrite mentions_spec. tauto.
Qed.

Lemma conversion_events_spec_witness :
  Str "newsletter_signup" ∈ _identify_conversion_events counted_events
  /\ Str "Purchase" ∈ _identify_conversion_events counted_events.
Proof.
  destruct (conversion_events_spec counted_events eq_refl eq_refl) as (_ & _ & H).
  split; apply H.
  - split; [eexists; split; [do 4 right; left|]; reflexivity|].
    exists "signup", "newsletter_", "". split; [right; left | reflexivity].
  - split; [eexists; split; [right; left|]; reflexivity|].
    exists "purchase", "", "". split; [left | reflexivity].
Defined.

Lemma categorize_fold (es : list cell) (acc : list (string * list string)) :
  fold_left (fun categorized e =>
               match first_category e with
               | Some category => append_to category (py_str e) categorized
               | None => categorized
               end) es acc
  = map (fun cl => (cl.1, (cl.2 ++ map py_str (List.filter (in_category cl.1) es))%list))
        acc.
Proof.
  revert acc. induction es as [|e es IH]; intros acc; simpl fold_left.
  - simpl. rewrite <- (map_id acc) at 1. apply map_ext. intros [c l]. simpl.
    rewrite app_nil_r. reflexivity.
  - rewrite IH. destruct (first_category e) as [c|] eqn:Ec.
    + unfold append_to. rewrite map_map. apply map_ext. intros [c' l].
      cbn [fst snd List.filter]. unfold in_category at 2. rewrite Ec.
      destruct (String.eqb c' c) eqn:E; cbn [fst snd].
      * apply String.eqb_eq in E. subst c'.
        rewrite bool_decide_eq_true_2 by reflexivity.
        cbn [map]. rewrite <- app_assoc. reflexivity.
      * apply String.eqb_neq in E.
        rewrite bool_decide_eq_false_2 by congruence. reflexivity.
    + apply map_ext. intros [c' l]. cbn [fst snd List.filter].
      unfold in_category at 2. rewrite Ec.
      rewrite bool_decide_eq_false_2 by discriminate. reflexivity.
Qed.

Lemma first_category_Num (x : num) : first_category (Num x) = None.
Proof. reflexivity. Qed.

Lemma elem_of_category (data : DataFrame) (category s : string) :
  s ∈ map py_str (List.filter (in_category category) (unique (rows data) "event_name"))
  <-> event_occurs data s /\ first_category (Str s) = Some category.
Proof.
  rewrite <- unique_Str. split.
  - intros H. apply list_elem_of_In, in_map_iff in H. destruct H as [e [He Hin]].
    apply filter_In in Hin. destruct Hin as [Hin Hc].
    unfold in_category in Hc. apply bool_decide_eq_true in Hc.
    destruct e as [t|x]; [|rewrite first_category_Num in Hc; discriminate].
    simpl in He. subst t. split; [apply list_elem_of_In, Hin | exact Hc].
  - intros [Hin Hc]. apply list_elem_of_In, in_map_iff. exists (Str s).
    split; [reflexivity|]. apply filter_In. split; [apply list_elem_of_In, Hin|].
    unfold in_category. apply bool_decide_eq_true. exact Hc.
Qed.

Lemma category_NoDup (data : DataFrame) (category : string) :
  NoDup (map py_str (List.filter (in_category category)
                                 (unique (rows data) "event_name"))).
Proof.
  apply (NoDup_fmap_2_strong py_str).
  - intros [s|x] [t|y] Hx Hy; simpl; intros E.
    + congruence.
    + apply list_elem_of_In, filter_In in Hy. destruct Hy as [_ Hy]. discriminate.
    + apply list_elem_of_In, filter_In in Hx. destruct Hx as [_ Hx]. discriminate.
    + apply list_elem_of_In, filter_In in Hx. destruct Hx as [_ Hx]. discriminate.
  - apply NoDup_list_filter, unique_from_NoDup.
Qed.

Lemma first_category_cases (s : string) :
  (first_category (Str s) = Some "navigation"
   <-> names_keyword ["page_view"; "scroll"; "click"] s)
  /\ (first_category (Str s) = Some "interaction"
      <-> ~ names_keyword ["page_view"; "scroll"; "click"] s
          /\ names_keyword ["video_play"; "file_download"; "form_start"] s)
  /\ (first_category (Str s) = Some "conversion"
      <-> ~ names_keyword ["page_view"; "scroll"; "click"] s
          /\ ~ names_keyword ["video_play"; "file_download"; "form_start"] s
          /\ names_keyword ["purchase"; "sign_up"; "generate_lead"] s).
Proof.
  rewrite <- !mentions_spec. unfold first_category, engagement_categories.
  cbn [List.find fst snd].
  destruct (mentions ["page_view"; "scroll"; "click"] (Str s));
    [|destruct (mentions ["video_play"; "file_download"; "form_start"] (Str s));
      [|destruct (mentions ["purchase"; "sign_up"; "generate_lead"] (Str s))]];
    cbn [fmap option_fmap option_map fst];
    repeat split; intros; try discriminate; try reflexivity; try tauto;
    intuition discriminate.
Qed.

(** X13. The engagement categories are reported in the fixed order
    navigation, interaction, conversion; an event name is filed under the
    first category one of whose keywords its lower-case form contains, and so
    appears at most once in the whole report. *)
Theorem engagement_events_spec (data : DataFrame) :
  has_col data "event_name" = true ->
  ascii_event_names data = true ->
  exists navigation interaction conversion,
    _categorize_engagement_events data
    = [("navigation", navigation); ("interaction", interaction);
       ("conversion", conversion)]
    /\ NoDup (navigation ++ interaction ++ conversion)%list
    /\ forall s,
         (s ∈ navigation
          <-> event_occurs data s
              /\ names_keyword ["page_view"; "scroll"; "click"] s)
         /\ (s ∈ interaction
             <-> event_occurs data s
                 /\ ~ names_keyword ["page_view"; "scroll"; "click"] s
                 /\ names_keyword ["video_play"; "file_download"; "form_start"] s)
         /\ (s ∈ conversion
             <-> event_occurs data s
                 /\ ~ names_keyword ["page_view"; "scroll"; "click"] s
                 /\ ~ names_keyword ["video_play"; "file_download"; "form_start"] s
                 /\ names_keyword ["purchase"; "sign_up"; "generate_lead"] s).
Proof.
  intros Hcol _. unfold _categorize_engagement_events. rewrite Hcol. simpl negb.
  cbv iota. rewrite categorize_fold. unfold engagement_categories.
  cbn [map fst snd app]. do 3 eexists. split; [reflexivity|]. split.
  - rewrite !NoDup_app. repeat split; try apply category_NoDup.
    + intros s H1 H2. apply elem_of_app in H2.
      apply elem_of_category in H1. destruct H1 as [_ H1].
      destruct H2 as [H2|H2]; apply elem_of_category in H2;
        destruct H2 as [_ H2]; congruence.
    + intros s H1 H2. apply elem_of_category in H1, H2.
      destruct H1 as [_ H1], H2 as [_ H2]. congruence.
  - intros s. rewrite !elem_of_category.
    destruct (first_category_cases s) as (-> & -> & ->). tauto.
Qed.

Lemma engagement_events_spec_witness :
  exists navigation interaction conversion,
    _categorize_engagement_events counted_events
    = [("navigation", navigation); ("interaction", interaction);
       ("conversion", conversion)]
    /\ "scroll" ∈ navigation /\ "newsletter_signup" ∉ conversion.
Proof.
  destruct (engagement_events_spec counted_events eq_refl eq_refl)
    as (navigation & interaction & conversion & Heq & _ & H).
  exists navigation, interaction, conversion. split; [exact Heq|].
  vm_compute in Heq. inversion Heq. subst. split.
  - do 1 right. left.
  - intros Hin. repeat (apply elem_of_cons in Hin; destruct Hin as [Hin|Hin];
                        [discriminate|]).
    apply elem_of_nil in Hin. exact Hin.
Defined.

(** ** The advice of one run *)

Lemma recommends_conversion (metrics : DashboardMetrics.t) :
  recommends "Conversion Optimization" (_compile_recommendations metrics)
  = ltb (conversion_rate_of metrics) (Fin 3).
Proof.
  unfold _compile_recommendations, conversion_rate_of, append.
  case_rules; reflexivity.
Qed.

Lemma recommends_bounce (metrics : DashboardMetrics.t) :
  recommends "User Experience" (_compile_recommendations metrics)
  = gtb (avg_bounce_rate_of metrics) (Fin 60).
Proof.
  unfold _compile_recommendations, avg_bounce_rate_of, append.
  case_rules; reflexivity.
Qed.

Lemma emits_alert (metrics : DashboardMetrics.t) :
  emits "Engagement" "critical" (_compile_insights metrics)
  = ltb (engagement_rate_of metrics) (Fin 50).
Proof.
  unfold _compile_insights, engagement_rate_of, append.
  case_rules; reflexivity.
Qed.

(** X14. The conversion insight and the conversion recommendation of one run:
    the recommendation is made exactly below a rate of 3; it never comes with
    the positive insight; the warning insight comes without it only at a rate
    of exactly 3; a rate of 0 or less gets the recommendation and no insight. *)
Theorem conversion_advice_agrees (metrics : DashboardMetrics.t) :
  let cr := conversion_rate_of metrics in
  let insights := _compile_insights metrics in
  let recs := _compile_recommendations metrics in
  (recommends "Conversion Optimization" recs = true <-> below cr 3)
  /\ (emits "Conversion" "positive" insights = true ->
      recommends "Conversion Optimization" recs = false)
  /\ (emits "Conversion" "warning" insights = true ->
      recommends "Conversion Optimization" recs = true \/ eqn cr (Fin 3))
  /\ (at_most cr 0 ->
      recommends "Conversion Optimization" recs = true
      /\ emits "Conversion" "positive" insights = false
      /\ emits "Conversion" "warning" insights = false).
Proof.
  intros cr insights recs. subst insights recs.
  rewrite emits_positive_conversion, emits_warning_conversion,
    recommends_conversion. fold cr.
  clearbody cr. destruct cr as [a|]; unfold below, at_most, eqn, ltb.
  - change (gtb (Fin a) (Fin 3)) with (Qgtb a 3).
    change (gtb (Fin a) (Fin 0)) with (Qgtb a 0).
    change (gtb (Fin 3) (Fin a)) with (Qgtb 3 a).
    destruct (Qgtb a 3) eqn:E3, (Qgtb a 0) eqn:E0, (Qgtb 3 a) eqn:E; simpl;
      try apply Qgtb_lt in E3; try apply Qgtb_le in E3;
      try apply Qgtb_lt in E0; try apply Qgtb_le in E0;
      try apply Qgtb_lt in E; try apply Qgtb_le in E;
      intuition (try discriminate; try lra).
  - simpl. intuition discriminate.
Qed.

Lemma compute_metrics_parts (data : DataFrame) (m : DashboardMetrics.t) :
  compute_metrics data = Ok m ->
  DashboardMetrics.summary m = compute_summary_metrics data
  /\ DashboardMetrics.user_behavior m = analyze_user_behavior data
  /\ analyze_source_medium data = Ok (DashboardMetrics.source_medium_analysis m)
  /\ analyze_events data = Ok (DashboardMetrics.event_analysis m).
Proof.
  unfold compute_metrics. intros H.
  destruct (analyze_source_medium data) as [sa|e]; [|discriminate H].
  destruct (analyze_events data) as [ev|e]; [|discriminate H].
  simpl in H. inversion H. simpl. auto.
Qed.

(** X15. In the metrics the engine computes for a dataset, the recommendation
    to reduce the bounce rate is made exactly when the mean bounce rate is
    above 60 and the bounce-rate alert is raised exactly when it is above 50:
    the recommendation never comes without the alert. *)
Theorem bounce_advice_has_alert (data : DataFrame) (m : DashboardMetrics.t) :
  compute_metrics data = Ok m ->
  (recommends "User Experience" (_compile_recommendations m) = true
   <-> above (_safe_mean data "bounce_rate") 60)
  /\ (emits "Engagement" "critical" (_compile_insights m) = true
      <-> above (_safe_mean data "bounce_rate") 50)
  /\ (recommends "User Experience" (_compile_recommendations m) = true ->
      emits "Engagement" "critical" (_compile_insights m) = true).
Proof.
  intros Hm. apply compute_metrics_parts in Hm. destruct Hm as (Hs & Hb & _).
  rewrite recommends_bounce, emits_alert.
  unfold avg_bounce_rate_of, engagement_rate_of. rewrite Hs, Hb.
  change (get0 (compute_summary_metrics data) "avg_bounce_rate")
    with (_safe_mean data "bounce_rate").
  change (get0 (default ∅ (analyze_user_behavior data !! "engagement_metrics"))
               "engagement_rate")
    with (sub (Fin 100) (_safe_mean data "bounce_rate")).
  destruct (_safe_mean data "bounce_rate") as [b|]; unfold above, ltb; simpl sub.
  - change (gtb (Fin b) (Fin 60)) with (Qgtb b 60).
    change (gtb (Fin 50) (Fin (100 - b))) with (Qgtb 50 (100 - b)).
    rewrite !Qgtb_lt. repeat split; intros; lra.
  - simpl. intuition discriminate.
Qed.

(** X16. The sentence of the traffic insight is true of the data: in the
    metrics the engine computes, the channel it names is the first channel of
    the aggregate, the visitors it prints are the integer part of that
    channel's users, and no channel of the report has more users. *)
Theorem traffic_insight_names_top_channel (data : DataFrame)
    (m : DashboardMetrics.t) (i : Insight.t) :
  compute_metrics data = Ok m ->
  i ∈ _compile_insights m ->
  Insight.category i = "Traffic" ->
  exists a g r0 ch u0,
    DashboardMetrics.source_medium_analysis m = SourceReport a
    /\ Insight.description i
       = [Hole ch; Lit " drives the most users to your site with ";
          HoleThousands (trunc u0); Lit " visitors."]
    /\ group_col data = Some g
    /\ Analysis.by_channel a !! 0%nat = Some r0
    /\ r0 !! g = Some ch
    /\ r0 !! "users" = Some (Num (Fin u0))
    /\ forall row u, row ∈ Analysis.by_channel a ->
                     row !! "users" = Some (Num (Fin u)) -> u <= u0.
Proof.
  intros Hm Hi Hc. apply compute_metrics_parts in Hm.
  destruct Hm as (_ & _ & Ha & _).
  assert (exists p ps,
             get_top_performers (DashboardMetrics.source_medium_analysis m) = p :: ps
             /\ Insight.description i
                = [Hole (Performer.channel p);
                   Lit " drives the most users to your site with ";
                   HoleThousands (Performer.users p); Lit " visitors."])
    as (p & ps & Htop & Hd).
  { revert Hi. unfold _compile_insights, append.
    destruct (get_top_performers _) as [|p ps]; case_rules; simpl;
      rewrite ?elem_of_cons, ?elem_of_nil; intros Hi;
      repeat (destruct Hi as [Hi|Hi]); try contradiction; subst i;
      try discriminate Hc; exists p, ps; split; reflexivity. }
  destruct (DashboardMetrics.source_medium_analysis m) as [msg|a] eqn:Em;
    [discriminate Htop|]. simpl in Htop.
  destruct (first_performer_first_row data a p ps Ha Htop)
    as (g & r0 & u0 & Hg & Hr0 & Hch & Hu0 & Hus & Hmax).
  exists a, g, r0, (Performer.channel p), u0. rewrite Hd, Hus. auto 10.
Qed.

Lemma is_ok_inv {A : Type} (r : result A) : is_ok r = true -> exists x, r = Ok x.
Proof. destruct r as [x|e]; [eauto | discriminate]. Qed.

Lemma bounce_advice_has_alert_witness :
  exists m,
    compute_metrics high_bounce = Ok m
    /\ recommends "User Experience" (_compile_recommendations m) = true
    /\ emits "Engagement" "critical" (_compile_insights m) = true.
Proof.
  destruct (is_ok_inv (compute_metrics high_bounce)) as [m Hm];
    [vm_compute; reflexivity|].
  exists m. split; [exact Hm|].
  destruct (bounce_advice_has_alert high_bounce m Hm) as (Hrec & _ & Himp).
  assert (recommends "User Experience" (_compile_recommendations m) = true) as H
    by (apply Hrec; vm_compute; reflexivity).
  split; [exact H | exact (Himp H)].
Defined.

Lemma traffic_insight_first (m : DashboardMetrics.t) (p : Performer.t)
    (ps : list Performer.t) :
  get_top_performers (DashboardMetrics.source_medium_analysis m) = p :: ps ->
  exists i rest, _compile_insights m = i :: rest /\ Insight.category i = "Traffic".
Proof.
  intros H. unfold _compile_insights, append. rewrite H.
  case_rules; simpl; eauto.
Qed.

Lemma traffic_insight_names_top_channel_witness :
  exists m i ch u0,
    compute_metrics two_channels = Ok m
    /\ i ∈ _compile_insights m
    /\ Insight.description i
       = [Hole ch; Lit " drives the most users to your site with ";
          HoleThousands (trunc u0); Lit " visitors."].
Proof.
  destruct (is_ok_inv (compute_metrics two_channels)) as [m Hm];
    [vm_compute; reflexivity|].
  destruct (compute_metrics_parts _ _ Hm) as (_ & _ & Ha & _).
  destruct two_channels_top as (a & p & ps & Ha' & Htop & _).
  rewrite Ha' in Ha. injection Ha as Ha.
  destruct (traffic_insight_first m p ps) as (i & rest & Hi & Hc);
    [rewrite <- Ha; exact Htop|].
  assert (i ∈ _compile_insights m) as Hin by (rewrite Hi; left).
  destruct (traffic_insight_names_top_channel two_channels m i Hm Hin Hc)
    as (a0 & g & r0 & ch & u0 & _ & Hd & _).
  exists m, i, ch, u0. split; [exact Hm|]. split; [exact Hin | exact Hd].
Defined.

(** ** The top events and the total *)

Lemma series_sum_summand (rs : list (gmap string cell)) (c : string) :
  series_sum (series rs c) == Qsum (map (summand c) rs).
Proof.
  induction rs as [|r rs IH]; [reflexivity|].
  rewrite series_sum_cons, IH. reflexivity.
Qed.

Lemma Qsum_nonneg {A} (f : A -> Q) (l : list A) :
  Forall (fun x => 0 <= f x) l -> 0 <= Qsum (map f l).
Proof.
  induction 1 as [|x l Hx _ IH]; simpl; [lra|]. lra.
Qed.

Lemma Qsum_filter_le {A} (f : A -> Q) (p : A -> bool) (l : list A) :
  Forall (fun x => 0 <= f x) l ->
  Qsum (map f (List.filter p l)) <= Qsum (map f l).
Proof.
  induction 1 as [|x l Hx _ IH]; simpl; [lra|].
  destruct (p x); simpl; lra.
Qed.

Lemma Forall_list_filter {A} (P : A -> Prop) (p : A -> bool) (l : list A) :
  Forall P l -> Forall P (List.filter p l).
Proof.
  induction 1 as [|x l Hx _ IH]; simpl; [constructor|].
  destruct (p x); [constructor|]; assumption.
Qed.

Lemma Qfloor_add_le (a b : Q) : (Qfloor a + Qfloor b <= Qfloor (a + b))%Z.
Proof.
  rewrite <- (Qfloor_Z (Qfloor a + Qfloor b)). apply Qfloor_resp_le.
  rewrite inject_Z_plus.
  pose proof (Qfloor_le a). pose proof (Qfloor_le b). lra.
Qed.

Lemma Zsum_trunc_le (qs : list Q) :
  Forall (fun x => 0 <= x) qs -> (Zsum (map trunc qs) <= trunc (Qsum qs))%Z.
Proof.
  induction 1 as [|x l Hx Hl IH]; simpl; [reflexivity|].
  assert (0 <= Qsum l) as Hs.
  { rewrite <- (map_id l). apply Qsum_nonneg. exact Hl. }
  rewrite (trunc_of_nonneg (x + Qsum l)) by lra.
  rewrite (trunc_of_nonneg x) by exact Hx.
  rewrite (trunc_of_nonneg (Qsum l)) in IH by exact Hs.
  pose proof (Qfloor_add_le x (Qsum l)). lia.
Qed.

Lemma Zsum_take_le (n : nat) (l : list Z) :
  Forall (fun x => (0 <= x)%Z) l -> (Zsum (take n l) <= Zsum l)%Z.
Proof.
  intros H. revert n. induction H as [|x l Hx Hl IH]; intros [|n]; simpl;
    try lia.
  - assert (0 <= Zsum l)%Z; [|lia]. clear IH. induction Hl; simpl; lia.
  - specialize (IH n). lia.
Qed.

Lemma Zsum_perm (l l' : list Z) : l ≡ₚ l' -> Zsum l = Zsum l'.
Proof. induction 1; simpl; lia. Qed.

Lemma take_map_list {A B} (f : A -> B) (n : nat) (l : list A) :
  take n (map f l) = map f (take n l).
Proof.
  revert n. induction l as [|x l IH]; intros [|n]; simpl; try reflexivity.
  rewrite IH. reflexivity.
Qed.

Lemma map_perm_list {A B} (f : A -> B) (l l' : list A) :
  l ≡ₚ l' -> map f l ≡ₚ map f l'.
Proof. induction 1; simpl; econstructor; eassumption. Qed.

Lemma trunc_nonneg (x : Q) : 0 <= x -> (0 <= trunc x)%Z.
Proof.
  intros H. rewrite trunc_of_nonneg by exact H.
  rewrite <- (Qfloor_Z 0). apply Qfloor_resp_le. exact H.
Qed.

(** X17. The event report of a dataset whose counts are not negative: the
    counts of the top events never add up to more than the total of events,
    and there are at most ten top events, no more than there are event types. *)
Theorem top_events_within_total (data : DataFrame) (ev : Events.t) :
  analyze_events data = Ok (EventReport ev) ->
  counts_nonneg data ->
  exists s,
    Events.event_summary ev = Some s
    /\ (Zsum (map TopEvent.count (Events.top_events ev))
        <= EventSummary.total_events s)%Z
    /\ (length (Events.top_events ev) <= 10)%nat
    /\ (length (Events.top_events ev) <= EventSummary.unique_event_types s)%nat.
Proof.
  unfold analyze_events, _summarize_events, _get_top_events, _safe_sum,
    counts_nonneg.
  destruct (has_col data "event_name"); simpl negb; cbv iota; [|discriminate].
  destruct (has_col data "event_count"); simpl negb; cbv iota; [|discriminate].
  intros H Hnn. simpl in H. inversion H; subst; clear H.
  eexists. split; [reflexivity|]. cbn [Events.top_events
    EventSummary.total_events EventSummary.unique_event_types].
  set (S := fun k => series_sum (series (group_rows (rows data) "event_name" k)
                                        "event_count")).
  set (keys := group_keys (rows data) "event_name").
  set (key := fun kc : cell * Q => Fin kc.2).
  set (sums := map _ keys).
  assert (Forall (fun k => 0 <= S k) keys) as HS.
  { apply Forall_forall. intros k _. unfold S. rewrite series_sum_summand.
    apply Qsum_nonneg, Forall_list_filter, Hnn. }
  assert (length (sort_desc key sums) = length keys) as Hlen.
  { rewrite (Permutation_length (sort_desc_perm key sums)). unfold sums.
    apply length_map. }
  split; [|split; rewrite length_map, length_take; lia].
  rewrite map_map_list. cbn [TopEvent.count].
  rewrite <- (map_map_list snd trunc), <- !take_map_list.
  etransitivity; [apply Zsum_take_le|].
  { apply Forall_forall. intros z Hz. apply elem_of_map in Hz.
    destruct Hz as [q [-> Hq]]. apply elem_of_map in Hq.
    destruct Hq as [kc [-> Hkc]]. rewrite sort_desc_perm in Hkc.
    unfold sums in Hkc. apply elem_of_map in Hkc. destruct Hkc as [k [-> Hk]].
    simpl. apply trunc_nonneg. rewrite Forall_forall in HS. apply HS, Hk. }
  rewrite (Zsum_perm _ (map trunc (map snd sums)))
    by (apply map_perm_list, map_perm_list, sort_desc_perm).
  unfold sums. rewrite (map_map_list _ snd). cbn [snd]. fold S.
  etransitivity; [apply Zsum_trunc_le|].
  { apply Forall_forall. intros q Hq. apply elem_of_map in Hq.
    destruct Hq as [k [-> Hk]]. rewrite Forall_forall in HS. apply HS, Hk. }
  apply trunc_mono. unfold S, keys.
  rewrite (group_sums_add_up _ _ _ _ (group_keys_sorted _ _)).
  rewrite !series_sum_summand. apply Qsum_filter_le, Hnn.
Qed.

Lemma top_events_within_total_witness :
  exists ev s,
    analyze_events counted_events = Ok (EventReport ev)
    /\ Events.event_summary ev = Some s
    /\ (Zsum (map TopEvent.count (Events.top_events ev))
        <= EventSummary.total_events s)%Z.
Proof.
  destruct (is_ok_inv (analyze_events counted_events)) as [[msg|ev] Hev];
    [vm_compute; reflexivity | vm_compute in Hev; discriminate Hev|].
  assert (counts_nonneg counted_events) as Hnn
    by (repeat constructor; vm_compute; discriminate).
  destruct (top_events_within_total counted_events ev Hev Hnn)
    as (s & Hs & Hle & _).
  exists ev, s. auto.
Defined.

(** ** The user behaviour section *)

Lemma reading_engagement_rate (metrics : DashboardMetrics.t) :
  reading "Engagement Rate" (_generate_user_behavior_section metrics)
  = _interpret_engagement_rate (engagement_rate_of metrics).
Proof. reflexivity. Qed.

Lemma reading_pages_per_session (metrics : DashboardMetrics.t) :
  reading "Average Pages per Session" (_generate_user_behavior_section metrics)
  = _interpret_pages_per_session (pages_per_session_of metrics).
Proof. reflexivity. Qed.

Ltac eval_texts :=
  repeat match goal with
         | |- context [contains ?p ?s] =>
             let b := eval vm_compute in (contains p s) in
             change (contains p s) with b
         | |- context [says ?p ?l] =>
             let b := eval vm_compute in (says p l) in
             change (says p l) with b
         end.

Ltac compare_rates :=
  repeat match goal with
         | H : gtb (Fin ?a) (Fin ?b) = true |- _ =>
             change (Qgtb a b = true) in H; apply Qgtb_lt in H
         | H : gtb (Fin ?a) (Fin ?b) = false |- _ =>
             change (Qgtb a b = false) in H; apply Qgtb_le in H
         | H : ltb (Fin ?a) (Fin ?b) = true |- _ =>
             change (Qgtb b a = true) in H; apply Qgtb_lt in H
         | H : ltb (Fin ?a) (Fin ?b) = false |- _ =>
             change (Qgtb b a = false) in H; apply Qgtb_le in H
         end.

(** X18. Where the user behaviour section agrees with itself and with the
    insights, and where it does not. The engagement rate is read as low
    exactly when the bounce-rate alert is raised, and the praise of the
    engagement rate comes only with the reading of a high rate; but a rate of
    exactly 70, or one that is not a number, is read as high beside the
    advice to improve it, and between 2.5 and 3 pages per session the
    navigation is said to need improvement beside the praise of the internal
    linking. *)
Theorem behavior_section_readings (metrics : DashboardMetrics.t) :
  let section := _generate_user_behavior_section metrics in
  let insights := BehaviorSection.behavior_insights section in
  let r := engagement_rate_of metrics in
  let v := pages_per_session_of metrics in
  (contains "Low engagement rate" (reading "Engagement Rate" section) = true
   <-> emits "Engagement" "critical" (_compile_insights metrics) = true)
  /\ (says "engagement rate is above industry average" insights = true ->
      contains "High engagement rate" (reading "Engagement Rate" section) = true)
  /\ (contains "High engagement rate" (reading "Engagement Rate" section) = true
      /\ says "to improve engagement rate" insights = true
      <-> eqn r (Fin 70) \/ r = NaN)
  /\ (contains "Room for improvement in site navigation"
               (reading "Average Pages per Session" section) = true
      /\ says "internal linking strategy is working" insights = true
      <-> above v (25 # 10) /\ below v 3).
Proof.
  intros section insights r v. subst section insights.
  rewrite reading_engagement_rate, reading_pages_per_session, emits_alert.
  fold r v. cbn [BehaviorSection.behavior_insights _generate_user_behavior_section].
  unfold _generate_behavior_insights, append.
  fold (engagement_rate_of metrics) (pages_per_session_of metrics). fold r v.
  clearbody r v. unfold _interpret_engagement_rate, _interpret_pages_per_session.
  split; [|split; [|split]].
  - destruct (ltb r (Fin 50)); [|destruct (ltb r (Fin 70))]; eval_texts;
      intuition discriminate.
  - destruct (ltb r (Fin 50)) eqn:E50; [|destruct (ltb r (Fin 70)) eqn:E70];
      destruct (gtb r (Fin 70)) eqn:E, (gtb v (Fin (25 # 10)));
      eval_texts; try reflexivity; try discriminate;
      exfalso; destruct r as [a|]; try discriminate E; compare_rates; lra.
  - destruct r as [a|]; unfold ltb, eqn.
    + destruct (gtb (Fin 50) (Fin a)) eqn:E50;
        [|destruct (gtb (Fin 70) (Fin a)) eqn:E70];
        destruct (gtb (Fin a) (Fin 70)) eqn:E, (gtb v (Fin (25 # 10)));
        eval_texts; compare_rates;
        intuition (try discriminate; try lra).
    + destruct (gtb v (Fin (25 # 10))); eval_texts;
        (split; [intros _; right; reflexivity | intros _; split; reflexivity]).
  - destruct v as [b|]; unfold ltb, above, below.
    + destruct (gtb (Fin (15 # 10)) (Fin b)) eqn:E15;
        [|destruct (gtb (Fin 3) (Fin b)) eqn:E3];
        destruct (gtb (Fin b) (Fin (25 # 10))) eqn:E, (gtb r (Fin 70));
        eval_texts; compare_rates;
        intuition (try discriminate; try lra).
    + destruct (gtb r (Fin 70)); eval_texts; simpl; intuition discriminate.
Qed.

(** ** The source/medium section *)

Lemma engine_report (data : DataFrame) (m : DashboardMetrics.t) :
  compute_metrics data = Ok m ->
  has_col data "source_medium" = true ->
  exists a grouped,
    DashboardMetrics.source_medium_analysis m = SourceReport a
    /\ grouped_channels data "source_medium" = Ok grouped
    /\ Analysis.by_channel a = rows grouped
    /\ _analyze_traffic_quality grouped = Ok (Analysis.quality_analysis a).
Proof.
  intros Hm Hsm. apply compute_metrics_parts in Hm.
  destruct Hm as (_ & _ & Ha & _).
  assert (group_col data = Some "source_medium") as Hg
    by (unfold group_col; rewrite Hsm; reflexivity).
  destruct (grouped_channels_result data _ Hg) as [Hyes Hno].
  destruct (has_col data "users") eqn:Eu.
  - destruct (Hyes eq_refl) as [grouped Hok].
    destruct (analyze_after_grouping _ _ _ Hg Hok) as [Hraise Hfine].
    destruct (_analyze_traffic_quality grouped) as [q|e] eqn:Eq.
    + destruct (Hfine q eq_refl) as (a & Ha' & Hby & Hq).
      rewrite Ha' in Ha. injection Ha as Ha. exists a, grouped. subst q. auto.
    + rewrite (Hraise e eq_refl) in Ha. discriminate Ha.
  - unfold analyze_source_medium in Ha. rewrite Hg, (Hno eq_refl) in Ha.
    discriminate Ha.
Qed.

Lemma quality_bounce (grouped : DataFrame) (q : Quality.t) :
  _analyze_traffic_quality grouped = Ok q ->
  has_col grouped "bounce_rate" = true ->
  has_col grouped "source_medium" = true ->
  exists leader,
    Quality.best_bounce_rate_channel q = Some leader
    /\ Quality.avg_bounce_rate q
       = Some (round2n (series_mean (series (rows grouped) "bounce_rate")))
    /\ first_lowest grouped "bounce_rate" leader.
Proof.
  unfold _analyze_traffic_quality. intros H Hb Hs. rewrite Hb, Hs in H.
  destruct (mbind (fun i => loc grouped i "source_medium")
                  (idxmin (series (rows grouped) "bounce_rate")))
    as [leader|e] eqn:Emin; [|discriminate H].
  apply loc_idxmin_lowest in Emin. simpl in H.
  destruct (if has_col grouped "conversion_rate" then _ else _) as [conv|e];
    [|discriminate H].
  simpl in H. inversion H. simpl. eauto.
Qed.

Lemma lowest_of_all (rs : list (gmap string cell)) (c : string) (v : Q) :
  (forall row w, row ∈ rs -> float_at row c = Fin w -> v <= w) ->
  Forall (fun w => v <= w) (dropna (series rs c)).
Proof.
  induction rs as [|r rs IH]; intros H; [constructor|].
  assert (Forall (fun w => v <= w) (dropna (series rs c))) as Hrest
    by (apply IH; intros row w Hrow; apply H; right; exact Hrow).
  unfold series. simpl. fold (series rs c).
  destruct (float_at r c) as [x|] eqn:Ex; simpl; [|exact Hrest].
  constructor; [apply (H r); [left | exact Ex] | exact Hrest].
Qed.

Lemma Qsum_at_least (v : Q) (vs : list Q) :
  Forall (fun w => v <= w) vs -> v * Qlen vs <= Qsum vs.
Proof.
  induction 1 as [|x l Hx Hl IH].
  - change (v * 0 <= 0). lra.
  - unfold Qlen in *. rewrite Qlen_cons. cbn [Qsum]. lra.
Qed.

Lemma Qsum_least_all (v : Q) (vs : list Q) :
  Forall (fun w => v <= w) vs -> Qsum vs == v * Qlen vs ->
  Forall (fun w => w == v) vs.
Proof.
  induction 1 as [|x l Hx Hl IH]; [constructor|].
  pose proof (Qsum_at_least v l Hl).
  unfold Qlen in *. rewrite Qlen_cons. cbn [Qsum]. intros Heq.
  constructor; [lra | apply IH; lra].
Qed.

Lemma Qlen_pos (x : Q) (l : list Q) : 0 < Qlen (x :: l).
Proof.
  unfold Qlen. rewrite Qlen_cons.
  assert (0 <= inject_Z (Z.of_nat (length l))); [|lra].
  change 0 with (inject_Z 0). rewrite <- Zle_Qle. lia.
Qed.

(** X19. The sentence on the engagement leader prints the wrong figure. On
    the metrics the engine computes for a dataset with 'source_medium' and
    'bounce_rate', the channel it names is one with the lowest bounce rate of
    the report, but the rate it prints as that channel's is the mean bounce
    rate of all channels, rounded to 2 decimals (within half a hundredth of
    the mean, up to the float64 error); the leader's own rate never exceeds
    that mean, and equals it only when every channel has the same rate. *)
Theorem engagement_leader_figure (data : DataFrame) (m : DashboardMetrics.t)
    (section : SourceSection.t) :
  compute_metrics data = Ok m ->
  has_col data "source_medium" = true ->
  has_col data "bounce_rate" = true ->
  _generate_source_medium_section m = Some section ->
  exists a explanation best leader figure mean row lowest,
    DashboardMetrics.source_medium_analysis m = SourceReport a
    /\ explanation ∈ SourceSection.explanations section
    /\ Explanation.content explanation
       = quality_sentences best leader (Fin figure)
    /\ rounded_near (dropna (series (Analysis.by_channel a) "bounce_rate"))
                    mean figure
    /\ series_mean (series (Analysis.by_channel a) "bounce_rate") = Fin mean
    /\ row ∈ Analysis.by_channel a
    /\ row !! "source_medium" = Some leader
    /\ float_at row "bounce_rate" = Fin lowest
    /\ (forall row' w, row' ∈ Analysis.by_channel a ->
                       float_at row' "bounce_rate" = Fin w -> lowest <= w)
    /\ lowest <= mean
    /\ (lowest == mean ->
        forall row' w, row' ∈ Analysis.by_channel a ->
                       float_at row' "bounce_rate" = Fin w -> w == lowest).
Proof.
  intros Hm Hsm Hbr Hsec.
  destruct (engine_report data m Hm Hsm) as (a & grouped & Ha & Hok & Hby & Hq).
  assert (group_col data = Some "source_medium") as Hg
    by (unfold group_col; rewrite Hsm; reflexivity).
  assert (has_col grouped "bounce_rate" = true) as Hb.
  { rewrite (grouped_channels_has_col _ _ _ _ Hok) by discriminate.
    rewrite (has_col_grouped _ _ _ Hg); [exact Hbr|].
    unfold agg_names. rewrite !elem_of_cons. auto 10. }
  assert (has_col grouped "source_medium" = true) as Hs
    by (rewrite (grouped_has_source_medium _ _ _ Hg Hok); exact Hsm).
  destruct (quality_bounce _ _ Hq Hb Hs) as (leader & Hleader & Havg & Hlow).
  destruct Hlow as (i & row & lowest & Hi & Hch & Hv & Hall & _).
  assert (row ∈ rows grouped) as Hrow by (eapply list_elem_of_lookup_2, Hi).
  pose proof (lowest_of_all _ _ _ Hall) as Hvs.
  pose proof (elem_of_dropna_series _ _ _ _ Hrow Hv) as Hin.
  destruct (dropna (series (rows grouped) "bounce_rate")) as [|x vs] eqn:Evs;
    [apply elem_of_nil in Hin; contradiction|].
  set (mean := Qsum (x :: vs) / Qlen (x :: vs)).
  assert (series_mean (series (rows grouped) "bounce_rate") = Fin mean) as Hmean
    by (unfold series_mean; rewrite Evs; reflexivity).
  pose proof (Qlen_pos x vs) as Hpos.
  pose proof (Qsum_at_least _ _ Hvs) as Hsum.
  assert (Qsum (x :: vs) == mean * Qlen (x :: vs)) as Hmul
    by (unfold mean; field; lra).
  rewrite Hmean in Havg. simpl in Havg.
  revert Hsec. unfold _generate_source_medium_section.
  rewrite Ha. cbn [get_top_performers get_underperformers get_quality].
  unfold nonempty. rewrite Havg, Hleader. cbn [has_key orb].
  intros Hsec.
  exists a.
  eexists {| Explanation.title := "Traffic Quality Analysis" |}.
  exists (default (Str "N/A")
                  (Quality.best_conversion_channel (Analysis.quality_analysis a))),
    leader, (round2 mean), mean, row, lowest.
  split; [reflexivity|]. split.
  { destruct (Analysis.underperformers a) as [|u us];
      [|destruct (join_names _) as [joined|]; [|discriminate Hsec]];
      simpl in Hsec; inversion Hsec; subst section;
      cbn [SourceSection.explanations]; unfold append;
      destruct (Analysis.top_performers a); simpl;
      rewrite ?elem_of_cons; auto. }
  split; [reflexivity|]. rewrite Hby.
  split; [apply round2_near; reflexivity|].
  split; [exact Hmean|]. split; [exact Hrow|]. split; [exact Hch|].
  split; [exact Hv|]. split; [exact Hall|]. split.
  - apply (Qmult_le_r _ _ (Qlen (x :: vs))); [exact Hpos | lra].
  - intros Heq row' w Hrow' Hw.
    assert (Forall (fun w => w == lowest) (x :: vs)) as Hsame
      by (apply Qsum_least_all; [exact Hvs | rewrite Hmul, Heq; reflexivity]).
    rewrite Forall_forall in Hsame. apply Hsame. rewrite <- Evs.
    apply (elem_of_dropna_series _ _ row'); assumption.
Qed.

Lemma section_returned (data : DataFrame) :
  match compute_metrics data with
  | Ok m => has_key (_generate_source_medium_section m)
  | Raise _ => false
  end = true ->
  exists m section,
    compute_metrics data = Ok m
    /\ _generate_source_medium_section m = Some section.
Proof.
  destruct (compute_metrics data) as [m|e]; [|discriminate].
  destruct (_generate_source_medium_section m) as [section|] eqn:Es;
    [|discriminate].
  intros _. exists m, section. split; [reflexivity | exact Es].
Qed.

Lemma engagement_leader_figure_witness :
  exists m section a explanation best leader figure mean lowest,
    compute_metrics two_channels = Ok m
    /\ _generate_source_medium_section m = Some section
    /\ explanation ∈ SourceSection.explanations section
    /\ Explanation.content explanation
       = quality_sentences best leader (Fin figure)
    /\ rounded_near (dropna (series (Analysis.by_channel a) "bounce_rate"))
                    mean figure
    /\ lowest <= mean.
Proof.
  destruct (section_returned two_channels) as (m & section & Hm & Hsec);
    [vm_compute; reflexivity|].
  destruct (engagement_leader_figure two_channels m section Hm eq_refl eq_refl
              Hsec)
    as (a & explanation & best & leader & figure & mean & row & lowest & _
        & Hin & Hc & Hnear & _ & _ & _ & _ & _ & Hle & _).
  exists m, section, a, explanation, best, leader, figure, mean, lowest. auto 10.
Defined.
